(** * TaskManager: a shallow embedding of [TaskManager.py]

    The development follows the Python module top-down:
    - Python text ([str]) as lists of Unicode code points, with the
      pieces of the character database that [re] and [str.strip] consult;
    - a backtracking matcher for the (star-free) regular expressions of
      the module, with [re.search], [re.match] and [re.sub];
    - [Task] ([_parse_time], [should_notify]);
    - [TaskManager] ([parse_tasks_from_text], [load_tasks],
      [check_and_notify], [monitoring_context], [monitor_tasks]) in a
      state-and-exception monad over the manager's fields;
    - [validate_task_input]. *)

From Stdlib Require Import String Ascii NArith ZArith Bool Lia Arith List.
From Stdlib Require Import Permutation.
Import ListNotations.

Local Open Scope N_scope.

(** ** Python text *)

(** A Python [str] is a sequence of Unicode code points. *)
Definition char := N.
Definition str := list char.

Module Utf8.
(** Source literals are written as UTF-8 byte strings and decoded to code
    points, so that the Cyrillic samples of the test-suite can be quoted. *)

Definition cont (b : N) : N := N.land b 63.

Fixpoint bytes (s : string) : list N :=
  match s with
  | EmptyString => []
  | String a s' => N_of_ascii a :: bytes s'
  end.

Fixpoint decode_bytes (fuel : nat) (bs : list N) : str :=
  match fuel with
  | O => []
  | S fuel' =>
    match bs with
    | [] => []
    | b0 :: r0 =>
      if b0 <? 128 then b0 :: decode_bytes fuel' r0
      else if b0 <? 224 then
        match r0 with
        | b1 :: r1 => (N.land b0 31 * 64 + cont b1) :: decode_bytes fuel' r1
        | _ => []
        end
      else if b0 <? 240 then
        match r0 with
        | b1 :: b2 :: r2 =>
          (N.land b0 15 * 4096 + cont b1 * 64 + cont b2)
            :: decode_bytes fuel' r2
        | _ => []
        end
      else
        match r0 with
        | b1 :: b2 :: b3 :: r3 =>
          (N.land b0 7 * 262144 + cont b1 * 4096 + cont b2 * 64 + cont b3)
            :: decode_bytes fuel' r3
        | _ => []
        end
    end
  end.

Definition decode (s : string) : str :=
  decode_bytes (String.length s) (bytes s).

End Utf8.

Notation "'u8' s" := (Utf8.decode s%string) (at level 1, only parsing).

(** Code points the module names literally. *)
Definition LF : char := 10.      (* '\n' *)
Definition SPACE : char := 32.   (* ' ' *)
Definition HASH : char := 35.    (* '#' *)
Definition HYPHEN : char := 45.  (* '-' *)
Definition COLON : char := 58.   (* ':' *)
Definition UNDERSCORE : char := 95.

(** *** The character database

    [re] (on [str] patterns, no [re.ASCII] flag) and [str.strip] classify
    code points through the interpreter's Unicode database:
    [\d] is [Py_UNICODE_ISDECIMAL] (category Nd, any script), [\w] is
    [Py_UNICODE_ISALNUM] or underscore, [\s] and a bare [strip()] are
    [Py_UNICODE_ISSPACE]; [int()] reads a decimal digit of any script
    through [Py_UNICODE_TODECIMAL].

    The white-space set is small and fixed, so it is written out.  The
    decimal and alphanumeric tables are large and grow with each Unicode
    release; they are kept abstract, constrained by what every release
    guarantees. *)

Definition is_space (c : char) : bool :=
  ((9 <=? c) && (c <=? 13)) || ((28 <=? c) && (c <=? 32))
  || (c =? 133) || (c =? 160) || (c =? 5760)
  || ((8192 <=? c) && (c <=? 8202))
  || (c =? 8232) || (c =? 8233) || (c =? 8239) || (c =? 8287) || (c =? 12288).

Definition ascii_decimal (c : char) : option nat :=
  if (48 <=? c) && (c <=? 57) then Some (N.to_nat (c - 48)) else None.

Definition ascii_alnum (c : char) : bool :=
  ((48 <=? c) && (c <=? 57)) || ((65 <=? c) && (c <=? 90))
  || ((97 <=? c) && (c <=? 122)).

Class UnicodeDB := {
  to_decimal : char -> option nat;
  is_alnum : char -> bool;
  decimal_range : forall c v, to_decimal c = Some v -> (v < 10)%nat;
  decimal_alnum : forall c v, to_decimal c = Some v -> is_alnum c = true;
  space_not_alnum : forall c, is_space c = true -> is_alnum c = false;
  ascii_to_decimal : forall c, c < 128 -> to_decimal c = ascii_decimal c;
  ascii_is_alnum : forall c, c < 128 -> is_alnum c = ascii_alnum c
}.

(** ** Data

    The types below do not depend on the character database. *)

(** The patterns of the module use literals, classes, [\d], [\b], [^],
    [$], concatenation, alternation and [?]; no repetition. *)
Inductive regex :=
| Chr (c : char)                 (* a literal *)
| Range (lo hi : char)           (* [lo-hi] *)
| Digit                          (* \d *)
| Cat (r1 r2 : regex)
| Alt (r1 r2 : regex)
| Opt (r : regex)                (* r? *)
| WordB                          (* \b *)
| Bos                            (* ^ without re.MULTILINE *)
| Eos.                           (* $ without re.MULTILINE *)

Inductive value_error :=
| BadTimeFormat (time_str : str)     (* raised by [_parse_time] *)
| NoFormatMatch (data : str)         (* strptime: does not match format *)
| UnconvertedData (rest : str)       (* strptime: unconverted data remains *)
| OutOfRange                         (* datetime constructor *)
| NotInList                          (* list.remove(x): x not in list *)
| CannotEncode.                      (* UnicodeEncodeError, a ValueError *)

Inductive exn :=
| ValueError (why : value_error)
| OSError
| CancelledError
| KeyboardInterrupt.

(** [isinstance(e, Exception)].  From Python 3.8 on (the test-suite needs
    [AsyncMock], new in 3.8) [CancelledError] derives from
    [BaseException] directly, like [KeyboardInterrupt]. *)
Definition is_Exception (e : exn) : bool :=
  match e with
  | ValueError _ | OSError => true
  | CancelledError | KeyboardInterrupt => false
  end.

Inductive result (A : Type) :=
| Ok (a : A)
| Raise (e : exn).
Arguments Ok {A} a.
Arguments Raise {A} e.

(** [datetime.time] *)
Record pytime := mk_time {
  hour : nat; minute : nat; second : nat; microsecond : nat
}.

(** [class Task], [__slots__ = ('time', 'description')] *)
Record Task := mk_Task { time : pytime; description : str }.

(** Log records: the level and what the formatted message reports. *)
Inductive level := INFO | WARNING | ERROR.

Inductive message :=
| EmptyDescription (line_num : nat)
| ParsedTask (task : Task)
| LineError (line_num : nat) (e : exn)
| TimeNotFound (line : str)
| FileMissing
| FileEmpty
| Loaded (count : nat)
| LoadFailed (e : exn)
| NotificationSent (task : Task)
| MonitorStarted
| MonitorStopped
| MonitorCancelled
| MonitorTickError (e : exn)
| MonitorContextError (e : exn).

Record log_record := mk_log { lvl : level; msg : message }.

(** What [_send_notification] prints: the bell character, and the framed
    reminder that holds [str(task)]. *)
Inductive console_event :=
| Bell
| Reminder (task : Task).

(** [sys.stdout] as the program meets it: what a write does, given how
    many writes were tried before and what is to be shown.  [None]: the
    text is shown; [Some e]: the write raises [e] and shows nothing
    ([UnicodeEncodeError] for a text the stream's encoding lacks,
    [OSError] for a closed pipe). *)
Definition Stdout : Type := nat -> console_event -> option exn.

(** What the three [pathlib] calls of [load_tasks] answer for
    [self.tasks_file] at the moment of a call.  [st_mtime] is a float that
    is only stored and compared; an integer timestamp stands for it. *)
Record FileSystem := mk_fs {
  fs_exists : bool;
  fs_mtime : result Z;
  fs_read_text : result str
}.

(** The fields of a [TaskManager] that the code reads and writes, with
    what the code does to its surroundings: the records handed to
    [self.logger], what the console has shown, the wall clock ([clock i]
    is what the [i]-th call of [datetime.now().time()] returns), and the
    standard output with the number of writes tried on it. *)
Record State := mk_State {
  tasks : list Task;
  last_modified : Z;
  _monitoring : bool;
  logger : list log_record;
  console : list console_event;
  clock : nat -> pytime;
  clock_reads : nat;
  stdout : Stdout;
  stdout_writes : nat
}.

(** Computations of the manager: they run on a state and end in a value
    or an exception; what was written before an exception stays written. *)
Definition M (A : Type) : Type := State -> result A * State.

Definition ret {A} (a : A) : M A := fun st => (Ok a, st).

Definition raise {A} (e : exn) : M A := fun st => (Raise e, st).

Definition bind {A B} (m : M A) (k : A -> M B) : M B :=
  fun st =>
    match m st with
    | (Ok a, st') => k a st'
    | (Raise e, st') => (Raise e, st')
    end.

Notation "x <- m ;; k" := (bind m (fun x => k))
  (at level 61, m at next level, right associativity).
Notation "m ;; k" := (bind m (fun _ => k))
  (at level 61, right associativity).

Definition lift {A} (r : result A) : M A := fun st => (r, st).

(** [try: body except <class> as e: handler e] *)
Definition try_except {A} (body : M A) (catches : exn -> bool)
    (handler : exn -> M A) : M A :=
  fun st =>
    match body st with
    | (Raise e, st') => if catches e then handler e st' else (Raise e, st')
    | ok => ok
    end.

Definition is_ValueError (e : exn) : bool :=
  match e with ValueError _ => true | _ => false end.

Definition is_CancelledError (e : exn) : bool :=
  match e with CancelledError => true | _ => false end.

Definition get {A} (field : State -> A) : M A := fun st => (Ok (field st), st).

Definition set_tasks (ts : list Task) : M unit :=
  fun st => (Ok tt, mk_State ts (last_modified st) (_monitoring st)
                      (logger st) (console st) (clock st) (clock_reads st)
                      (stdout st) (stdout_writes st)).

Definition set_last_modified (m : Z) : M unit :=
  fun st => (Ok tt, mk_State (tasks st) m (_monitoring st)
                      (logger st) (console st) (clock st) (clock_reads st)
                      (stdout st) (stdout_writes st)).

Definition set_monitoring (b : bool) : M unit :=
  fun st => (Ok tt, mk_State (tasks st) (last_modified st) b
                      (logger st) (console st) (clock st) (clock_reads st)
                      (stdout st) (stdout_writes st)).

(** [self.logger.info/warning/error(...)] *)
Definition log (l : level) (m : message) : M unit :=
  fun st => (Ok tt, mk_State (tasks st) (last_modified st) (_monitoring st)
                      (logger st ++ [mk_log l m]) (console st)
                      (clock st) (clock_reads st)
                      (stdout st) (stdout_writes st)).

(** [print(...)]: one write to the standard output.  The text is shown,
    or the write raises and nothing of the text is shown. *)
Definition print (ev : console_event) : M unit :=
  fun st =>
    match stdout st (stdout_writes st) ev with
    | None =>
      (Ok tt, mk_State (tasks st) (last_modified st) (_monitoring st)
                (logger st) (console st ++ [ev])
                (clock st) (clock_reads st)
                (stdout st) (S (stdout_writes st)))
    | Some e =>
      (Raise e, mk_State (tasks st) (last_modified st) (_monitoring st)
                  (logger st) (console st)
                  (clock st) (clock_reads st)
                  (stdout st) (S (stdout_writes st)))
    end.

(** [datetime.now().time()] *)
Definition datetime_now : M pytime :=
  fun st => (Ok (clock st (clock_reads st)),
             mk_State (tasks st) (last_modified st) (_monitoring st)
               (logger st) (console st) (clock st) (S (clock_reads st))
               (stdout st) (stdout_writes st)).

Section Program.
Context {U : UnicodeDB}.

Definition is_digit (c : char) : bool :=
  match to_decimal c with Some _ => true | None => false end.

Definition is_word (c : char) : bool := is_alnum c || (c =? UNDERSCORE).

Definition in_range (lo hi c : char) : bool := (lo <=? c) && (c <=? hi).

(** *** [str] methods *)

Fixpoint dropwhile (p : char -> bool) (s : str) : str :=
  match s with
  | [] => []
  | c :: s' => if p c then dropwhile p s' else s
  end.

Definition lstrip (p : char -> bool) (s : str) : str := dropwhile p s.
Definition rstrip (p : char -> bool) (s : str) : str :=
  rev (dropwhile p (rev s)).

(** [s.strip()] *)
Definition py_strip (s : str) : str := rstrip is_space (lstrip is_space s).

(** [s.strip(chars)] *)
Definition py_strip_chars (chars : list char) (s : str) : str :=
  let p c := existsb (N.eqb c) chars in rstrip p (lstrip p s).

(** [s.startswith(c)] for a one-character prefix. *)
Definition startswith (c : char) (s : str) : bool :=
  match s with
  | [] => false
  | c0 :: _ => c0 =? c
  end.

(** [not s] *)
Definition is_empty (s : str) : bool :=
  match s with [] => true | _ => false end.

(** [s.split('\n')]: always at least one piece. *)
Fixpoint split_lines (s : str) : list str :=
  match s with
  | [] => [[]]
  | c :: s' =>
    if c =? LF then [] :: split_lines s'
    else match split_lines s' with
         | l :: ls => (c :: l) :: ls
         | [] => [[c]]
         end
  end.

(** [enumerate(xs, start)] *)
Fixpoint enumerate {A} (start : nat) (xs : list A) : list (nat * A) :=
  match xs with
  | [] => []
  | x :: xs' => (start, x) :: enumerate (S start) xs'
  end.

(** [int(s)] on a run of decimal digits (the only use here: the groups
    that [strptime] captured). *)
Fixpoint int_digits (acc : nat) (s : str) : option nat :=
  match s with
  | [] => Some acc
  | c :: s' =>
    match to_decimal c with
    | Some v => int_digits (10 * acc + v)%nat s'
    | None => None
    end
  end.

Definition py_int (s : str) : option nat :=
  match s with
  | [] => None
  | _ => int_digits 0 s
  end.

(** ** Regular expressions

    The matcher is the backtracking one of [re]: alternatives are tried
    left to right,
    [?] is greedy, and a failure of the continuation returns to the last
    choice.  [prev] is the code point before the current position ([None]
    at the start of the subject), which [\b] and [^] look at. *)

Definition word_before (prev : option char) : bool :=
  match prev with Some c => is_word c | None => false end.

Definition word_after (s : str) : bool :=
  match s with c :: _ => is_word c | [] => false end.

Definition one_char {A} (p : char -> bool) (s : str)
    (k : option char -> str -> option A) : option A :=
  match s with
  | c :: s' => if p c then k (Some c) s' else None
  | [] => None
  end.

Fixpoint rx_match {A} (r : regex) (prev : option char) (s : str)
    (k : option char -> str -> option A) : option A :=
  match r with
  | Chr c => one_char (N.eqb c) s k
  | Range lo hi => one_char (in_range lo hi) s k
  | Digit => one_char is_digit s k
  | Cat r1 r2 => rx_match r1 prev s (fun prev' s' => rx_match r2 prev' s' k)
  | Alt r1 r2 =>
    match rx_match r1 prev s k with
    | Some x => Some x
    | None => rx_match r2 prev s k
    end
  | Opt r1 =>
    match rx_match r1 prev s k with
    | Some x => Some x
    | None => k prev s
    end
  | WordB => if xorb (word_before prev) (word_after s) then k prev s else None
  | Bos => match prev with None => k prev s | Some _ => None end
  | Eos =>
    match s with
    | [] => k prev s
    | [c] => if c =? LF then k prev s else None
    | _ => None
    end
  end.

(** Length of the match of [r] that starts exactly here, if any. *)
Definition match_here (r : regex) (prev : option char) (s : str) : option nat :=
  rx_match r prev s (fun _ rest => Some (length s - length rest)%nat).

(** [re.match(r, s)]: the matched length. *)
Definition re_match (r : regex) (s : str) : option nat := match_here r None s.

(** [re.search(r, s)]: the text before the first match, the match
    ([match.group()]) and the text after it. *)
Fixpoint re_search (r : regex) (prev : option char) (s : str)
    : option (str * str * str) :=
  match match_here r prev s with
  | Some n => Some ([], firstn n s, skipn n s)
  | None =>
    match s with
    | [] => None
    | c :: s' =>
      match re_search r (Some c) s' with
      | Some (pre, m, post) => Some (c :: pre, m, post)
      | None => None
      end
    end
  end.

(** [re.sub(r, '', s)]: every non-overlapping match, found left to right,
    is deleted ([count] defaults to 0, that is, no limit).  [inside] counts
    the code points of the current match still to be dropped.  With an
    empty replacement an empty match changes nothing, so it is treated like
    no match. *)
Fixpoint re_sub_del (r : regex) (prev : option char) (s : str) (inside : nat)
    : str :=
  match s with
  | [] => []
  | c :: s' =>
    match inside with
    | S k => re_sub_del r (Some c) s' k
    | O =>
      match match_here r prev s with
      | Some (S k) => re_sub_del r (Some c) s' k
      | _ => c :: re_sub_del r (Some c) s' 0
      end
    end
  end.

(** [re.sub(r'\s+', ' ', s)]: each maximal run of white space becomes one
    space.  [in_run] tells that the previous code point was white space. *)
Fixpoint collapse_spaces (in_run : bool) (s : str) : str :=
  match s with
  | [] => []
  | c :: s' =>
    if is_space c
    then if in_run then collapse_spaces true s'
         else SPACE :: collapse_spaces true s'
    else c :: collapse_spaces false s'
  end.

Definition d0 : char := 48.
Definition hours_re : regex :=
  Alt (Cat (Opt (Range d0 49)) Digit) (Cat (Chr 50) (Range d0 51)).
Definition minutes_re : regex := Cat (Range d0 53) Digit.

(** [r'\b([01]?\d|2[0-3]):([0-5]\d)\b'] *)
Definition time_pattern : regex :=
  Cat WordB (Cat hours_re (Cat (Chr COLON) (Cat minutes_re WordB))).

(** [r'^(?:[01]?\d|2[0-3]):[0-5]\d$'] *)
Definition strict_time_pattern : regex :=
  Cat Bos (Cat hours_re (Cat (Chr COLON) (Cat minutes_re Eos))).

(** [time._cmp]: the tuples (hour, minute, second, microsecond) are
    compared. *)
Definition time_cmp (a b : pytime) : comparison :=
  match Nat.compare (hour a) (hour b) with
  | Eq =>
    match Nat.compare (minute a) (minute b) with
    | Eq =>
      match Nat.compare (second a) (second b) with
      | Eq => Nat.compare (microsecond a) (microsecond b)
      | c => c
      end
    | c => c
    end
  | c => c
  end.

Definition time_ge (a b : pytime) : bool :=
  match time_cmp a b with Lt => false | _ => true end.

Definition time_eqb (a b : pytime) : bool :=
  match time_cmp a b with Eq => true | _ => false end.

(** [datetime.strptime(s, '%H:%M').time()], after CPython's [_strptime]:
    the format compiles to [(?P<H>2[0-3]|[0-1]\d|\d):(?P<M>[0-5]\d|\d)],
    which is matched at the start of [s]; text left after the match is an
    error; the groups go through [int] and the [datetime] constructor. *)
Definition strptime_H : regex :=
  Alt (Cat (Chr 50) (Range d0 51)) (Alt (Cat (Range d0 49) Digit) Digit).
Definition strptime_M : regex := Alt (Cat (Range d0 53) Digit) Digit.

Definition strptime_groups (s : str) : option (str * str * str) :=
  rx_match strptime_H None s (fun p1 s1 =>
    rx_match (Chr COLON) p1 s1 (fun p2 s2 =>
      rx_match strptime_M p2 s2 (fun _ s3 =>
        Some (firstn (length s - length s1) s,
              firstn (length s2 - length s3) s2,
              s3)))).

Definition strptime_HM (s : str) : result pytime :=
  match strptime_groups s with
  | None => Raise (ValueError (NoFormatMatch s))
  | Some (_, _, (_ :: _) as rest) => Raise (ValueError (UnconvertedData rest))
  | Some (H, M, []) =>
    match py_int H, py_int M with
    | Some h, Some m =>
      if (h <? 24)%nat && (m <? 60)%nat then Ok (mk_time h m 0 0)
      else Raise (ValueError OutOfRange)
    | _, _ => Raise (ValueError (NoFormatMatch s))
    end
  end.

(** ** class Task *)

Definition _parse_time (time_str : str) : result pytime :=
  match re_match strict_time_pattern time_str with
  | None => Raise (ValueError (BadTimeFormat time_str))
  | Some _ => strptime_HM time_str
  end.

(** [Task(time_str, description)], that is [Task.__init__]. *)
Definition Task_init (time_str description : str) : result Task :=
  match _parse_time time_str with
  | Ok t => Ok (mk_Task t (py_strip description))
  | Raise e => Raise e
  end.

(** [Task.__eq__] between two tasks. *)
Definition Task_eq (a b : Task) : bool :=
  time_eqb (time a) (time b)
  && if list_eq_dec N.eq_dec (description a) (description b)
     then true else false.

(** [Task.should_notify] *)
Definition should_notify (self : Task) : M bool :=
  now <- datetime_now ;;
  ret (time_ge now (time self)).

(** ** class TaskManager *)

(** The body of the [for] loop of [parse_tasks_from_text], iterated over
    the numbered lines; [tasks] is the list built so far. *)
Fixpoint parse_lines (lines : list (nat * str)) (tasks : list Task)
    : M (list Task) :=
  match lines with
  | [] => ret tasks
  | (line_num, line) :: rest =>
    let line := py_strip line in
    if is_empty line || startswith HASH line then parse_lines rest tasks
    else
      match re_search time_pattern None line with
      | Some (_, time_str, _) =>
        tasks' <- try_except
          (let description :=
             py_strip_chars [SPACE; HYPHEN]
               (re_sub_del time_pattern None line 0) in
           let description := py_strip (collapse_spaces false description) in
           if is_empty description then
             log WARNING (EmptyDescription line_num) ;;
             ret tasks
           else
             task <- lift (Task_init time_str description) ;;
             log INFO (ParsedTask task) ;;
             ret (tasks ++ [task]))
          is_ValueError
          (fun e => log ERROR (LineError line_num e) ;; ret tasks) ;;
        parse_lines rest tasks'
      | None =>
        log WARNING (TimeNotFound line) ;;
        parse_lines rest tasks
      end
  end.

Definition parse_tasks_from_text (text : str) : M (list Task) :=
  parse_lines (enumerate 1 (split_lines text)) [].

Definition load_tasks (fs : FileSystem) : M bool :=
  try_except
    (if negb (fs_exists fs) then
       log ERROR FileMissing ;;
       ret false
     else
       current_modified <- lift (fs_mtime fs) ;;
       watermark <- get last_modified ;;
       if (current_modified <=? watermark)%Z then ret true
       else
         set_last_modified current_modified ;;
         content <- lift (fs_read_text fs) ;;
         if is_empty (py_strip content) then
           log WARNING FileEmpty ;;
           set_tasks [] ;;
           ret true
         else
           new_tasks <- parse_tasks_from_text content ;;
           set_tasks new_tasks ;;
           log INFO (Loaded (length new_tasks)) ;;
           ret true)
    is_Exception
    (fun e => log ERROR (LoadFailed e) ;; ret false).

Definition _send_notification (task : Task) : M unit :=
  print Bell ;;
  print (Reminder task).

(** [list.remove(x)]: drops the first element equal to [x]; [None] when
    there is none (Python raises [ValueError]). *)
Fixpoint list_remove (x : Task) (l : list Task) : option (list Task) :=
  match l with
  | [] => None
  | y :: l' =>
    if Task_eq y x then Some l'
    else match list_remove x l' with
         | Some r => Some (y :: r)
         | None => None
         end
  end.

(** First loop of [check_and_notify], over the copy [self.tasks[:]]. *)
Fixpoint notify_due (snapshot : list Task) (tasks_to_remove : list Task)
    : M (list Task) :=
  match snapshot with
  | [] => ret tasks_to_remove
  | task :: rest =>
    due <- should_notify task ;;
    if due then
      _send_notification task ;;
      log INFO (NotificationSent task) ;;
      notify_due rest (tasks_to_remove ++ [task])
    else notify_due rest tasks_to_remove
  end.

(** Second loop of [check_and_notify]. *)
Fixpoint remove_notified (tasks_to_remove : list Task) : M unit :=
  match tasks_to_remove with
  | [] => ret tt
  | task :: rest =>
    live <- get tasks ;;
    match list_remove task live with
    | Some live' => set_tasks live' ;; remove_notified rest
    | None => raise (ValueError NotInList)
    end
  end.

Definition check_and_notify : M unit :=
  snapshot <- get tasks ;;
  tasks_to_remove <- notify_due snapshot [] ;;
  remove_notified tasks_to_remove.

(** ** The monitor loop

    [monitor_tasks] never finishes by itself, so it is run against a
    script: one entry per tick, saying what the surroundings do during
    that tick: what the file system answers, and what happens while the
    coroutine is suspended in a sleep (a cancellation or another
    exception thrown in at the [await], the flag cleared by other code).
    What [load_tasks] and [check_and_notify] raise comes out of their own
    bodies, run on the file system and the standard output. *)
Record Tick := mk_Tick {
  tick_fs : FileSystem;
  sleep_fault : option exn;     (* raised by [await asyncio.sleep(1)] *)
  backoff_fault : option exn;   (* raised by [await asyncio.sleep(5)] *)
  stop_requested : bool         (* [_monitoring] cleared by other code
                                   while the loop is suspended *)
}.

Inductive outcome :=
| Returned
| Raised (e : exn)
| Running.   (* the script is used up and the coroutine is still alive *)

(** What is thrown into the coroutine at an [await], if anything, takes
    the place of the awaited result. *)
Definition faulty {A} (fault : option exn) (call : M A) : M A :=
  match fault with
  | Some e => raise e
  | None => call
  end.

(** [await asyncio.sleep(_)]: other code runs, then the sleep returns or
    an exception is thrown into the coroutine. *)
Definition asyncio_sleep (fault : option exn) (stop : bool) : M unit :=
  (if stop then set_monitoring false else ret tt) ;;
  faulty fault (ret tt).

(** The [try] suite of one iteration. *)
Definition tick_try (t : Tick) : M unit :=
  load_tasks (tick_fs t) ;;
  check_and_notify ;;
  asyncio_sleep (sleep_fault t) (stop_requested t).

(** [while self._monitoring: try: ... except CancelledError: ...
    except Exception as e: ...] *)
Fixpoint monitor_loop (script : list Tick) (st : State) : outcome * State :=
  match script with
  | [] => if _monitoring st then (Running, st) else (Returned, st)
  | t :: script' =>
    if negb (_monitoring st) then (Returned, st)
    else
      match tick_try t st with
      | (Ok _, st1) => monitor_loop script' st1
      | (Raise e, st1) =>
        if is_CancelledError e then
          (Raised e, snd (log INFO MonitorCancelled st1))
        else if is_Exception e then
          match (log ERROR (MonitorTickError e) ;;
                 asyncio_sleep (backoff_fault t) (stop_requested t)) st1 with
          | (Ok _, st2) => monitor_loop script' st2
          | (Raise e', st2) => (Raised e', st2)
          end
        else (Raised e, st1)
      end
  end.

(** [monitoring_context], wrapped around the [async with] block [body]:
    [__aenter__] runs up to the [yield]; when the block is left, the
    exception (if any) is thrown in at the [yield], so the [except] and
    [finally] clauses run. *)
Definition monitoring_context (body : State -> outcome * State)
    (st : State) : outcome * State :=
  let entered := snd ((set_monitoring true ;; log INFO MonitorStarted) st) in
  let finally := set_monitoring false ;; log INFO MonitorStopped in
  match body entered with
  | (Running, st') => (Running, st')
  | (Returned, st') => (Returned, snd (finally st'))
  | (Raised e, st') =>
    if is_Exception e
    then (Raised e, snd ((log ERROR (MonitorContextError e) ;; finally) st'))
    else (Raised e, snd (finally st'))
  end.

Definition monitor_tasks (script : list Tick) : State -> outcome * State :=
  monitoring_context (monitor_loop script).

(** ** Module-level [validate_task_input] *)
Definition validate_task_input (task_input : str) : result bool :=
  match re_search time_pattern None task_input with
  | None => Ok false
  | Some (_, time_str, _) =>
    let description :=
      py_strip_chars [SPACE; HYPHEN]
        (re_sub_del time_pattern None task_input 0) in
    if is_empty description then Ok false
    else
      match Task_init time_str description with
      | Ok _ => Ok true
      | Raise (ValueError _) => Ok false
      | Raise e => Raise e
      end
  end.

End Program.

(** * Properties *)

(** ** The sample character database *)

(** The database cut down to what the samples use: the code points up to
    U+052F (Basic Latin, the Latin supplements and extensions, IPA,
    modifier letters, combining marks, Greek, Cyrillic and its supplement)
    and the two Arabic digit rows.  There it agrees with [str.isdecimal]
    and [str.isalnum] of CPython (Unicode 14); every other code point is
    filed under "symbol".  The closed examples below are evaluated with
    it; the general statements hold for every database. *)
Definition sample_decimal (c : char) : option nat :=
  if (48 <=? c) && (c <=? 57) then Some (N.to_nat (c - 48))
  else if (1632 <=? c) && (c <=? 1641) then Some (N.to_nat (c - 1632))
  else if (1776 <=? c) && (c <=? 1785) then Some (N.to_nat (c - 1776))
  else None.

Definition sample_alnum (c : char) : bool :=
  ascii_alnum c
  || (c =? 170) || ((178 <=? c) && (c <=? 179)) || (c =? 181)
  || ((185 <=? c) && (c <=? 186)) || ((188 <=? c) && (c <=? 190))
  || ((192 <=? c) && (c <=? 214)) || ((216 <=? c) && (c <=? 246))
  || ((248 <=? c) && (c <=? 705)) || ((710 <=? c) && (c <=? 721))
  || ((736 <=? c) && (c <=? 740)) || (c =? 748) || (c =? 750)
  || ((880 <=? c) && (c <=? 884)) || ((886 <=? c) && (c <=? 887))
  || ((890 <=? c) && (c <=? 893)) || (c =? 895) || (c =? 902)
  || ((904 <=? c) && (c <=? 906)) || (c =? 908)
  || ((910 <=? c) && (c <=? 929)) || ((931 <=? c) && (c <=? 1013))
  || ((1015 <=? c) && (c <=? 1153)) || ((1162 <=? c) && (c <=? 1327))
  || ((1632 <=? c) && (c <=? 1641)) || ((1776 <=? c) && (c <=? 1785)).

Ltac bool_lia :=
  repeat match goal with
  | H : _ && _ = true |- _ => apply andb_true_iff in H; destruct H
  | H : _ || _ = true |- _ => apply orb_true_iff in H; destruct H
  | H : _ && _ = false |- _ => apply andb_false_iff in H; destruct H
  | H : _ || _ = false |- _ => apply orb_false_iff in H; destruct H
  | H : (_ <=? _) = true |- _ => apply N.leb_le in H
  | H : (_ <=? _) = false |- _ => apply N.leb_gt in H
  | H : (_ <? _) = true |- _ => apply N.ltb_lt in H
  | H : (_ <? _) = false |- _ => apply N.ltb_ge in H
  | H : (_ =? _) = true |- _ => apply N.eqb_eq in H
  | H : (_ =? _) = false |- _ => apply N.eqb_neq in H
  end; try lia.

Lemma sample_decimal_range c v : sample_decimal c = Some v -> (v < 10)%nat.
Proof.
  intros H. unfold sample_decimal in H.
  repeat match type of H with
  | (if ?b then _ else _) = _ => destruct b eqn:?
  end; inversion H; subst; bool_lia.
Qed.

Lemma sample_decimal_alnum c v :
  sample_decimal c = Some v -> sample_alnum c = true.
Proof.
  intros H. unfold sample_decimal in H. unfold sample_alnum, ascii_alnum.
  repeat match type of H with
  | (if ?b then _ else _) = _ => destruct b eqn:?
  end; try discriminate;
  repeat match goal with
  | |- _ || _ = true => apply orb_true_iff; first [right; reflexivity|left]
  end; reflexivity.
Qed.

Lemma sample_space_not_alnum c : is_space c = true -> sample_alnum c = false.
Proof.
  intros H. unfold is_space in H. unfold sample_alnum, ascii_alnum.
  repeat match goal with
  | |- _ || _ = false => apply orb_false_iff; split
  end;
  repeat match goal with
  | |- _ && _ = false => apply andb_false_iff; rewrite !N.leb_gt
  | |- (_ =? _) = false => apply N.eqb_neq
  end; bool_lia.
Qed.

Lemma sample_ascii_decimal c : c < 128 -> sample_decimal c = ascii_decimal c.
Proof.
  intros H. unfold sample_decimal, ascii_decimal.
  destruct ((48 <=? c) && (c <=? 57)) eqn:E1; [reflexivity|].
  destruct ((1632 <=? c) && (c <=? 1641)) eqn:E2; [bool_lia|].
  destruct ((1776 <=? c) && (c <=? 1785)) eqn:E3; [bool_lia|]. reflexivity.
Qed.

Lemma sample_ascii_alnum c : c < 128 -> sample_alnum c = ascii_alnum c.
Proof.
  intros H. unfold sample_alnum.
  repeat match goal with
  | |- ?a || ?b = _ => replace b with false; [rewrite orb_false_r|symmetry]
  end; try reflexivity;
  repeat match goal with
  | |- _ && _ = false => apply andb_false_iff; rewrite !N.leb_gt
  | |- (_ =? _) = false => apply N.eqb_neq
  end; lia.
Qed.

Definition sample_db : UnicodeDB :=
  {| to_decimal := sample_decimal;
     is_alnum := sample_alnum;
     decimal_range := sample_decimal_range;
     decimal_alnum := sample_decimal_alnum;
     space_not_alnum := sample_space_not_alnum;
     ascii_to_decimal := sample_ascii_decimal;
     ascii_is_alnum := sample_ascii_alnum |}.

(** ** The time patterns in closed form *)

Section TimePatterns.
Context {U : UnicodeDB}.

Definition hour2 (a b : char) : bool :=
  (in_range 48 49 a && is_digit b) || ((50 =? a) && in_range 48 51 b).

(** The texts [[01]?\d|2[0-3]] [:] [[0-5]\d] can consume. *)
Definition time_token (t : str) : bool :=
  match t with
  | [a; b; k; c; d] =>
    hour2 a b && (COLON =? k) && in_range 48 53 c && is_digit d
  | [b; k; c; d] => is_digit b && (COLON =? k) && in_range 48 53 c && is_digit d
  | _ => false
  end.

Definition time_match (prev : option char) (s : str) : option nat :=
  if word_before prev then None
  else
    match s with
    | a :: b :: k :: c :: d :: rest =>
      if time_token [a; b; k; c; d] && negb (word_after rest) then Some 5%nat
      else if time_token [a; b; k; c] && negb (is_word d) then Some 4%nat
      else None
    | [b; k; c; d] => if time_token [b; k; c; d] then Some 4%nat else None
    | _ => None
    end.

Lemma range_digit lo hi c :
  48 <= lo -> hi <= 57 -> in_range lo hi c = true -> is_digit c = true.
Proof.
  unfold in_range, is_digit. intros Hlo Hhi H. bool_lia.
  rewrite ascii_to_decimal by lia. unfold ascii_decimal.
  replace ((48 <=? c) && (c <=? 57)) with true; [reflexivity|].
  symmetry. apply andb_true_iff. split; apply N.leb_le; lia.
Qed.

Lemma char_digit c0 c :
  48 <= c0 <= 57 -> (c0 =? c) = true -> is_digit c = true.
Proof.
  intros H E. apply N.eqb_eq in E. subst c.
  apply (range_digit 48 57); unfold in_range; try lia.
  apply andb_true_iff. split; apply N.leb_le; lia.
Qed.

Lemma digit_not_colon c : is_digit c = true -> (COLON =? c) = false.
Proof.
  unfold is_digit, COLON. intros H. apply N.eqb_neq. intros <-.
  rewrite ascii_to_decimal in H by lia. discriminate.
Qed.

Lemma digit_word c : is_digit c = true -> is_word c = true.
Proof.
  unfold is_digit, is_word. destruct (to_decimal c) eqn:E; [|discriminate].
  intros _. rewrite (decimal_alnum _ _ E). reflexivity.
Qed.

Lemma colon_not_word : is_word COLON = false.
Proof.
  unfold is_word, COLON. rewrite ascii_is_alnum by lia. reflexivity.
Qed.

(** Case analysis on the character tests of a goal, with what the tests
    imply about each other. *)

Lemma range01_digit c : in_range 48 49 c = true -> is_digit c = true.
Proof. apply range_digit; lia. Qed.
Lemma range03_digit c : in_range 48 51 c = true -> is_digit c = true.
Proof. apply range_digit; lia. Qed.
Lemma range05_digit c : in_range 48 53 c = true -> is_digit c = true.
Proof. apply range_digit; lia. Qed.
Lemma char2_digit c : (50 =? c) = true -> is_digit c = true.
Proof. apply char_digit; lia. Qed.

Ltac note H :=
  let T := type of H in
  lazymatch goal with
  | _ : T |- _ => fail
  | _ => pose proof H
  end.

Ltac facts :=
  repeat match goal with
  | H : in_range 48 49 ?c = true |- _ => note (range01_digit c H)
  | H : in_range 48 51 ?c = true |- _ => note (range03_digit c H)
  | H : in_range 48 53 ?c = true |- _ => note (range05_digit c H)
  | H : (50 =? ?c) = true |- _ => note (char2_digit c H)
  | H : is_digit ?c = true |- _ => note (digit_not_colon c H)
  | H : is_digit ?c = true |- _ => note (digit_word c H)
  end.

Ltac simp := cbn -[N.eqb in_range is_digit is_word Nat.sub].

Ltac atom b :=
  lazymatch b with
  | is_digit _ => idtac
  | in_range _ _ _ => idtac
  | N.eqb _ _ => idtac
  | is_word _ => idtac
  end.

Ltac split_on b := destruct b eqn:?; facts; simp; try congruence.

Ltac step :=
  match goal with
  | H : ?b = _ |- context [?b] => rewrite H; simp; try congruence
  | |- context [if ?b then _ else _] => atom b; split_on b
  | |- context [is_digit ?x] => split_on (is_digit x)
  | |- context [in_range ?l ?h ?x] => split_on (in_range l h x)
  | |- context [N.eqb ?l ?x] => split_on (N.eqb l x)
  | |- context [is_word ?x] => split_on (is_word x)
  end.

Lemma match_here_time prev s :
  match_here time_pattern prev s = time_match prev s.
Proof.
  unfold match_here, time_match, time_pattern, hours_re, minutes_re,
    time_token, hour2, d0.
  destruct (word_before prev) eqn:Hprev;
  destruct s as [|a [|b [|k [|c [|d [|e s]]]]]];
    simp; rewrite ?Hprev; simp; try reflexivity.
  all: repeat step.
  all: try reflexivity.
  all: try (f_equal; lia).
Qed.

Definition strict_match (s : str) : option nat :=
  match s with
  | [b; k; c; d] => if time_token s then Some 4%nat else None
  | [a; b; k; c; d] =>
    if time_token s then Some 5%nat
    else if time_token [a; b; k; c] && (d =? LF) then Some 4%nat
    else None
  | [a; b; k; c; d; e] =>
    if time_token [a; b; k; c; d] && (e =? LF) then Some 5%nat else None
  | _ => None
  end.

Lemma re_match_strict s :
  re_match strict_time_pattern s = strict_match s.
Proof.
  unfold re_match, match_here, strict_match, strict_time_pattern, hours_re,
    minutes_re, time_token, hour2, d0.
  destruct s as [|a [|b [|k [|c [|d [|e [|f s]]]]]]]; simp; try reflexivity.
  all: repeat step.
  all: try reflexivity.
  all: try (f_equal; lia).
Qed.

Definition digit_value (c : char) : nat :=
  match to_decimal c with Some v => v | None => 0%nat end.

Definition token_time (t : str) : pytime :=
  match t with
  | [a; b; _; c; d] =>
    mk_time (10 * digit_value a + digit_value b)
            (10 * digit_value c + digit_value d) 0 0
  | [b; _; c; d] =>
    mk_time (digit_value b) (10 * digit_value c + digit_value d) 0 0
  | _ => mk_time 0 0 0 0
  end.

Lemma is_digit_value c :
  is_digit c = true ->
  to_decimal c = Some (digit_value c) /\ (digit_value c < 10)%nat.
Proof.
  unfold is_digit, digit_value. destruct (to_decimal c) eqn:E; [|discriminate].
  intros _. split; [reflexivity|]. exact (decimal_range _ _ E).
Qed.

Lemma range_value lo hi c :
  48 <= lo -> hi <= 57 -> in_range lo hi c = true ->
  (N.to_nat (lo - 48) <= digit_value c <= N.to_nat (hi - 48))%nat.
Proof.
  unfold in_range, digit_value. intros Hlo Hhi H. bool_lia.
  rewrite ascii_to_decimal by lia. unfold ascii_decimal.
  replace ((48 <=? c) && (c <=? 57)) with true; [lia|].
  symmetry. apply andb_true_iff. split; apply N.leb_le; lia.
Qed.

Lemma char_value c0 c :
  48 <= c0 <= 57 -> (c0 =? c) = true -> digit_value c = N.to_nat (c0 - 48).
Proof.
  intros H E. apply N.eqb_eq in E. subst c. unfold digit_value.
  rewrite ascii_to_decimal by lia. unfold ascii_decimal.
  replace ((48 <=? c0) && (c0 <=? 57)) with true; [reflexivity|].
  symmetry. apply andb_true_iff. split; apply N.leb_le; lia.
Qed.

Lemma strptime_groups_token s :
  time_token s = true ->
  strptime_groups s =
    match s with
    | [a; b; k; c; d] => Some ([a; b], [c; d], [])
    | [b; k; c; d] => Some ([b], [c; d], [])
    | _ => None
    end.
Proof.
  unfold strptime_groups, strptime_H, strptime_M, time_token, hour2, d0.
  destruct s as [|a [|b [|k [|c [|d [|e s]]]]]]; try discriminate; simp.
  all: repeat step; try discriminate.
  all: intros _; reflexivity.
Qed.

Ltac bsplit :=
  repeat match goal with
  | H : _ && _ = true |- _ => apply andb_true_iff in H; destruct H
  | H : _ || _ = true |- _ => apply orb_true_iff in H; destruct H
  end.

Lemma token_time_range t :
  time_token t = true ->
  (hour (token_time t) < 24)%nat /\ (minute (token_time t) < 60)%nat.
Proof.
  unfold time_token, hour2.
  destruct t as [|a [|b [|k [|c [|d [|e s]]]]]]; try discriminate;
    cbn [token_time hour minute]; intros H; bsplit;
    repeat match goal with
    | H : in_range _ _ _ = true |- _ => apply range_value in H; [|lia|lia]; cbn in H
    | H : is_digit _ = true |- _ => apply is_digit_value in H; destruct H as [_ H]
    | H : (50 =? _) = true |- _ => apply char_value in H; [|lia]; cbn in H
    end; lia.
Qed.

Lemma strptime_token s :
  time_token s = true -> strptime_HM s = Ok (token_time s).
Proof.
  intros H. unfold strptime_HM.
  rewrite (strptime_groups_token s H).
  pose proof (token_time_range s H) as [Hh Hm].
  revert H Hh Hm. unfold time_token, hour2.
  destruct s as [|a [|b [|k [|c [|d [|e s]]]]]]; try discriminate;
    cbn [token_time hour minute py_int int_digits]; intros H Hh Hm; bsplit;
    repeat match goal with
    | H : in_range _ _ _ = true |- _ =>
      apply range_digit in H; [|lia|lia]
    | H : (50 =? _) = true |- _ => apply char2_digit in H
    | H : is_digit _ = true |- _ =>
      apply is_digit_value in H; destruct H as [H _]; rewrite H
    end;
    cbn [Nat.mul Nat.add] in *; rewrite ?Nat.add_0_r in *;
    apply Nat.ltb_lt in Hh, Hm; rewrite Hh, Hm; reflexivity.
Qed.

Lemma strptime_token_newline s :
  time_token s = true ->
  exists why, strptime_HM (s ++ [LF]) = Raise (ValueError why).
Proof.
  intros H. unfold strptime_HM.
  destruct (strptime_groups (s ++ [LF])) as [[[Hg Mg] rest]|] eqn:E; [|eauto].
  destruct rest; [|eauto].
  exfalso. revert H E.
  unfold strptime_groups, strptime_H, strptime_M, time_token, hour2, d0.
  destruct s as [|a [|b [|k [|c [|d [|e s]]]]]]; try discriminate; simp.
  all: repeat step; try discriminate.
Qed.

Lemma parse_time_only_ValueError s e :
  _parse_time s = Raise e -> is_ValueError e = true.
Proof.
  unfold _parse_time, strptime_HM.
  repeat match goal with
  | |- context [match ?x with _ => _ end] => destruct x
  end; intros H; inversion H; reflexivity.
Qed.

(** [_parse_time] accepts exactly the time tokens, and reads them as the
    hour and minute their digits denote. *)
Lemma parse_time_token s t :
  _parse_time s = Ok t <-> time_token s = true /\ t = token_time s.
Proof.
  unfold _parse_time. rewrite re_match_strict. split.
  - destruct (time_token s) eqn:E.
    + rewrite (strptime_token s E). destruct (strict_match s); [|discriminate].
      intros H. inversion H. auto.
    + unfold strict_match.
      destruct s as [|a [|b [|k [|c [|d [|e [|f s]]]]]]]; try discriminate.
      * rewrite E. discriminate.
      * rewrite E.
        destruct (time_token [a; b; k; c] && (d =? LF)) eqn:E2; [|discriminate].
        bool_lia. subst d.
        destruct (strptime_token_newline [a; b; k; c]) as [why Hw]; [assumption|].
        cbn [app] in Hw. rewrite Hw. discriminate.
      * destruct (time_token [a; b; k; c; d] && (e =? LF)) eqn:E2; [|discriminate].
        bool_lia. subst e.
        destruct (strptime_token_newline [a; b; k; c; d]) as [why Hw]; [assumption|].
        cbn [app] in Hw. rewrite Hw. discriminate.
  - intros [E ->]. rewrite (strptime_token s E).
    unfold strict_match.
    destruct s as [|a [|b [|k [|c [|d [|e [|f s]]]]]]]; try discriminate;
      rewrite E; reflexivity.
Qed.

(** What [re.search] finds is a time token, delimited by word boundaries. *)
Lemma time_match_token prev s n :
  time_match prev s = Some n ->
  time_token (firstn n s) = true /\ length (firstn n s) = n /\
  word_before prev = false /\ word_after (skipn n s) = false.
Proof.
  unfold time_match. destruct (word_before prev); [discriminate|].
  destruct s as [|a [|b [|k [|c [|d rest]]]]]; try discriminate.
  - destruct (time_token [a; b; k; c]) eqn:E; [|discriminate].
    intros H. inversion H. subst n. cbn. auto.
  - destruct (time_token [a; b; k; c; d] && negb (word_after rest)) eqn:E.
    + intros H. inversion H. subst n. bsplit. cbn [firstn skipn length].
      destruct (word_after rest); [discriminate|]. auto.
    + destruct (time_token [a; b; k; c] && negb (is_word d)) eqn:E2; [|discriminate].
      intros H. inversion H. subst n. bsplit. cbn [firstn skipn length word_after].
      destruct (is_word d); [discriminate|]. auto.
Qed.

Lemma re_search_time_token prev s pre t post :
  re_search time_pattern prev s = Some (pre, t, post) ->
  s = pre ++ t ++ post /\ time_token t = true.
Proof.
  revert prev pre t post.
  induction s as [|c s IH]; intros prev pre t post; cbn [re_search];
    rewrite match_here_time.
  - replace (time_match prev []) with (@None nat);
      [discriminate|unfold time_match; destruct (word_before prev); reflexivity].
  - destruct (time_match prev (c :: s)) as [n|] eqn:E.
    + intros H. inversion H. subst. cbn [app].
      rewrite firstn_skipn. split; [reflexivity|].
      apply (time_match_token _ _ _ E).
    + destruct (re_search time_pattern (Some c) s) as [[[pre' t'] post']|] eqn:E2;
        [|discriminate].
      intros H. inversion H. subst.
      destruct (IH _ _ _ _ E2) as [-> Ht]. auto.
Qed.

End TimePatterns.

(** ** [parse_tasks_from_text], line by line *)

Definition add_records (rs : list log_record) (st : State) : State :=
  mk_State (tasks st) (last_modified st) (_monitoring st) (logger st ++ rs)
    (console st) (clock st) (clock_reads st) (stdout st) (stdout_writes st).

Lemma add_records_nil st : add_records [] st = st.
Proof. destruct st. unfold add_records. cbn. rewrite app_nil_r. reflexivity. Qed.

Lemma add_records_app rs1 rs2 st :
  add_records rs2 (add_records rs1 st) = add_records (rs1 ++ rs2) st.
Proof. unfold add_records. cbn. rewrite app_assoc. reflexivity. Qed.

Lemma log_add_records l m st : log l m st = (Ok tt, add_records [mk_log l m] st).
Proof. reflexivity. Qed.

Section LineByLine.
Context {U : UnicodeDB}.

(** The description the parser derives from a (stripped) line. *)
Definition description_of (line : str) : str :=
  py_strip (collapse_spaces false
    (py_strip_chars [SPACE; HYPHEN] (re_sub_del time_pattern None line 0))).

(** What one line contributes: the tasks appended and the records logged. *)
Definition line_result (line_num : nat) (raw : str)
    : list Task * list log_record :=
  let line := py_strip raw in
  if is_empty line || startswith HASH line then ([], [])
  else
    match re_search time_pattern None line with
    | None => ([], [mk_log WARNING (TimeNotFound line)])
    | Some (_, time_str, _) =>
      if is_empty (description_of line)
      then ([], [mk_log WARNING (EmptyDescription line_num)])
      else
        match Task_init time_str (description_of line) with
        | Ok task => ([task], [mk_log INFO (ParsedTask task)])
        | Raise e => ([], [mk_log ERROR (LineError line_num e)])
        end
    end.

Definition lines_tasks (lines : list (nat * str)) : list Task :=
  flat_map (fun p => fst (line_result (fst p) (snd p))) lines.

Definition lines_records (lines : list (nat * str)) : list log_record :=
  flat_map (fun p => snd (line_result (fst p) (snd p))) lines.

Lemma Task_init_only_ValueError t d e :
  Task_init t d = Raise e -> is_ValueError e = true.
Proof.
  unfold Task_init. destruct (_parse_time t) eqn:E; [discriminate|].
  intros H. inversion H. subst. exact (parse_time_only_ValueError _ _ E).
Qed.

Lemma parse_lines_spec lines acc st :
  parse_lines lines acc st =
    (Ok (acc ++ lines_tasks lines), add_records (lines_records lines) st).
Proof.
  revert acc st. induction lines as [|[n raw] lines IH]; intros acc st.
  - cbn. rewrite app_nil_r, add_records_nil. reflexivity.
  - cbn [parse_lines]. unfold lines_tasks, lines_records in *.
    cbn [flat_map fst snd]. unfold line_result at 1 3.
    cbv zeta. fold (description_of (py_strip raw)).
    destruct (is_empty (py_strip raw) || startswith HASH (py_strip raw)).
    { rewrite IH. reflexivity. }
    destruct (re_search time_pattern None (py_strip raw)) as [[[pre t] post]|].
    2:{ unfold bind. rewrite log_add_records, IH, add_records_app. reflexivity. }
    unfold bind at 1. unfold try_except.
    destruct (is_empty (description_of (py_strip raw))).
    { unfold bind at 1. rewrite log_add_records. unfold ret.
      rewrite IH, add_records_app. reflexivity. }
    unfold bind at 1. unfold lift.
    destruct (Task_init t (description_of (py_strip raw))) as [task|e] eqn:E.
    + unfold bind at 1. rewrite log_add_records. unfold ret.
      rewrite IH, add_records_app, <- app_assoc. reflexivity.
    + rewrite (Task_init_only_ValueError _ _ _ E).
      unfold bind at 1. rewrite log_add_records. unfold ret.
      rewrite IH, add_records_app. reflexivity.
Qed.

Lemma parse_tasks_from_text_spec text st :
  parse_tasks_from_text text st =
    (Ok (lines_tasks (enumerate 1 (split_lines text))),
     add_records (lines_records (enumerate 1 (split_lines text))) st).
Proof. unfold parse_tasks_from_text. rewrite parse_lines_spec. reflexivity. Qed.

(** A text that [re.search] matched always constructs. *)
Lemma Task_init_searched prev line pre t post d :
  re_search time_pattern prev line = Some (pre, t, post) ->
  Task_init t d = Ok (mk_Task (token_time t) (py_strip d)).
Proof.
  intros H. apply re_search_time_token in H. destruct H as [_ Ht].
  unfold Task_init.
  assert (E : _parse_time t = Ok (token_time t)) by (apply parse_time_token; auto).
  rewrite E. reflexivity.
Qed.

Definition is_ERROR (r : log_record) : bool :=
  match lvl r with ERROR => true | _ => false end.

Lemma line_result_no_error n raw :
  forallb (fun r => negb (is_ERROR r)) (snd (line_result n raw)) = true.
Proof.
  unfold line_result. cbv zeta.
  destruct (is_empty (py_strip raw) || startswith HASH (py_strip raw)); [reflexivity|].
  destruct (re_search time_pattern None (py_strip raw)) as [[[pre t] post]|] eqn:E;
    [|reflexivity].
  destruct (is_empty (description_of (py_strip raw))); [reflexivity|].
  rewrite (Task_init_searched _ _ _ _ _ _ E). reflexivity.
Qed.

Lemma lines_records_no_error lines :
  forallb (fun r => negb (is_ERROR r)) (lines_records lines) = true.
Proof.
  unfold lines_records. induction lines as [|[n raw] lines IH]; [reflexivity|].
  cbn [flat_map fst snd]. rewrite forallb_app, line_result_no_error, IH. reflexivity.
Qed.

End LineByLine.

(** ** Claims about parsing *)

(** The malformed batch of the test-suite:
    ["invalid time - Задача\n25:70 - X\n- Y\n"]. *)
Definition malformed_batch : str :=
  u8 "invalid time - Задача" ++ [LF] ++ u8 "25:70 - X" ++ [LF]
    ++ u8 "- Y" ++ [LF].

(** What a line may contribute: nothing and no record (only for a blank
    line or a comment), nothing and one WARNING or ERROR record, or one
    task and one INFO record. *)
Definition line_shape {U : UnicodeDB} (raw : str)
    (r : list Task * list log_record) : Prop :=
  match r with
  | ([], []) =>
    is_empty (py_strip raw) || startswith HASH (py_strip raw) = true
  | ([], [rec]) => lvl rec = WARNING \/ lvl rec = ERROR
  | ([_], [rec]) => lvl rec = INFO
  | _ => False
  end.

(** C4: [parse_tasks_from_text] is total: on every text and in every
    state it returns a list and raises nothing; the lines are handled one
    by one, each contributing on its own (a malformed line is skipped with
    one WARNING or ERROR record and the lines after it are still parsed;
    only blank lines and comments are skipped silently); the malformed
    batch of the test-suite parses to the empty list with three
    warnings. *)
Theorem parse_tasks_from_text_total :
  (forall (U : UnicodeDB) (text : str) (st : State),
     parse_tasks_from_text text st =
       (Ok (lines_tasks (enumerate 1 (split_lines text))),
        add_records (lines_records (enumerate 1 (split_lines text))) st))
  /\ (forall (U : UnicodeDB) (n : nat) (raw : str),
        line_shape raw (line_result n raw))
  /\ (forall st : State,
        @parse_tasks_from_text sample_db malformed_batch st =
          (Ok [],
           add_records
             [mk_log WARNING (TimeNotFound (u8 "invalid time - Задача"));
              mk_log WARNING (TimeNotFound (u8 "25:70 - X"));
              mk_log WARNING (TimeNotFound (u8 "- Y"))] st)).
Proof.
  split; [|split].
  - intros U text st. apply parse_tasks_from_text_spec.
  - intros U n raw. unfold line_shape, line_result. cbv zeta.
    destruct (is_empty (py_strip raw) || startswith HASH (py_strip raw));
      [reflexivity|].
    destruct (re_search time_pattern None (py_strip raw)) as [[[pre t] post]|];
      [|left; reflexivity].
    destruct (is_empty (description_of (py_strip raw))); [left; reflexivity|].
    destruct (Task_init t (description_of (py_strip raw))); [reflexivity|].
    right; reflexivity.
  - intros st. rewrite parse_tasks_from_text_spec.
    assert (E1 : @lines_tasks sample_db
                   (enumerate 1 (split_lines malformed_batch)) = [])
      by (vm_compute; reflexivity).
    assert (E2 : @lines_records sample_db
                   (enumerate 1 (split_lines malformed_batch)) =
                 [mk_log WARNING (TimeNotFound (u8 "invalid time - Задача"));
                  mk_log WARNING (TimeNotFound (u8 "25:70 - X"));
                  mk_log WARNING (TimeNotFound (u8 "- Y"))])
      by (vm_compute; reflexivity).
    rewrite E1, E2. reflexivity.
Qed.

(** C9: whatever [re.search] matched with the search pattern also passes
    the anchored pattern of [_parse_time] (and [strptime] after it), so
    [Task(time_str, description)] succeeds inside the parser; hence, on
    every text, [parse_tasks_from_text] logs no ERROR record, which only
    its [except ValueError] branch writes. *)
Theorem searched_time_always_constructs (U : UnicodeDB) :
  (forall prev line pre t post,
     re_search time_pattern prev line = Some (pre, t, post) ->
     re_match strict_time_pattern t = Some (length t)
     /\ forall d, Task_init t d = Ok (mk_Task (token_time t) (py_strip d)))
  /\ (forall text st,
        exists tasks records,
          parse_tasks_from_text text st = (Ok tasks, add_records records st)
          /\ forallb (fun r => negb (is_ERROR r)) records = true).
Proof.
  split.
  - intros prev line pre t post H. split.
    + apply re_search_time_token in H. destruct H as [_ Ht].
      rewrite re_match_strict. unfold strict_match.
      destruct t as [|a [|b [|k [|c [|d [|e [|f s]]]]]]]; try discriminate;
        rewrite Ht; reflexivity.
    + intros d. exact (Task_init_searched _ _ _ _ _ d H).
  - intros text st. eexists. eexists. split.
    + apply parse_tasks_from_text_spec.
    + apply lines_records_no_error.
Qed.

Lemma searched_time_always_constructs_witness :
  @re_match sample_db strict_time_pattern (u8 "10:00") = Some 5%nat
  /\ @Task_init sample_db (u8 "10:00") (u8 " x ")
     = Ok (mk_Task (mk_time 10 0 0 0) (u8 "x")).
Proof.
  destruct (proj1 (searched_time_always_constructs sample_db)
              None (u8 "a 10:00 b") (u8 "a ") (u8 "10:00") (u8 " b")
              eq_refl) as [H1 H2].
  split; [exact H1|exact (H2 (u8 " x "))].
Defined.

(** ** The time parser *)

(** The format of the specification, read on ASCII digits: "one or two
    digits (00-23), colon, exactly two digits (00-59); leading zero
    optional on the hour". *)
Definition ascii_digit (c : char) : bool := in_range 48 57 c.
Definition ascii_value (c : char) : nat := N.to_nat (c - 48).

Definition spec_time_format (s : str) : bool :=
  match s with
  | [a; b; k; c; d] =>
    ascii_digit a && ascii_digit b && (COLON =? k)
    && ascii_digit c && ascii_digit d
    && (10 * ascii_value a + ascii_value b <=? 23)%nat
    && (10 * ascii_value c + ascii_value d <=? 59)%nat
  | [b; k; c; d] =>
    ascii_digit b && (COLON =? k) && ascii_digit c && ascii_digit d
    && (10 * ascii_value c + ascii_value d <=? 59)%nat
  | _ => false
  end.

(** The two ways of writing the clock time [h]:[m]. *)
Definition two_digits (n : nat) : str :=
  [48 + N.of_nat (n / 10); 48 + N.of_nat (n mod 10)].
Definition clock_HHMM (h m : nat) : str :=
  two_digits h ++ [COLON] ++ two_digits m.
Definition clock_HMM (h m : nat) : str :=
  [48 + N.of_nat h] ++ [COLON] ++ two_digits m.

Definition is_ascii (c : char) : bool := c <? 128.

(** The same format read on decimal digits of any script, by value. *)
Definition any_script_time_format {U : UnicodeDB} (s : str) : bool :=
  match s with
  | [a; b; k; c; d] =>
    is_digit a && is_digit b && (COLON =? k) && is_digit c && is_digit d
    && (hour (token_time s) <=? 23)%nat && (minute (token_time s) <=? 59)%nat
  | [b; k; c; d] =>
    is_digit b && (COLON =? k) && is_digit c && is_digit d
    && (minute (token_time s) <=? 59)%nat
  | _ => false
  end.

Section TimeParser.
Context {U : UnicodeDB}.

Lemma ascii_is_digit c : c < 128 -> is_digit c = ascii_digit c.
Proof.
  intros H. unfold is_digit, ascii_digit, in_range.
  rewrite ascii_to_decimal by assumption. unfold ascii_decimal.
  destruct ((48 <=? c) && (c <=? 57)); reflexivity.
Qed.

Lemma time_token_ascii s :
  forallb is_ascii s = true -> time_token s = spec_time_format s.
Proof.
  unfold time_token, spec_time_format, hour2, is_ascii.
  destruct s as [|a [|b [|k [|c [|d [|e s]]]]]]; try reflexivity;
    cbn [forallb]; intros H;
    repeat (apply andb_true_iff in H; destruct H as [?H H]);
    repeat match goal with
    | H : (_ <? 128) = true |- _ => apply N.ltb_lt in H
    end;
    rewrite !ascii_is_digit by assumption;
    unfold ascii_digit, ascii_value, in_range, COLON;
    apply eq_true_iff_eq;
    rewrite ?andb_true_iff, ?orb_true_iff, ?andb_true_iff, ?N.leb_le,
      ?N.eqb_eq, ?Nat.leb_le; lia.
Qed.

Lemma digit_value_ascii c : 48 <= c <= 57 -> digit_value c = N.to_nat (c - 48).
Proof.
  intros H. unfold digit_value. rewrite ascii_to_decimal by lia.
  unfold ascii_decimal.
  replace ((48 <=? c) && (c <=? 57)) with true; [reflexivity|].
  symmetry. apply andb_true_iff. split; apply N.leb_le; lia.
Qed.

Lemma two_digits_value n :
  (n < 100)%nat ->
  48 <= 48 + N.of_nat (n / 10) <= 57 /\ 48 <= 48 + N.of_nat (n mod 10) <= 57
  /\ (10 * N.to_nat (48 + N.of_nat (n / 10) - 48)
       + N.to_nat (48 + N.of_nat (n mod 10) - 48) = n)%nat.
Proof.
  intros H.
  pose proof (Nat.div_mod_eq n 10).
  pose proof (Nat.mod_upper_bound n 10 ltac:(lia)).
  lia.
Qed.

Lemma clock_HHMM_accepted h m :
  (h < 24)%nat -> (m < 60)%nat ->
  _parse_time (clock_HHMM h m) = Ok (mk_time h m 0 0).
Proof.
  intros Hh Hm. apply parse_time_token.
  destruct (two_digits_value h ltac:(lia)) as (Ha & Hb & Hv).
  destruct (two_digits_value m ltac:(lia)) as (Hc & Hd & Hw).
  split.
  - rewrite time_token_ascii.
    + unfold clock_HHMM, two_digits, spec_time_format, ascii_digit, ascii_value,
        in_range, COLON. cbn [app].
      rewrite Hv, Hw.
      repeat (apply andb_true_iff; split);
        first [apply N.leb_le; lia | apply Nat.leb_le; lia | reflexivity].
    + unfold clock_HHMM, two_digits, is_ascii, COLON. cbn [app forallb].
      repeat (apply andb_true_iff; split);
        first [apply N.ltb_lt; lia | reflexivity].
  - unfold clock_HHMM, two_digits, token_time. cbn [app].
    rewrite !digit_value_ascii by assumption. rewrite Hv, Hw. reflexivity.
Qed.

Lemma clock_HMM_accepted h m :
  (h < 10)%nat -> (m < 60)%nat ->
  _parse_time (clock_HMM h m) = Ok (mk_time h m 0 0).
Proof.
  intros Hh Hm. apply parse_time_token.
  destruct (two_digits_value m ltac:(lia)) as (Hc & Hd & Hw).
  split.
  - rewrite time_token_ascii.
    + unfold clock_HMM, two_digits, spec_time_format, ascii_digit, ascii_value,
        in_range, COLON. cbn [app].
      rewrite Hw.
      repeat (apply andb_true_iff; split);
        first [apply N.leb_le; lia | apply Nat.leb_le; lia | reflexivity].
    + unfold clock_HMM, two_digits, is_ascii, COLON. cbn [app forallb].
      repeat (apply andb_true_iff; split);
        first [apply N.ltb_lt; lia | reflexivity].
  - unfold clock_HMM, two_digits, token_time. cbn [app].
    rewrite !digit_value_ascii by lia. rewrite Hw. f_equal. lia.
Qed.

Lemma parse_time_rejects s :
  time_token s = false -> exists why, _parse_time s = Raise (ValueError why).
Proof.
  intros H. destruct (_parse_time s) as [t|e] eqn:E.
  - apply parse_time_token in E. destruct E as [E _]. congruence.
  - pose proof (parse_time_only_ValueError _ _ E) as He.
    destruct e; try discriminate. eauto.
Qed.

End TimeParser.

(** C5, as the code has it: [_parse_time] succeeds exactly on the texts of
    the shape [[01]?D:[0-5]D] or [2[0-3]:[0-5]D], where [D] is a decimal
    digit of any script and the other positions are ASCII; it reads them
    as the hour and minute their digits denote, and every other text
    fails with a [ValueError].  Among ASCII texts these are exactly the
    clock times 00:00 to 23:59, leading zero on the hour optional: each of
    them is accepted, and 24:00, 10:60 and texts without digits are not. *)
Theorem parse_time_accepts_time_tokens (U : UnicodeDB) :
  (forall s t, _parse_time s = Ok t <-> time_token s = true /\ t = token_time s)
  /\ (forall s, time_token s = false ->
               exists why, _parse_time s = Raise (ValueError why))
  /\ (forall s, forallb is_ascii s = true ->
               time_token s = spec_time_format s)
  /\ (forall h m, (h < 24)%nat -> (m < 60)%nat ->
        _parse_time (clock_HHMM h m) = Ok (mk_time h m 0 0)
        /\ ((h < 10)%nat -> _parse_time (clock_HMM h m) = Ok (mk_time h m 0 0)))
  /\ (forall s, In s [u8 "24:00"; u8 "10:60"; u8 "ab:cd"; u8 "1000"; u8 ""] ->
               exists why, _parse_time s = Raise (ValueError why)).
Proof.
  split; [|split; [|split; [|split]]].
  - apply parse_time_token.
  - apply parse_time_rejects.
  - apply time_token_ascii.
  - intros h m Hh Hm. split.
    + apply clock_HHMM_accepted; assumption.
    + intros Hh'. apply clock_HMM_accepted; assumption.
  - intros s Hs. apply parse_time_rejects.
    cbn [In] in Hs.
    repeat (destruct Hs as [<-|Hs];
            [rewrite time_token_ascii by reflexivity; reflexivity|]).
    destruct Hs.
Qed.

Lemma parse_time_accepts_time_tokens_witness :
  @_parse_time sample_db (u8 "23:59") = Ok (mk_time 23 59 0 0)
  /\ @_parse_time sample_db (u8 "7:05") = Ok (mk_time 7 5 0 0)
  /\ (exists why, @_parse_time sample_db (u8 "24:00") = Raise (ValueError why)).
Proof.
  pose proof (parse_time_accepts_time_tokens sample_db) as (_ & _ & _ & H & R).
  split; [|split].
  - exact (proj1 (H 23 59 ltac:(lia) ltac:(lia))%nat).
  - exact (proj2 (H 7 5 ltac:(lia) ltac:(lia)) ltac:(lia))%nat.
  - apply R. cbn. auto.
Defined.

(** C5 as stated fails under either reading of "digit".  Read on ASCII
    digits: ["1٣:00"] (ASCII 1, ARABIC-INDIC DIGIT THREE) is not in the
    format and is accepted, as 13:00.  Read on digits of any script:
    ["٢٣:00"] (ARABIC-INDIC TWO and THREE) denotes 23:00 and is rejected. *)
Lemma parse_time_counterexample :
  (spec_time_format (u8 "1٣:00") = false
   /\ @_parse_time sample_db (u8 "1٣:00") = Ok (mk_time 13 0 0 0))
  /\ (@any_script_time_format sample_db (u8 "٢٣:00") = true
      /\ @_parse_time sample_db (u8 "٢٣:00")
         = Raise (ValueError (BadTimeFormat (u8 "٢٣:00")))).
Proof. repeat split; vm_compute; reflexivity. Qed.

(** ** [should_notify] *)

(** A [datetime.time] as the code can hold one. *)
Definition valid_time (t : pytime) : Prop :=
  (hour t < 24 /\ minute t < 60 /\ second t < 60
   /\ microsecond t < 1000 * 1000)%nat.

(** Microseconds since midnight: the time of day as a number. *)
Definition since_midnight (t : pytime) : nat :=
  (((hour t * 60 + minute t) * 60 + second t) * (1000 * 1000)
   + microsecond t)%nat.

Lemma time_cmp_since_midnight a b :
  valid_time a -> valid_time b ->
  time_cmp a b = Nat.compare (since_midnight a) (since_midnight b).
Proof.
  unfold valid_time, since_midnight, time_cmp.
  destruct a as [h1 m1 s1 u1], b as [h2 m2 s2 u2]. cbn [hour minute second microsecond].
  intros (Hh1 & Hm1 & Hs1 & Hu1) (Hh2 & Hm2 & Hs2 & Hu2).
  symmetry.
  destruct (Nat.compare_spec h1 h2) as [->|H|H];
    [|apply Nat.compare_lt_iff; nia|apply Nat.compare_gt_iff; nia].
  destruct (Nat.compare_spec m1 m2) as [->|H|H];
    [|apply Nat.compare_lt_iff; nia|apply Nat.compare_gt_iff; nia].
  destruct (Nat.compare_spec s1 s2) as [->|H|H];
    [|apply Nat.compare_lt_iff; nia|apply Nat.compare_gt_iff; nia].
  destruct (Nat.compare_spec u1 u2) as [->|H|H];
    [apply Nat.compare_refl|apply Nat.compare_lt_iff; nia
    |apply Nat.compare_gt_iff; nia].
Qed.

Lemma time_ge_since_midnight a b :
  valid_time a -> valid_time b ->
  (time_ge a b = true <-> since_midnight b <= since_midnight a)%nat.
Proof.
  intros Ha Hb. unfold time_ge. rewrite (time_cmp_since_midnight a b Ha Hb).
  destruct (Nat.compare_spec (since_midnight a) (since_midnight b)) as [E|E|E];
    split; intros H; try reflexivity; try discriminate; lia.
Qed.

(** The state after one more reading of the clock. *)
Definition clock_read (st : State) : State :=
  mk_State (tasks st) (last_modified st) (_monitoring st) (logger st)
    (console st) (clock st) (S (clock_reads st)) (stdout st) (stdout_writes st).

(** C7: [should_notify] reads the clock once and answers whether
    [now >= task.time]; as times of day, that is: true if and only if the
    task's time is at or before [now].  It is true at [now = task.time],
    and once true it stays true for every later reading of the same day. *)
Theorem should_notify_iff_time_reached (task : Task) (st : State)
    (Htask : valid_time (time task))
    (Hnow : valid_time (clock st (clock_reads st))) :
  let now := clock st (clock_reads st) in
  should_notify task st = (Ok (time_ge now (time task)), clock_read st)
  /\ (time_ge now (time task) = true
      <-> (since_midnight (time task) <= since_midnight now)%nat)
  /\ time_ge (time task) (time task) = true
  /\ (forall later, valid_time later ->
        (since_midnight now <= since_midnight later)%nat ->
        time_ge now (time task) = true -> time_ge later (time task) = true).
Proof.
  intros now. split; [reflexivity|]. split; [|split].
  - apply time_ge_since_midnight; assumption.
  - apply time_ge_since_midnight; [assumption|assumption|lia].
  - intros later Hlater Hle Hdue.
    apply time_ge_since_midnight in Hdue; [|assumption|assumption].
    apply time_ge_since_midnight; [assumption|assumption|lia].
Qed.

Definition nine_oclock : Task :=
  mk_Task (mk_time 9 0 0 0) (u8 "Утреннее совещание").

(** A manager holding [ts], with the clock standing at [now] and a
    standard output that takes every write. *)
Definition state_at (now : pytime) (ts : list Task) : State :=
  mk_State ts 0 false [] [] (fun _ => now) 0 (fun _ _ => None) 0.

Ltac valid_time_tac :=
  unfold valid_time; cbn [hour minute second microsecond time state_at clock
    clock_reads nine_oclock]; lia.

Lemma should_notify_iff_time_reached_witness :
  should_notify nine_oclock (state_at (mk_time 9 0 0 0) [])
    = (Ok true, clock_read (state_at (mk_time 9 0 0 0) []))
  /\ should_notify nine_oclock (state_at (mk_time 8 59 59 999) [])
     = (Ok false, clock_read (state_at (mk_time 8 59 59 999) [])).
Proof.
  split.
  - exact (proj1 (should_notify_iff_time_reached nine_oclock
                    (state_at (mk_time 9 0 0 0) [])
                    ltac:(valid_time_tac) ltac:(valid_time_tac))).
  - exact (proj1 (should_notify_iff_time_reached nine_oclock
                    (state_at (mk_time 8 59 59 999) [])
                    ltac:(valid_time_tac) ltac:(valid_time_tac))).
Defined.

(** ** [load_tasks] *)

Definition with_watermark (m : Z) (st : State) : State :=
  mk_State (tasks st) m (_monitoring st) (logger st) (console st)
    (clock st) (clock_reads st) (stdout st) (stdout_writes st).

Definition with_tasks (ts : list Task) (st : State) : State :=
  mk_State ts (last_modified st) (_monitoring st) (logger st) (console st)
    (clock st) (clock_reads st) (stdout st) (stdout_writes st).

Section Loader.
Context {U : UnicodeDB}.

(** The file is there, its time stamp is not newer than the watermark. *)
Lemma load_tasks_unchanged fs st m :
  fs_exists fs = true -> fs_mtime fs = Ok m -> (m <= last_modified st)%Z ->
  load_tasks fs st = (Ok true, st).
Proof.
  intros Hex Hm Hle. unfold load_tasks, try_except, bind, lift, get.
  rewrite Hex, Hm. cbn [negb]. apply Z.leb_le in Hle. rewrite Hle. reflexivity.
Qed.

(** The file is newer than the watermark and reading it fails. *)
Lemma load_tasks_read_error fs st m e :
  fs_exists fs = true -> fs_mtime fs = Ok m -> (last_modified st < m)%Z ->
  fs_read_text fs = Raise e -> is_Exception e = true ->
  load_tasks fs st
    = (Ok false, add_records [mk_log ERROR (LoadFailed e)] (with_watermark m st)).
Proof.
  intros Hex Hm Hlt Hrd He. unfold load_tasks, try_except, bind, lift, get.
  rewrite Hex, Hm. cbn [negb]. apply Z.leb_gt in Hlt. rewrite Hlt.
  cbn [set_last_modified]. rewrite Hrd, He. reflexivity.
Qed.

(** Whenever the time stamp can be read, the watermark is at least the
    time stamp after the call, however the call ends. *)
Lemma load_tasks_watermark fs st m :
  fs_exists fs = true -> fs_mtime fs = Ok m ->
  (m <= last_modified (snd (load_tasks fs st)))%Z.
Proof.
  intros Hex Hm. unfold load_tasks, try_except, bind, lift, get.
  rewrite Hex, Hm. cbn [negb].
  destruct (m <=? last_modified st)%Z eqn:E; [apply Z.leb_le in E; exact E|].
  cbn [set_last_modified].
  destruct (fs_read_text fs) as [content|e].
  - destruct (is_empty (py_strip content)).
    + cbn. lia.
    + rewrite parse_tasks_from_text_spec. cbn. lia.
  - destruct (is_Exception e); cbn; lia.
Qed.

End Loader.

(** C6: when the file exists and its modification time is at most the
    watermark, [load_tasks] returns [True] and changes nothing: tasks,
    watermark and log stay as they were, whatever the file holds (it is
    not read).  And a second call against the same file status, right
    after a first one, is such a no-op. *)
Theorem load_tasks_noop_when_unchanged (U : UnicodeDB) (fs : FileSystem)
    (st : State) (m : Z)
    (Hexists : fs_exists fs = true) (Hmtime : fs_mtime fs = Ok m) :
  ((m <= last_modified st)%Z ->
     load_tasks fs st = (Ok true, st)
     /\ forall content, load_tasks (mk_fs true (Ok m) content) st = (Ok true, st))
  /\ (let st1 := snd (load_tasks fs st) in
      load_tasks fs st1 = (Ok true, st1)).
Proof.
  split.
  - intros Hle. split.
    + exact (load_tasks_unchanged fs st m Hexists Hmtime Hle).
    + intros content. apply (load_tasks_unchanged _ st m); auto.
  - cbv zeta. apply (load_tasks_unchanged fs _ m Hexists Hmtime).
    exact (load_tasks_watermark fs st m Hexists Hmtime).
Qed.

Definition three_tasks_file : str :=
  u8 "09:00 - Утреннее совещание" ++ [LF] ++ u8 "12:30 - Обед" ++ [LF]
    ++ u8 "15:45 - Встреча с клиентом" ++ [LF].

Lemma load_tasks_noop_when_unchanged_witness :
  let fs := mk_fs true (Ok 100%Z) (Ok three_tasks_file) in
  let st := with_watermark 100 (state_at (mk_time 8 0 0 0) [nine_oclock]) in
  @load_tasks sample_db fs st = (Ok true, st)
  /\ (let st1 := snd (@load_tasks sample_db fs (state_at (mk_time 8 0 0 0) [])) in
      length (tasks st1) = 3%nat /\ @load_tasks sample_db fs st1 = (Ok true, st1)).
Proof.
  cbv zeta. split.
  - exact (proj1 (proj1 (load_tasks_noop_when_unchanged sample_db
             (mk_fs true (Ok 100%Z) (Ok three_tasks_file))
             (with_watermark 100 (state_at (mk_time 8 0 0 0) [nine_oclock]))
             100%Z eq_refl eq_refl) ltac:(cbn; lia))).
  - split; [vm_compute; reflexivity|].
    exact (proj2 (load_tasks_noop_when_unchanged sample_db
             (mk_fs true (Ok 100%Z) (Ok three_tasks_file))
             (state_at (mk_time 8 0 0 0) []) 100%Z eq_refl eq_refl)).
Defined.

(** C1 does not hold of the code: [self.last_modified] is assigned before
    [read_text] is called, so a read that fails leaves the watermark
    advanced.  Here the file (time stamp 100) is newer than the watermark
    (50) and [read_text] raises [PermissionError]: the call returns
    [False] and keeps the tasks, but the watermark is now 100, and the
    next call against the same file returns [True] without reading it. *)
Theorem load_tasks_read_error_advances_watermark (U : UnicodeDB) :
  let fs := mk_fs true (Ok 100%Z) (Raise OSError) in
  let st := with_watermark 50 (state_at (mk_time 8 0 0 0) [nine_oclock]) in
  let st' := snd (load_tasks fs st) in
  fst (load_tasks fs st) = Ok false
  /\ tasks st' = tasks st
  /\ last_modified st = 50%Z
  /\ last_modified st' = 100%Z
  /\ load_tasks fs st' = (Ok true, st').
Proof.
  cbv zeta.
  rewrite (load_tasks_read_error (mk_fs true (Ok 100%Z) (Raise OSError))
             (with_watermark 50 (state_at (mk_time 8 0 0 0) [nine_oclock]))
             100%Z OSError eq_refl eq_refl ltac:(cbn; lia) eq_refl eq_refl).
  repeat split.
Qed.

(** ** [check_and_notify] *)

(** What the console gains when [fired] are notified. *)
Definition reminders (fired : list Task) : list console_event :=
  flat_map (fun t => [Bell; Reminder t]) fired.

(** The state after a scan that read the clock [reads] times and notified
    [fired], in this order, with two writes each. *)
Definition notified (fired : list Task) (reads : nat) (st : State) : State :=
  mk_State (tasks st) (last_modified st) (_monitoring st)
    (logger st ++ map (fun t => mk_log INFO (NotificationSent t)) fired)
    (console st ++ reminders fired)
    (clock st) (clock_reads st + reads)
    (stdout st) (stdout_writes st + 2 * length fired).

(** The standard output takes the bell and the reminder of every task of
    [l], whenever they are written. *)
Definition console_takes (st : State) (l : list Task) : Prop :=
  forall k t, In t l ->
    stdout st k Bell = None /\ stdout st k (Reminder t) = None.

Lemma console_takes_incl st l l' :
  (forall t, In t l' -> In t l) -> console_takes st l -> console_takes st l'.
Proof. intros Hin H k t Ht. apply H, Hin, Ht. Qed.

Lemma time_cmp_eq a b : time_cmp a b = Eq -> a = b.
Proof.
  unfold time_cmp. destruct a as [h1 m1 s1 u1], b as [h2 m2 s2 u2].
  cbn [hour minute second microsecond].
  destruct (Nat.compare_spec h1 h2); try discriminate.
  destruct (Nat.compare_spec m1 m2); try discriminate.
  destruct (Nat.compare_spec s1 s2); try discriminate.
  destruct (Nat.compare_spec u1 u2); try discriminate.
  intros _. subst. reflexivity.
Qed.

Lemma time_cmp_refl a : time_cmp a a = Eq.
Proof. unfold time_cmp. rewrite !Nat.compare_refl. reflexivity. Qed.

Lemma Task_eq_refl x : Task_eq x x = true.
Proof.
  unfold Task_eq, time_eqb. rewrite time_cmp_refl.
  destruct (list_eq_dec N.eq_dec (description x) (description x)); [reflexivity|].
  contradiction.
Qed.

Lemma Task_eq_time x y : Task_eq x y = true -> time x = time y.
Proof.
  unfold Task_eq, time_eqb. intros H. apply andb_true_iff in H. destruct H as [H _].
  apply time_cmp_eq.
  destruct (time_cmp (time x) (time y)); [reflexivity|discriminate..].
Qed.

Lemma notified_notified f1 n1 f2 n2 st :
  notified f2 n2 (notified f1 n1 st) = notified (f1 ++ f2) (n1 + n2) st.
Proof.
  unfold notified, reminders.
  cbn [tasks last_modified _monitoring logger console clock clock_reads
       stdout stdout_writes].
  rewrite map_app, flat_map_app, length_app, !app_assoc. f_equal; lia.
Qed.

Lemma notified_nothing st : notified [] 0 st = st.
Proof.
  unfold notified, reminders. cbn. rewrite !app_nil_r, !Nat.add_0_r.
  destruct st; reflexivity.
Qed.

Lemma bind_assoc {A B C} (m : M A) (k : A -> M B) (h : B -> M C) st :
  bind (bind m k) h st = bind m (fun a => bind (k a) h) st.
Proof. unfold bind. destruct (m st) as [[a|e] st1]; reflexivity. Qed.

(** A notification that the console takes: bell, reminder, log record. *)
Lemma notification_shown task st :
  stdout st (stdout_writes st) Bell = None ->
  stdout st (S (stdout_writes st)) (Reminder task) = None ->
  (_send_notification task ;; log INFO (NotificationSent task)) st
    = (Ok tt, notified [task] 0 st).
Proof.
  intros Hb Hr. unfold _send_notification, bind, print.
  rewrite Hb. cbn [stdout stdout_writes]. rewrite Hr.
  unfold log, notified, reminders.
  cbn [tasks last_modified _monitoring logger console clock clock_reads
       stdout stdout_writes map flat_map length app].
  rewrite Nat.add_0_r, <- app_assoc. cbn [app].
  replace (stdout_writes st + 2 * 1)%nat with (S (S (stdout_writes st))) by lia.
  reflexivity.
Qed.

Section Dispatch.
Variable now : pytime.

Definition due (t : Task) : bool := time_ge now (time t).

Lemma should_notify_const task st :
  (forall i, clock st i = now) ->
  should_notify task st = (Ok (due task), notified [] 1 st).
Proof.
  intros H. unfold should_notify, bind, datetime_now, ret, due, notified, reminders.
  rewrite H. cbn [map flat_map length]. rewrite !app_nil_r, Nat.add_1_r, Nat.add_0_r.
  reflexivity.
Qed.

Lemma notify_due_const snapshot acc st :
  (forall i, clock st i = now) ->
  console_takes st (filter due snapshot) ->
  notify_due snapshot acc st
    = (Ok (acc ++ filter due snapshot),
       notified (filter due snapshot) (length snapshot) st).
Proof.
  revert acc st. induction snapshot as [|x l IH]; intros acc st H Hout.
  - cbn. unfold ret. rewrite notified_nothing, app_nil_r. reflexivity.
  - cbn [notify_due filter length] in *. unfold bind at 1.
    rewrite (should_notify_const x st H).
    destruct (due x).
    + assert (Hx : forall k, stdout st k Bell = None
                             /\ stdout st k (Reminder x) = None)
        by (intros k; apply Hout; left; reflexivity).
      rewrite <- (bind_assoc (_send_notification x)
                    (fun _ => log INFO (NotificationSent x))
                    (fun _ => notify_due l (acc ++ [x]))).
      unfold bind at 1.
      rewrite notification_shown by apply Hx.
      rewrite IH.
      * rewrite <- app_assoc, !notified_notified. reflexivity.
      * exact H.
      * intros k t Ht. apply Hout. right. exact Ht.
    + rewrite IH; [|exact H|exact Hout].
      rewrite notified_notified. reflexivity.
Qed.

Lemma list_remove_skips p x l :
  (forall y, In y p -> due y = false) -> due x = true ->
  list_remove x (p ++ x :: l) = Some (p ++ l).
Proof.
  intros Hp Hx. induction p as [|y p IH]; cbn [app list_remove].
  - rewrite Task_eq_refl. reflexivity.
  - destruct (Task_eq y x) eqn:E.
    + apply Task_eq_time in E. pose proof (Hp y (or_introl eq_refl)) as Hy.
      unfold due in *. rewrite E in Hy. congruence.
    + rewrite IH; [reflexivity|]. intros z Hz. apply Hp. right. exact Hz.
Qed.

Lemma remove_notified_due p l st :
  tasks st = p ++ l -> (forall y, In y p -> due y = false) ->
  remove_notified (filter due l) st
    = (Ok tt, with_tasks (p ++ filter (fun t => negb (due t)) l) st).
Proof.
  revert p st. induction l as [|x l IH]; intros p st Ht Hp.
  - cbn. unfold ret, with_tasks. rewrite <- Ht. destruct st; reflexivity.
  - cbn [filter]. destruct (due x) eqn:Ex; cbn [negb].
    + cbn [remove_notified]. unfold bind at 1, get. rewrite Ht.
      rewrite (list_remove_skips p x l Hp Ex). unfold bind, set_tasks.
      rewrite (IH p); [reflexivity|reflexivity|exact Hp].
    + rewrite (IH (p ++ [x]) st).
      * rewrite <- app_assoc. reflexivity.
      * rewrite Ht, <- app_assoc. reflexivity.
      * intros y Hy. apply in_app_or in Hy. destruct Hy as [Hy|[<-|[]]]; auto.
Qed.

Lemma check_and_notify_const st :
  (forall i, clock st i = now) ->
  console_takes st (filter due (tasks st)) ->
  check_and_notify st
    = (Ok tt,
       with_tasks (filter (fun t => negb (due t)) (tasks st))
         (notified (filter due (tasks st)) (length (tasks st)) st)).
Proof.
  intros H Hout. unfold check_and_notify, bind, get.
  rewrite (notify_due_const (tasks st) [] st H Hout). cbn [app].
  apply (remove_notified_due []); [reflexivity|intros y []].
Qed.


End Dispatch.


Definition lunch : Task := mk_Task (mk_time 12 30 0 0) (u8 "Обед").
Definition client_meeting : Task :=
  mk_Task (mk_time 15 45 0 0) (u8 "Встреча с клиентом").
Definition sample_tasks : list Task := [nine_oclock; lunch; client_meeting].




Definition with_stdout (out : Stdout) (st : State) : State :=
  mk_State (tasks st) (last_modified st) (_monitoring st) (logger st)
    (console st) (clock st) (clock_reads st) out (stdout_writes st).



(** ** The monitor loop *)

(** The state in which the [async with] block starts. *)
Definition entered (st : State) : State :=
  snd ((set_monitoring true ;; log INFO MonitorStarted) st).

(** The state in which the [finally] clause of [monitoring_context]
    leaves [st]. *)
Definition stopped (st : State) : State :=
  snd ((set_monitoring false ;; log INFO MonitorStopped) st).

(** The state after the loop caught [e] in tick [t], logged it, and the
    back-off sleep came to its end. *)
Definition after_backoff (t : Tick) (e : exn) (st : State) : State :=
  snd ((log ERROR (MonitorTickError e) ;;
        asyncio_sleep None (stop_requested t)) st).

Section Monitor.
Context {U : UnicodeDB}.

Lemma monitoring_context_resets body st :
  fst (monitoring_context body st) <> Running ->
  _monitoring (snd (monitoring_context body st)) = false.
Proof.
  unfold monitoring_context. cbv zeta.
  destruct (body _) as [[| e |] st']; cbn [fst snd].
  - intros _. reflexivity.
  - intros _. destruct (is_Exception e); reflexivity.
  - intros H. contradiction H. reflexivity.
Qed.

Lemma monitor_loop_running script st st1 :
  monitor_loop script st = (Running, st1) -> _monitoring st1 = true.
Proof.
  revert st. induction script as [|t script IH]; intros st; cbn [monitor_loop].
  - destruct (_monitoring st) eqn:E; intros H; inversion H; subst. exact E.
  - destruct (_monitoring st); cbn [negb]; [|discriminate].
    destruct (tick_try t st) as [[[]|e] st'].
    + apply IH.
    + destruct (is_CancelledError e); [discriminate|].
      destruct (is_Exception e); [|discriminate].
      destruct ((log ERROR (MonitorTickError e);;
                 asyncio_sleep (backoff_fault t) (stop_requested t)) st')
        as [[[]|e'] st2]; [apply IH|discriminate].
Qed.

(** A script that leaves the loop alive can be continued. *)
Lemma monitor_loop_app pre post st st1 :
  monitor_loop pre st = (Running, st1) ->
  monitor_loop (pre ++ post) st = monitor_loop post st1.
Proof.
  revert st. induction pre as [|t pre IH]; intros st; cbn [monitor_loop app].
  - destruct (_monitoring st) eqn:E; intros H; inversion H; subst. reflexivity.
  - destruct (_monitoring st); cbn [negb]; [|discriminate].
    destruct (tick_try t st) as [[[]|e] st'].
    + apply IH.
    + destruct (is_CancelledError e); [discriminate|].
      destruct (is_Exception e); [|discriminate].
      destruct ((log ERROR (MonitorTickError e);;
                 asyncio_sleep (backoff_fault t) (stop_requested t)) st')
        as [[[]|e'] st2]; [apply IH|discriminate].
Qed.

Lemma monitor_loop_ok t post st st2 :
  _monitoring st = true -> tick_try t st = (Ok tt, st2) ->
  monitor_loop (t :: post) st = monitor_loop post st2.
Proof. intros Hm Ht. cbn [monitor_loop]. rewrite Hm, Ht. reflexivity. Qed.

Lemma monitor_loop_cancelled t post st st2 :
  _monitoring st = true -> tick_try t st = (Raise CancelledError, st2) ->
  monitor_loop (t :: post) st
    = (Raised CancelledError, add_records [mk_log INFO MonitorCancelled] st2).
Proof.
  intros Hm Ht. cbn [monitor_loop]. rewrite Hm, Ht. reflexivity.
Qed.

Lemma monitor_loop_escapes t post st e st2 :
  _monitoring st = true -> tick_try t st = (Raise e, st2) ->
  is_CancelledError e = false -> is_Exception e = false ->
  monitor_loop (t :: post) st = (Raised e, st2).
Proof.
  intros Hm Ht Hc He. cbn [monitor_loop]. rewrite Hm, Ht, Hc, He. reflexivity.
Qed.

Lemma Exception_not_cancelled e :
  is_Exception e = true -> is_CancelledError e = false.
Proof. destruct e; intros H; try discriminate; reflexivity. Qed.

Lemma monitor_loop_backoff_cancelled t post st e st2 :
  _monitoring st = true -> tick_try t st = (Raise e, st2) ->
  is_Exception e = true -> backoff_fault t = Some CancelledError ->
  monitor_loop (t :: post) st = (Raised CancelledError, after_backoff t e st2).
Proof.
  intros Hm Ht He Hb. cbn [monitor_loop].
  rewrite Hm, Ht, He, Hb, (Exception_not_cancelled e He). cbn [negb].
  unfold after_backoff, bind, log, asyncio_sleep, bind.
  destruct (stop_requested t); reflexivity.
Qed.

Lemma monitor_loop_contained t post st e st2 :
  _monitoring st = true -> tick_try t st = (Raise e, st2) ->
  is_Exception e = true -> backoff_fault t = None ->
  monitor_loop (t :: post) st = monitor_loop post (after_backoff t e st2).
Proof.
  intros Hm Ht He Hb. cbn [monitor_loop].
  rewrite Hm, Ht, He, Hb, (Exception_not_cancelled e He). cbn [negb].
  unfold after_backoff, bind, log, asyncio_sleep, bind.
  destruct (stop_requested t); reflexivity.
Qed.

End Monitor.

(** C8: [monitor_tasks], run against any script.

    (1) Whenever it has ended, by returning or by raising anything at
    all, [_monitoring] is [False].

    (2) The loop is alive when the block is entered, and a script used
    up with the flag still set leaves it alive.

    (3) Where the loop stands alive after the ticks [pre], at [st1], the
    next tick [t] goes one of these ways.  Its [try] suite ends normally:
    the loop carries on with the rest of the script.  A [CancelledError]
    comes out of the [try] suite: it is logged and [monitor_tasks] raises
    it, after the [finally] clause.  An [Exception] [e] comes out of the
    [try] suite: it is logged as an error and the loop sleeps; if the
    sleep returns, the loop carries on with the rest of the script, and
    if the sleep is cancelled, [monitor_tasks] raises [CancelledError]
    after the [finally] clause.  Anything else (a [BaseException] such as
    [KeyboardInterrupt]) escapes: [monitor_tasks] raises it after the
    [finally] clause. *)
Theorem monitor_tasks_exit_paths (U : UnicodeDB)
    (pre post : list Tick) (t : Tick) (st st1 : State)
    (Halive : monitor_loop pre (entered st) = (Running, st1)) :
  (forall script st0,
     fst (monitor_tasks script st0) <> Running ->
     _monitoring (snd (monitor_tasks script st0)) = false)
  /\ (monitor_loop [] (entered st) = (Running, entered st)
      /\ forall st2, _monitoring st2 = true ->
           monitor_loop [] st2 = (Running, st2))
  /\ (forall st2,
        tick_try t st1 = (Ok tt, st2) ->
        monitor_loop (pre ++ t :: post) (entered st) = monitor_loop post st2)
  /\ (forall st2,
        tick_try t st1 = (Raise CancelledError, st2) ->
        monitor_tasks (pre ++ t :: post) st
          = (Raised CancelledError,
             stopped (add_records [mk_log INFO MonitorCancelled] st2)))
  /\ (forall e st2,
        tick_try t st1 = (Raise e, st2) -> is_Exception e = true ->
        logger (after_backoff t e st2)
          = logger st2 ++ [mk_log ERROR (MonitorTickError e)]
        /\ (backoff_fault t = None ->
            monitor_loop (pre ++ t :: post) (entered st)
              = monitor_loop post (after_backoff t e st2))
        /\ (backoff_fault t = Some CancelledError ->
            monitor_tasks (pre ++ t :: post) st
              = (Raised CancelledError, stopped (after_backoff t e st2))))
  /\ (forall e st2,
        tick_try t st1 = (Raise e, st2) ->
        is_CancelledError e = false -> is_Exception e = false ->
        monitor_tasks (pre ++ t :: post) st = (Raised e, stopped st2)).
Proof.
  pose proof (monitor_loop_running _ _ _ Halive) as Hm.
  assert (Hctx : forall e st',
            monitor_loop (t :: post) st1 = (Raised e, st') ->
            is_Exception e = false ->
            monitor_tasks (pre ++ t :: post) st = (Raised e, stopped st')).
  { intros e st' H He. unfold monitor_tasks, monitoring_context. cbv zeta.
    fold (entered st). rewrite (monitor_loop_app _ _ _ _ Halive), H, He.
    reflexivity. }
  split; [intros script st0; apply monitoring_context_resets|].
  split.
  { split; [reflexivity|]. intros st2 H2. cbn [monitor_loop]. rewrite H2.
    reflexivity. }
  split.
  { intros st2 Ht. rewrite (monitor_loop_app _ _ _ _ Halive).
    exact (monitor_loop_ok t post st1 st2 Hm Ht). }
  split.
  { intros st2 Ht.
    exact (Hctx _ _ (monitor_loop_cancelled t post st1 st2 Hm Ht) eq_refl). }
  split.
  - intros e st2 Ht He. split; [|split].
    + unfold after_backoff, bind, log, asyncio_sleep, bind.
      destruct (stop_requested t); reflexivity.
    + intros Hb. rewrite (monitor_loop_app _ _ _ _ Halive).
      exact (monitor_loop_contained t post st1 e st2 Hm Ht He Hb).
    + intros Hb.
      exact (Hctx _ _ (monitor_loop_backoff_cancelled t post st1 e st2
                         Hm Ht He Hb) eq_refl).
  - intros e st2 Ht Hc He.
    exact (Hctx _ _ (monitor_loop_escapes t post st1 e st2 Hm Ht Hc He) He).
Qed.

Definition no_file : FileSystem := mk_fs false (Raise OSError) (Raise OSError).
Definition quiet_tick : Tick := mk_Tick no_file None None false.
Definition cancelled_tick : Tick :=
  mk_Tick no_file (Some CancelledError) None false.

(** A standard output on which the write number [n] fails with [e] and
    every other write is taken. *)
Definition refuse_write (n : nat) (e : exn) : Stdout :=
  fun k _ => if Nat.eqb k n then Some e else None.

(** A run of two ticks with one task due.  In the first tick the bell is
    shown and the reminder is refused with [OSError]: the error is logged
    and the loop goes on.  In the second tick the task is notified, and
    the sleep is cancelled: the cancellation is logged and raised, and
    the flag is down. *)
Lemma monitor_tasks_exit_paths_witness :
  let st := with_stdout (refuse_write 1 OSError)
              (state_at (mk_time 10 0 0 0) [nine_oclock]) in
  let run := @monitor_tasks sample_db [quiet_tick; cancelled_tick] st in
  fst (@tick_try sample_db quiet_tick (entered st)) = Raise OSError
  /\ fst run = Raised CancelledError
  /\ _monitoring (snd run) = false
  /\ map msg (logger (snd run))
     = [MonitorStarted; FileMissing; MonitorTickError OSError; FileMissing;
        NotificationSent nine_oclock; MonitorCancelled; MonitorStopped]
  /\ console (snd run) = [Bell; Bell; Reminder nine_oclock]
  /\ tasks (snd run) = [].
Proof.
  cbv zeta.
  set (st := with_stdout (refuse_write 1 OSError)
               (state_at (mk_time 10 0 0 0) [nine_oclock])).
  set (st1 := snd (@monitor_loop sample_db [quiet_tick] (entered st))).
  set (st2 := snd (@tick_try sample_db cancelled_tick st1)).
  assert (Halive : @monitor_loop sample_db [quiet_tick] (entered st)
                   = (Running, st1)) by (vm_compute; reflexivity).
  assert (Htick : @tick_try sample_db cancelled_tick st1
                  = (Raise CancelledError, st2)) by (vm_compute; reflexivity).
  destruct (monitor_tasks_exit_paths sample_db [quiet_tick] [] cancelled_tick
              st st1 Halive) as (Hflag & _ & _ & Hcancel & _ & _).
  assert (Hrun : fst (@monitor_tasks sample_db [quiet_tick; cancelled_tick] st)
                 = Raised CancelledError)
    by exact (f_equal fst (Hcancel st2 Htick)).
  split; [vm_compute; reflexivity|].
  split; [exact Hrun|].
  split; [apply Hflag; intros H; rewrite H in Hrun; discriminate Hrun|].
  repeat split; vm_compute; reflexivity.
Defined.

(** ** Stripping *)

Section Strip.
Variable p : char -> bool.

Lemma dropwhile_nil_iff s : is_empty (dropwhile p s) = forallb p s.
Proof.
  induction s as [|c s IH]; [reflexivity|]. cbn. destruct (p c); [exact IH|reflexivity].
Qed.

Lemma forallb_dropwhile s : forallb p (dropwhile p s) = forallb p s.
Proof.
  induction s as [|c s IH]; [reflexivity|]. cbn. destruct (p c) eqn:E; [exact IH|].
  cbn. rewrite E. reflexivity.
Qed.

Lemma forallb_rev s : forallb p (rev s) = forallb p s.
Proof.
  induction s as [|c s IH]; [reflexivity|]. cbn [rev forallb].
  rewrite forallb_app, IH. cbn. rewrite andb_true_r, andb_comm. reflexivity.
Qed.

Lemma is_empty_rev s : is_empty (rev s) = is_empty s.
Proof. destruct s as [|c s]; [reflexivity|]. cbn. destruct (rev s); reflexivity. Qed.

(** A strip leaves nothing exactly when every code point is strippable. *)
Lemma is_empty_strip s : is_empty (rstrip p (lstrip p s)) = forallb p s.
Proof.
  unfold rstrip, lstrip.
  rewrite is_empty_rev, dropwhile_nil_iff, forallb_rev, forallb_dropwhile.
  reflexivity.
Qed.

(** What [lstrip] removes. *)
Lemma dropwhile_split s :
  exists w, s = w ++ dropwhile p s /\ forallb p w = true.
Proof.
  induction s as [|c s (w & Hw & Hp)].
  - exists []. split; reflexivity.
  - cbn [dropwhile]. destruct (p c) eqn:E.
    + exists (c :: w). cbn. rewrite E, Hp. split; [f_equal; exact Hw|reflexivity].
    + exists []. split; reflexivity.
Qed.

Lemma strip_split s :
  exists w1 w2, s = w1 ++ rstrip p (lstrip p s) ++ w2
                /\ forallb p w1 = true /\ forallb p w2 = true.
Proof.
  destruct (dropwhile_split s) as (w1 & H1 & Hp1).
  destruct (dropwhile_split (rev (lstrip p s))) as (w2 & H2 & Hp2).
  exists w1, (rev w2). split; [|split].
  - unfold rstrip. rewrite <- rev_app_distr, <- H2, rev_involutive. exact H1.
  - exact Hp1.
  - rewrite forallb_rev. exact Hp2.
Qed.

End Strip.

Lemma py_strip_split s :
  exists w1 w2, s = w1 ++ py_strip s ++ w2
                /\ forallb is_space w1 = true /\ forallb is_space w2 = true.
Proof. apply strip_split. Qed.

Lemma is_empty_py_strip s :
  is_empty (py_strip s) = forallb is_space s.
Proof. apply is_empty_strip. Qed.

Definition space_or_hyphen (c : char) : bool :=
  existsb (N.eqb c) [SPACE; HYPHEN].

Lemma is_empty_strip_chars s :
  is_empty (py_strip_chars [SPACE; HYPHEN] s) = forallb space_or_hyphen s.
Proof. apply is_empty_strip. Qed.

(** ** The time pattern and surrounding white space *)

Lemma space_cases c :
  is_space c = true ->
  (COLON =? c) = false /\ (50 =? c) = false /\ (c =? UNDERSCORE) = false
  /\ (c =? HASH) = false /\ forall hi, hi <= 57 -> in_range 48 hi c = false.
Proof.
  unfold is_space, COLON, UNDERSCORE, HASH, in_range. intros H.
  assert (Hc : c <= 32 \/ 133 <= c) by bool_lia.
  repeat split; try (apply N.eqb_neq; lia).
  intros hi Hhi. apply andb_false_iff.
  destruct Hc; [left|right]; apply N.leb_gt; lia.
Qed.

Section TimeAndSpace.
Context {U : UnicodeDB}.

Lemma space_not_digit c : is_space c = true -> is_digit c = false.
Proof.
  intros H. unfold is_digit. destruct (to_decimal c) eqn:E; [|reflexivity].
  pose proof (decimal_alnum c n E) as Ha.
  rewrite (space_not_alnum c H) in Ha. discriminate.
Qed.

Lemma space_not_word c : is_space c = true -> is_word c = false.
Proof.
  intros H. unfold is_word. rewrite (space_not_alnum c H).
  destruct (space_cases c H) as (_ & _ & Hu & _). rewrite Hu. reflexivity.
Qed.

Lemma time_match_prev p1 p2 s :
  word_before p1 = word_before p2 -> time_match p1 s = time_match p2 s.
Proof. unfold time_match. intros ->. reflexivity. Qed.

Lemma time_match_starts_with_digit prev c s n :
  time_match prev (c :: s) = Some n -> is_digit c = true.
Proof.
  intros H. apply time_match_token in H. destruct H as (Ht & Hn & _).
  destruct n as [|n]; [discriminate|]. cbn [firstn] in Ht.
  unfold time_token, hour2 in Ht.
  destruct (firstn n s) as [|b [|k [|x [|d [|e r]]]]]; try discriminate.
  - apply andb_true_iff in Ht. destruct Ht as [Ht _].
    apply andb_true_iff in Ht. destruct Ht as [Ht _].
    apply andb_true_iff in Ht. destruct Ht as [Ht _]. exact Ht.
  - apply andb_true_iff in Ht. destruct Ht as [Ht _].
    apply andb_true_iff in Ht. destruct Ht as [Ht _].
    apply andb_true_iff in Ht. destruct Ht as [Ht _].
    apply orb_true_iff in Ht. destruct Ht as [Ht|Ht];
      apply andb_true_iff in Ht; destruct Ht as [Ht _].
    + apply (range_digit 48 49); [lia|lia|exact Ht].
    + apply (char_digit 50); [lia|exact Ht].
Qed.

Lemma time_match_length prev s n :
  time_match prev s = Some n -> (0 < n <= length s)%nat.
Proof.
  intros H. apply time_match_token in H. destruct H as (Ht & Hn & _).
  split.
  - destruct n; [|lia]. cbn in Ht. discriminate.
  - rewrite <- Hn. rewrite length_firstn. lia.
Qed.

Lemma time_match_space prev c s :
  is_space c = true -> time_match prev (c :: s) = None.
Proof.
  intros H. destruct (time_match prev (c :: s)) as [n|] eqn:E; [|reflexivity].
  apply time_match_starts_with_digit in E. rewrite (space_not_digit c H) in E.
  discriminate.
Qed.

Lemma time_match_before_space prev l w ws :
  is_space w = true -> time_match prev (l ++ w :: ws) = time_match prev l.
Proof.
  intros H.
  pose proof (space_not_digit w H) as Hd.
  pose proof (space_not_word w H) as Hw.
  destruct (space_cases w H) as (Hc & H2 & _ & _ & Hr).
  pose proof (Hr 49 ltac:(lia)) as Hr1.
  pose proof (Hr 51 ltac:(lia)) as Hr3.
  pose proof (Hr 53 ltac:(lia)) as Hr5.
  unfold time_match, time_token, hour2.
  destruct (word_before prev); [reflexivity|].
  destruct l as [|a [|b [|k [|c [|d [|e l]]]]]];
    destruct ws as [|x [|y [|z [|v ws]]]]; cbn [app word_after];
    rewrite ?Hd, ?Hw, ?Hc, ?H2, ?Hr1, ?Hr3, ?Hr5;
    rewrite ?andb_false_r, ?andb_true_r, ?orb_false_r;
    cbn [andb orb negb]; rewrite ?andb_false_r, ?andb_true_r; reflexivity.
Qed.

(** [re.sub] and [re.search] for the time pattern, one step at a time. *)
Lemma sub_time_cons prev c s :
  re_sub_del time_pattern prev (c :: s) 0 =
    match time_match prev (c :: s) with
    | Some (S k) => re_sub_del time_pattern (Some c) s k
    | _ => c :: re_sub_del time_pattern (Some c) s 0
    end.
Proof. cbn [re_sub_del]. rewrite match_here_time. reflexivity. Qed.

Lemma search_time_cons prev c s :
  re_search time_pattern prev (c :: s) =
    match time_match prev (c :: s) with
    | Some n => Some ([], firstn n (c :: s), skipn n (c :: s))
    | None =>
      match re_search time_pattern (Some c) s with
      | Some (pre, m, post) => Some (c :: pre, m, post)
      | None => None
      end
    end.
Proof. cbn [re_search]. rewrite match_here_time. reflexivity. Qed.

Lemma search_time_nil prev : re_search time_pattern prev [] = None.
Proof.
  cbn [re_search]. rewrite match_here_time. unfold time_match.
  destruct (word_before prev); reflexivity.
Qed.

Lemma sub_time_prev p1 p2 s k :
  word_before p1 = word_before p2 ->
  re_sub_del time_pattern p1 s k = re_sub_del time_pattern p2 s k.
Proof.
  intros H. destruct s as [|c s]; [reflexivity|]. destruct k as [|k]; [|reflexivity].
  rewrite !sub_time_cons, (time_match_prev p1 p2 _ H). reflexivity.
Qed.

Lemma search_time_prev p1 p2 s :
  word_before p1 = word_before p2 ->
  re_search time_pattern p1 s = re_search time_pattern p2 s.
Proof.
  intros H. destruct s as [|c s]; [rewrite !search_time_nil; reflexivity|].
  rewrite !search_time_cons, (time_match_prev p1 p2 _ H). reflexivity.
Qed.

Definition shift_match (w : str) (m : option (str * str * str))
    : option (str * str * str) :=
  match m with
  | Some (pre, t, post) => Some (w ++ pre, t, post)
  | None => None
  end.

Definition extend_match (w : str) (m : option (str * str * str))
    : option (str * str * str) :=
  match m with
  | Some (pre, t, post) => Some (pre, t, post ++ w)
  | None => None
  end.

(** Leading white space is passed over. *)
Lemma sub_time_leading w s prev :
  forallb is_space w = true -> word_before prev = false ->
  re_sub_del time_pattern prev (w ++ s) 0 = w ++ re_sub_del time_pattern None s 0.
Proof.
  revert prev. induction w as [|c w IH]; intros prev Hw Hp.
  - cbn [app]. apply sub_time_prev. exact Hp.
  - cbn [forallb] in Hw. apply andb_true_iff in Hw. destruct Hw as [Hc Hw].
    cbn [app]. rewrite sub_time_cons, (time_match_space prev c _ Hc).
    f_equal. apply IH; [exact Hw|]. exact (space_not_word c Hc).
Qed.

Lemma search_time_leading w s prev :
  forallb is_space w = true -> word_before prev = false ->
  re_search time_pattern prev (w ++ s)
    = shift_match w (re_search time_pattern None s).
Proof.
  revert prev. induction w as [|c w IH]; intros prev Hw Hp.
  - cbn [app]. rewrite (search_time_prev prev None s Hp).
    destruct (re_search time_pattern None s) as [[[pre t] post]|]; reflexivity.
  - cbn [forallb] in Hw. apply andb_true_iff in Hw. destruct Hw as [Hc Hw].
    cbn [app]. rewrite search_time_cons, (time_match_space prev c _ Hc).
    rewrite (IH (Some c) Hw (space_not_word c Hc)).
    destruct (re_search time_pattern None s) as [[[pre t] post]|]; reflexivity.
Qed.

Lemma sub_time_spaces w prev :
  forallb is_space w = true -> re_sub_del time_pattern prev w 0 = w.
Proof.
  revert prev. induction w as [|c w IH]; intros prev Hw; [reflexivity|].
  cbn [forallb] in Hw. apply andb_true_iff in Hw. destruct Hw as [Hc Hw].
  rewrite sub_time_cons, (time_match_space prev c _ Hc), (IH _ Hw). reflexivity.
Qed.

Lemma search_time_spaces w prev :
  forallb is_space w = true -> re_search time_pattern prev w = None.
Proof.
  revert prev. induction w as [|c w IH]; intros prev Hw; [apply search_time_nil|].
  cbn [forallb] in Hw. apply andb_true_iff in Hw. destruct Hw as [Hc Hw].
  rewrite search_time_cons, (time_match_space prev c _ Hc), (IH _ Hw). reflexivity.
Qed.

(** Trailing white space is passed over as well. *)
Lemma sub_time_trailing l w prev k :
  forallb is_space w = true -> (k <= length l)%nat ->
  re_sub_del time_pattern prev (l ++ w) k = re_sub_del time_pattern prev l k ++ w.
Proof.
  intros Hw. destruct w as [|c w]; [intros _; rewrite !app_nil_r; reflexivity|].
  assert (Hc : is_space c = true)
    by (cbn [forallb] in Hw; apply andb_true_iff in Hw; tauto).
  revert prev k. induction l as [|x l IH]; intros prev k Hk.
  - cbn [length] in Hk. assert (k = 0)%nat by lia. subst k.
    cbn [app]. rewrite (sub_time_spaces _ prev Hw). reflexivity.
  - destruct k as [|k].
    + cbn [app]. rewrite !sub_time_cons.
      change (x :: l ++ c :: w) with ((x :: l) ++ c :: w).
      rewrite (time_match_before_space prev (x :: l) c w Hc).
      destruct (time_match prev (x :: l)) as [[|j]|] eqn:E.
      * cbn [app]. f_equal. apply IH. lia.
      * apply time_match_length in E. cbn [length] in E. apply IH. lia.
      * cbn [app]. f_equal. apply IH. lia.
    + cbn [app re_sub_del]. apply IH. cbn [length] in Hk. lia.
Qed.

Lemma search_time_trailing l w prev :
  forallb is_space w = true ->
  re_search time_pattern prev (l ++ w)
    = extend_match w (re_search time_pattern prev l).
Proof.
  intros Hw. destruct w as [|c w].
  { rewrite app_nil_r.
    destruct (re_search time_pattern prev l) as [[[pre t] post]|]; cbn;
      rewrite ?app_nil_r; reflexivity. }
  assert (Hc : is_space c = true)
    by (cbn [forallb] in Hw; apply andb_true_iff in Hw; tauto).
  revert prev. induction l as [|x l IH]; intros prev.
  - cbn [app]. rewrite (search_time_spaces _ prev Hw), search_time_nil. reflexivity.
  - cbn [app]. rewrite !search_time_cons.
    change (x :: l ++ c :: w) with ((x :: l) ++ c :: w).
    rewrite (time_match_before_space prev (x :: l) c w Hc).
    destruct (time_match prev (x :: l)) as [n|] eqn:E.
    + apply time_match_length in E. cbn [extend_match].
      rewrite firstn_app, skipn_app.
      replace (n - length (x :: l))%nat with 0%nat by lia.
      cbn [firstn skipn]. rewrite app_nil_r. reflexivity.
    + rewrite IH.
      destruct (re_search time_pattern (Some x) l) as [[[pre t] post]|]; reflexivity.
Qed.

(** Once a match is under way, [re.sub] drops it whole. *)
Lemma sub_inside r c s k :
  (k <= length s)%nat ->
  re_sub_del r (Some c) s k
    = re_sub_del r (Some (last (c :: firstn k s) 0)) (skipn k s) 0.
Proof.
  revert c s. induction k as [|k IH]; intros c s Hk.
  - reflexivity.
  - destruct s as [|x s]; [cbn [length] in Hk; lia|].
    cbn [re_sub_del firstn skipn]. rewrite IH by (cbn [length] in Hk; lia).
    reflexivity.
Qed.

(** [re.sub] deletes the first match that [re.search] finds and goes on
    after it. *)
Lemma sub_time_after_search prev s pre t post :
  re_search time_pattern prev s = Some (pre, t, post) ->
  re_sub_del time_pattern prev s 0
    = pre ++ re_sub_del time_pattern (Some (last t 0)) post 0.
Proof.
  revert prev pre. induction s as [|c s IH]; intros prev pre.
  - rewrite search_time_nil. discriminate.
  - rewrite search_time_cons, sub_time_cons.
    destruct (time_match prev (c :: s)) as [n|] eqn:E.
    + intros H. inversion H. subst pre t post.
      apply time_match_length in E. destruct n as [|k]; [lia|].
      cbn [firstn skipn app]. apply sub_inside. cbn [length] in E. lia.
    + destruct (re_search time_pattern (Some c) s) as [[[pre' t'] post']|] eqn:E2;
        [|discriminate].
      intros H. inversion H. subst pre t' post'. cbn [app]. f_equal.
      exact (IH _ _ E2).
Qed.

End TimeAndSpace.

(** ** Lines with more than one time *)

(** [needle in hay] *)
Fixpoint starts_with (needle hay : str) : bool :=
  match needle, hay with
  | [], _ => true
  | c :: needle', x :: hay' => (c =? x) && starts_with needle' hay'
  | _ :: _, [] => false
  end.

Fixpoint contains (needle hay : str) : bool :=
  starts_with needle hay
  || match hay with
     | [] => false
     | _ :: hay' => contains needle hay'
     end.

(** The description computed from what [re.sub] left of the line. *)
Definition normalize (kept : str) : str :=
  py_strip (collapse_spaces false (py_strip_chars [SPACE; HYPHEN] kept)).

(** C2, as the code has it: on a line where [re.search] finds [t1] first
    (after [a]) and, scanning on, [t2] next (after [m]), the task's time is
    the one [t1] denotes, and [re.sub] (called without [count]) deletes
    [t1], [t2] and every later match: the description is computed from
    [a], [m] and what [re.sub] leaves of the text after [t2].  The second
    time is not kept in the description. *)
Theorem first_time_used_all_times_removed (U : UnicodeDB)
    (n : nat) (raw a t1 rest m t2 b : str) (st : State)
    (Hline : is_empty (py_strip raw) || startswith HASH (py_strip raw) = false)
    (Hfirst : re_search time_pattern None (py_strip raw) = Some (a, t1, rest))
    (Hnext : re_search time_pattern (Some (last t1 0)) rest = Some (m, t2, b)) :
  let kept := a ++ m ++ re_sub_del time_pattern (Some (last t2 0)) b 0 in
  py_strip raw = a ++ t1 ++ m ++ t2 ++ b
  /\ re_sub_del time_pattern None (py_strip raw) 0 = kept
  /\ parse_lines [(n, raw)] [] st =
       if is_empty (normalize kept)
       then (Ok [], add_records [mk_log WARNING (EmptyDescription n)] st)
       else
         let task := mk_Task (token_time t1) (py_strip (normalize kept)) in
         (Ok [task], add_records [mk_log INFO (ParsedTask task)] st).
Proof.
  cbv zeta.
  assert (Hsub : re_sub_del time_pattern None (py_strip raw) 0
                 = a ++ m ++ re_sub_del time_pattern (Some (last t2 0)) b 0).
  { rewrite (sub_time_after_search _ _ _ _ _ Hfirst).
    rewrite (sub_time_after_search _ _ _ _ _ Hnext). reflexivity. }
  split; [|split].
  - destruct (re_search_time_token _ _ _ _ _ Hfirst) as [-> _].
    destruct (re_search_time_token _ _ _ _ _ Hnext) as [-> _]. reflexivity.
  - exact Hsub.
  - rewrite parse_lines_spec. unfold lines_tasks, lines_records.
    cbn [flat_map fst snd app]. rewrite !app_nil_r.
    unfold line_result. cbv zeta. rewrite Hline, Hfirst.
    unfold description_of. rewrite Hsub. fold (normalize
      (a ++ m ++ re_sub_del time_pattern (Some (last t2 0)) b 0)).
    destruct (is_empty (normalize _)); [reflexivity|].
    rewrite (Task_init_searched _ _ _ _ _ _ Hfirst). reflexivity.
Qed.

Lemma first_time_used_all_times_removed_witness :
  let st := state_at (mk_time 8 0 0 0) [] in
  let task := mk_Task (mk_time 10 0 0 0) (u8 "a b") in
  @parse_lines sample_db [(1%nat, u8 "10:00 a 11:00 b")] [] st
    = (Ok [task], add_records [mk_log INFO (ParsedTask task)] st).
Proof.
  exact (proj2 (proj2 (first_time_used_all_times_removed sample_db 1
           (u8 "10:00 a 11:00 b") [] (u8 "10:00") (u8 " a 11:00 b")
           (u8 " a ") (u8 "11:00") (u8 " b")
           (state_at (mk_time 8 0 0 0) []) eq_refl eq_refl eq_refl))).
Defined.

(** C2 as stated fails: ["10:00 a 11:00 b"] holds two matches of the time
    pattern; the task gets the first as its time, and its description is
    ["a b"], without the second. *)
Lemma second_time_not_in_description :
  let line := u8 "10:00 a 11:00 b" in
  @re_search sample_db time_pattern None line
    = Some ([], u8 "10:00", u8 " a 11:00 b")
  /\ @re_search sample_db time_pattern (Some 48) (u8 " a 11:00 b")
     = Some (u8 " a ", u8 "11:00", u8 " b")
  /\ fst (@parse_tasks_from_text sample_db line (state_at (mk_time 8 0 0 0) []))
     = Ok [mk_Task (mk_time 10 0 0 0) (u8 "a b")]
  /\ contains (u8 "11:00") (u8 "a b") = false.
Proof. cbv zeta. repeat split; vm_compute; reflexivity. Qed.

(** ** [validate_task_input] against the parser *)

Definition single_line (s : str) : bool := forallb (fun c => negb (c =? LF)) s.

Lemma split_lines_single s : single_line s = true -> split_lines s = [s].
Proof.
  unfold single_line. induction s as [|c s IH]; [reflexivity|].
  cbn [forallb split_lines]. intros H. apply andb_true_iff in H. destruct H as [Hc H].
  destruct (c =? LF); [discriminate|]. rewrite (IH H). reflexivity.
Qed.

Section Validate.
Context {U : UnicodeDB}.

(** [validate_task_input] in closed form: a time is found and something
    other than spaces and hyphens is left once the times are removed. *)
Lemma validate_task_input_spec s :
  validate_task_input s =
    Ok (match re_search time_pattern None s with
        | Some _ => negb (forallb space_or_hyphen (re_sub_del time_pattern None s 0))
        | None => false
        end).
Proof.
  unfold validate_task_input.
  destruct (re_search time_pattern None s) as [[[pre t] post]|] eqn:E; [|reflexivity].
  rewrite is_empty_strip_chars.
  destruct (forallb space_or_hyphen _); [reflexivity|].
  rewrite (Task_init_searched _ _ _ _ _ _ E). reflexivity.
Qed.

Lemma parse_single_line s st :
  single_line s = true ->
  fst (parse_tasks_from_text s st) = Ok (fst (line_result 1 s)).
Proof.
  intros H. rewrite parse_tasks_from_text_spec, (split_lines_single s H).
  unfold lines_tasks. cbn [enumerate flat_map fst snd]. rewrite app_nil_r.
  reflexivity.
Qed.

(** The tasks a line contributes, in closed form. *)
Lemma line_result_tasks n raw :
  fst (line_result n raw) =
    if is_empty (py_strip raw) || startswith HASH (py_strip raw) then []
    else
      match re_search time_pattern None (py_strip raw) with
      | Some (_, t, _) =>
        if is_empty (description_of (py_strip raw)) then []
        else [mk_Task (token_time t) (py_strip (description_of (py_strip raw)))]
      | None => []
      end.
Proof.
  unfold line_result. cbv zeta.
  destruct (is_empty (py_strip raw) || startswith HASH (py_strip raw)); [reflexivity|].
  destruct (re_search time_pattern None (py_strip raw)) as [[[pre t] post]|] eqn:E;
    [|reflexivity].
  destruct (is_empty (description_of (py_strip raw))); [reflexivity|].
  rewrite (Task_init_searched _ _ _ _ _ _ E). reflexivity.
Qed.

(** Searching and deleting in a line and in its stripped form. *)
Lemma search_time_stripped s :
  (exists m, re_search time_pattern None s = Some m)
  <-> (exists m, re_search time_pattern None (py_strip s) = Some m).
Proof.
  destruct (py_strip_split s) as (w1 & w2 & Hs & H1 & H2).
  remember (py_strip s) as line eqn:Hl. clear Hl. subst s.
  rewrite (search_time_leading w1 _ None H1 eq_refl).
  rewrite (search_time_trailing _ w2 None H2).
  destruct (re_search time_pattern None line) as [[[pre t] post]|];
    cbn [extend_match shift_match]; split; intros [m Hm]; try discriminate; eauto.
Qed.

Lemma sub_time_stripped s :
  exists w1 w2,
    re_sub_del time_pattern None s 0
      = w1 ++ re_sub_del time_pattern None (py_strip s) 0 ++ w2
    /\ forallb is_space w1 = true /\ forallb is_space w2 = true.
Proof.
  destruct (py_strip_split s) as (w1 & w2 & Hs & H1 & H2).
  exists w1, w2. split; [|auto].
  remember (py_strip s) as line eqn:Hl. clear Hl. subst s.
  rewrite (sub_time_leading w1 _ None H1 eq_refl).
  rewrite (sub_time_trailing _ w2 None 0 H2 ltac:(lia)). reflexivity.
Qed.

Lemma description_needs_text line :
  is_empty (description_of line) = false ->
  forallb space_or_hyphen (re_sub_del time_pattern None line 0) = false.
Proof.
  unfold description_of. intros H.
  destruct (forallb space_or_hyphen (re_sub_del time_pattern None line 0)) eqn:E;
    [|reflexivity].
  rewrite <- is_empty_strip_chars in E.
  destruct (py_strip_chars [SPACE; HYPHEN] (re_sub_del time_pattern None line 0));
    [|discriminate].
  cbn in H. discriminate.
Qed.

Lemma sub_time_comment rest :
  forallb space_or_hyphen (re_sub_del time_pattern None (HASH :: rest) 0) = false.
Proof.
  rewrite sub_time_cons.
  destruct (time_match None (HASH :: rest)) as [n|] eqn:E.
  - apply time_match_starts_with_digit in E. unfold is_digit, HASH in E.
    rewrite ascii_to_decimal in E by lia. discriminate.
  - reflexivity.
Qed.

End Validate.

(** C10, as the code has it, for a single line [s] whose stripped form is
    not empty.  If that form does not start with [#]:
    [parse_tasks_from_text(s)] yields exactly one task if and only if
    [validate_task_input(s)] is true and the description the parser
    derives (times removed, spaces and hyphens stripped, white space
    collapsed and stripped) is not empty.  If it starts with [#] and [s]
    holds a time: [validate_task_input(s)] is true and the parser yields
    no task. *)
Theorem validate_task_input_vs_parser (U : UnicodeDB) (s : str) (st : State)
    (Hsingle : single_line s = true)
    (Hnonempty : is_empty (py_strip s) = false) :
  (startswith HASH (py_strip s) = false ->
     ((exists task, fst (parse_tasks_from_text s st) = Ok [task])
      <-> validate_task_input s = Ok true
          /\ is_empty (description_of (py_strip s)) = false))
  /\ (startswith HASH (py_strip s) = true ->
      (exists m, re_search time_pattern None s = Some m) ->
      validate_task_input s = Ok true
      /\ fst (parse_tasks_from_text s st) = Ok []).
Proof.
  rewrite (parse_single_line s st Hsingle), line_result_tasks, Hnonempty.
  rewrite validate_task_input_spec. cbn [orb].
  destruct (sub_time_stripped s) as (w1 & w2 & Hsub & H1 & H2).
  pose proof (search_time_stripped s) as Hsearch.
  split.
  - intros Hhash. rewrite Hhash.
    destruct (re_search time_pattern None (py_strip s)) as [[[pre t] post]|] eqn:E.
    + assert (Hs : exists m, re_search time_pattern None s = Some m)
        by (apply Hsearch; eauto).
      destruct Hs as [m Hm]. rewrite Hm.
      destruct (is_empty (description_of (py_strip s))) eqn:Ed.
      * split; [intros [task H]; discriminate|intros [_ H]; discriminate].
      * split; [intros _|intros _; eauto].
        split; [|reflexivity].
        rewrite Hsub, !forallb_app, (description_needs_text _ Ed).
        rewrite andb_false_r. reflexivity.
    + split; [intros [task H]; discriminate|].
      intros [H _]. destruct (re_search time_pattern None s) as [m|] eqn:Em;
        [|discriminate].
      destruct (proj1 Hsearch (ex_intro _ m eq_refl)) as [m' Hm']. discriminate.
  - intros Hhash [m Hm]. rewrite Hhash, Hm. split; [|reflexivity].
    rewrite Hsub, !forallb_app.
    destruct (py_strip s) as [|c rest]; [discriminate|].
    cbn [startswith] in Hhash. apply N.eqb_eq in Hhash. subst c.
    rewrite sub_time_comment, andb_false_r. reflexivity.
Qed.

Lemma validate_task_input_vs_parser_witness :
  let st := state_at (mk_time 8 0 0 0) [] in
  ((exists task, fst (@parse_tasks_from_text sample_db (u8 " 10:00 - x ") st)
                 = Ok [task])
   <-> @validate_task_input sample_db (u8 " 10:00 - x ") = Ok true
       /\ is_empty (@description_of sample_db (py_strip (u8 " 10:00 - x "))) = false)
  /\ (@validate_task_input sample_db (u8 "# 10:00 x") = Ok true
      /\ fst (@parse_tasks_from_text sample_db (u8 "# 10:00 x") st) = Ok []).
Proof.
  cbv zeta. split.
  - exact (proj1 (validate_task_input_vs_parser sample_db (u8 " 10:00 - x ")
                    (state_at (mk_time 8 0 0 0) []) eq_refl eq_refl) eq_refl).
  - exact (proj2 (validate_task_input_vs_parser sample_db (u8 "# 10:00 x")
                    (state_at (mk_time 8 0 0 0) []) eq_refl eq_refl) eq_refl
             (ex_intro _ _ eq_refl)).
Defined.

(** C10 as stated fails: ["10:00 -<TAB>-"] is a single line, not empty
    and not a comment; once the time is removed and spaces and hyphens
    are stripped a TAB is left, so [validate_task_input] is true, while
    the parser collapses and strips the TAB and yields no task. *)
Lemma validate_true_parse_nothing :
  let s := u8 "10:00 -" ++ [9] ++ u8 "-" in
  single_line s = true
  /\ py_strip s = s
  /\ startswith HASH s = false
  /\ @validate_task_input sample_db s = Ok true
  /\ fst (@parse_tasks_from_text sample_db s (state_at (mk_time 8 0 0 0) []))
     = Ok [].
Proof. cbv zeta. repeat split; vm_compute; reflexivity. Qed.

(** * Further properties *)

(** ** The parser works line by line *)

Lemma split_lines_cons_shape s : exists l ls, split_lines s = l :: ls.
Proof.
  induction s as [|c s (l & ls & IH)]; cbn [split_lines]; [eauto|].
  destruct (c =? LF); [eauto|]. rewrite IH. eauto.
Qed.

(** [(a + '\n' + b).split('\n') == a.split('\n') + b.split('\n')] *)
Lemma split_lines_app a b :
  split_lines (a ++ LF :: b) = split_lines a ++ split_lines b.
Proof.
  induction a as [|c a IH]; cbn [app split_lines].
  - reflexivity.
  - destruct (c =? LF); [rewrite IH; reflexivity|].
    rewrite IH. destruct (split_lines_cons_shape a) as (l & ls & E).
    rewrite E. reflexivity.
Qed.

Section LineNumbers.
Context {U : UnicodeDB}.

(** The line number only shows in the log. *)
Lemma line_result_tasks_any_number n m raw :
  fst (line_result n raw) = fst (line_result m raw).
Proof. rewrite !line_result_tasks. reflexivity. Qed.

Lemma lines_tasks_enumerate n ls :
  lines_tasks (enumerate n ls) = flat_map (fun raw => fst (line_result 1 raw)) ls.
Proof.
  revert n. induction ls as [|raw ls IH]; intros n; [reflexivity|].
  unfold lines_tasks in *. cbn [enumerate flat_map fst snd].
  rewrite IH, (line_result_tasks_any_number n 1). reflexivity.
Qed.

Lemma parse_tasks_from_text_tasks text st :
  fst (parse_tasks_from_text text st)
    = Ok (flat_map (fun raw => fst (line_result 1 raw)) (split_lines text)).
Proof.
  rewrite parse_tasks_from_text_spec, lines_tasks_enumerate. reflexivity.
Qed.

End LineNumbers.

(** X1: parsing two texts joined by a newline gives the tasks of the first
    followed by the tasks of the second, whatever state the calls start
    in: lines never influence each other and the order of the file is the
    order of the list. *)
Theorem parse_tasks_from_text_concat (U : UnicodeDB) (a b : str)
    (st sta stb : State) :
  exists ta tb,
    fst (parse_tasks_from_text a sta) = Ok ta
    /\ fst (parse_tasks_from_text b stb) = Ok tb
    /\ fst (parse_tasks_from_text (a ++ [LF] ++ b) st) = Ok (ta ++ tb).
Proof.
  eexists. eexists. split; [|split].
  - apply parse_tasks_from_text_tasks.
  - apply parse_tasks_from_text_tasks.
  - rewrite parse_tasks_from_text_tasks. cbn [app].
    rewrite split_lines_app, flat_map_app. reflexivity.
Qed.

(** ** What a parsed task looks like *)

Definition starts_with_space (d : str) : bool :=
  match d with c :: _ => is_space c | [] => false end.

Definition ends_with_space (d : str) : bool := starts_with_space (rev d).

(** Every white-space code point is a single SPACE followed by something
    that is not white space. *)
Fixpoint single_spaced (d : str) : bool :=
  match d with
  | [] => true
  | c :: d' =>
    (negb (is_space c) || ((c =? SPACE) && negb (starts_with_space d')))
    && single_spaced d'
  end.

(** A description as the parser leaves it. *)
Definition tidy (d : str) : bool :=
  negb (is_empty d) && negb (starts_with_space d) && negb (ends_with_space d)
  && single_spaced d.

(** A task as the parser builds it: a time of day in whole minutes and a
    tidy description. *)
Definition well_formed (t : Task) : bool :=
  (hour (time t) <? 24)%nat && (minute (time t) <? 60)%nat
  && (second (time t) =? 0)%nat && (microsecond (time t) =? 0)%nat
  && tidy (description t).

Section Tidy.

Lemma collapse_spaces_single_spaced in_run s :
  single_spaced (collapse_spaces in_run s) = true
  /\ (in_run = true -> starts_with_space (collapse_spaces in_run s) = false).
Proof.
  revert in_run. induction s as [|c s IH]; intros in_run; cbn [collapse_spaces].
  - split; reflexivity.
  - destruct (is_space c) eqn:Ec.
    + destruct in_run.
      * apply IH.
      * destruct (IH true) as [H1 H2]. split; [|discriminate].
        cbn [single_spaced]. rewrite H1, (H2 eq_refl). reflexivity.
    + destruct (IH false) as [H1 _]. split.
      * cbn [single_spaced]. rewrite Ec, H1. reflexivity.
      * intros _. cbn [starts_with_space]. exact Ec.
Qed.

Lemma single_spaced_suffix a b : single_spaced (a ++ b) = true -> single_spaced b = true.
Proof.
  induction a as [|c a IH]; [auto|]. cbn [app single_spaced]. intros H.
  apply andb_true_iff in H. apply IH, H.
Qed.

Lemma single_spaced_prefix a b : single_spaced (a ++ b) = true -> single_spaced a = true.
Proof.
  induction a as [|c a IH]; [reflexivity|]. cbn [app single_spaced]. intros H.
  apply andb_true_iff in H. destruct H as [Hc H]. rewrite (IH H), andb_true_r.
  destruct a as [|x a]; [|exact Hc].
  cbn [app starts_with_space] in *.
  destruct (is_space c) eqn:Ec; [|reflexivity]. cbn [negb orb] in *.
  apply andb_true_iff in Hc. destruct Hc as [Hc _]. rewrite Hc. reflexivity.
Qed.

Variable p : char -> bool.

Lemma dropwhile_head s c r : dropwhile p s = c :: r -> p c = false.
Proof.
  induction s as [|x s IH]; cbn [dropwhile]; [discriminate|].
  destruct (p x) eqn:E; [exact IH|]. intros H. inversion H. subst. exact E.
Qed.

Lemma dropwhile_id s :
  match s with c :: _ => p c = false | [] => True end -> dropwhile p s = s.
Proof. destruct s as [|c s]; [reflexivity|]. cbn. intros ->. reflexivity. Qed.

Lemma rstrip_prefix s : exists w, s = rstrip p s ++ w /\ forallb p w = true.
Proof.
  unfold rstrip. destruct (dropwhile_split p (rev s)) as (w & Hw & Hp).
  exists (rev w). split.
  - rewrite <- rev_app_distr, <- Hw, rev_involutive. reflexivity.
  - rewrite forallb_rev. exact Hp.
Qed.

End Tidy.

(** A strip leaves no white space at either end, and changes nothing when
    there is none. *)
Lemma py_strip_ends s :
  starts_with_space (py_strip s) = false /\ ends_with_space (py_strip s) = false.
Proof.
  unfold py_strip, ends_with_space. split.
  - destruct (rstrip_prefix is_space (lstrip is_space s)) as (w & Hw & _).
    destruct (rstrip is_space (lstrip is_space s)) as [|c r] eqn:E; [reflexivity|].
    cbn [starts_with_space]. unfold lstrip in Hw. cbn [app] in Hw.
    exact (dropwhile_head is_space s c _ Hw).
  - unfold rstrip. rewrite rev_involutive.
    destruct (dropwhile is_space (rev (lstrip is_space s))) as [|c r] eqn:E;
      [reflexivity|].
    cbn [starts_with_space]. exact (dropwhile_head is_space _ c r E).
Qed.

Lemma py_strip_fixed d :
  starts_with_space d = false -> ends_with_space d = false -> py_strip d = d.
Proof.
  unfold py_strip, rstrip, lstrip, ends_with_space. intros Hs He.
  rewrite (dropwhile_id is_space d).
  - rewrite (dropwhile_id is_space (rev d)); [apply rev_involutive|].
    destruct (rev d); [exact I|exact He].
  - destruct d; [exact I|exact Hs].
Qed.

Lemma py_strip_idempotent s : py_strip (py_strip s) = py_strip s.
Proof. destruct (py_strip_ends s). apply py_strip_fixed; assumption. Qed.

Lemma py_strip_single_spaced s :
  single_spaced s = true -> single_spaced (py_strip s) = true.
Proof.
  intros H. destruct (py_strip_split s) as (w1 & w2 & Hs & _).
  rewrite Hs in H. apply single_spaced_suffix in H.
  apply single_spaced_prefix in H. exact H.
Qed.

Section ParsedTasks.
Context {U : UnicodeDB}.

Lemma description_of_tidy line :
  is_empty (description_of line) = false -> tidy (description_of line) = true.
Proof.
  intros H. unfold tidy. rewrite H. unfold description_of in *.
  destruct (py_strip_ends (collapse_spaces false
              (py_strip_chars [SPACE; HYPHEN]
                 (re_sub_del time_pattern None line 0)))) as [H1 H2].
  rewrite H1, H2, py_strip_single_spaced; [reflexivity|].
  apply collapse_spaces_single_spaced.
Qed.

Lemma token_time_whole_minutes t :
  second (token_time t) = 0%nat /\ microsecond (token_time t) = 0%nat.
Proof.
  unfold token_time. destruct t as [|a [|b [|k [|c [|d [|e s]]]]]]; split; reflexivity.
Qed.

Lemma line_result_well_formed n raw :
  forallb well_formed (fst (line_result n raw)) = true.
Proof.
  rewrite line_result_tasks.
  destruct (is_empty (py_strip raw) || startswith HASH (py_strip raw)); [reflexivity|].
  destruct (re_search time_pattern None (py_strip raw)) as [[[pre t] post]|] eqn:E;
    [|reflexivity].
  destruct (is_empty (description_of (py_strip raw))) eqn:Ed; [reflexivity|].
  cbn [forallb]. rewrite andb_true_r. unfold well_formed. cbn [time description].
  apply re_search_time_token in E. destruct E as [_ Ht].
  destruct (token_time_range t Ht) as [Hh Hm].
  destruct (token_time_whole_minutes t) as [Hs Hu].
  apply Nat.ltb_lt in Hh, Hm. rewrite Hh, Hm, Hs, Hu. cbn [Nat.eqb andb].
  unfold description_of at 1. rewrite py_strip_idempotent.
  fold (description_of (py_strip raw)). exact (description_of_tidy _ Ed).
Qed.

Lemma lines_tasks_well_formed lines :
  forallb well_formed (lines_tasks lines) = true.
Proof.
  unfold lines_tasks. induction lines as [|[n raw] lines IH]; [reflexivity|].
  cbn [flat_map fst snd]. rewrite forallb_app, line_result_well_formed, IH.
  reflexivity.
Qed.

End ParsedTasks.

(** X2: every task [parse_tasks_from_text] returns has a time of day in
    whole minutes (hour below 24, minute below 60, no seconds) and a tidy
    description: not empty, no white space at either end, and inside only
    single spaces.  This holds for every text. *)
Theorem parsed_tasks_well_formed (U : UnicodeDB) (text : str) (st : State) :
  exists parsed,
    fst (parse_tasks_from_text text st) = Ok parsed
    /\ forallb well_formed parsed = true.
Proof.
  eexists. split.
  - rewrite parse_tasks_from_text_spec. reflexivity.
  - apply lines_tasks_well_formed.
Qed.

(** ** One dispatch pass, whatever the clock and the console do *)

(** [a] is [b] with some elements left out, the others in their order. *)
Inductive subsequence {A : Type} : list A -> list A -> Prop :=
| subsequence_nil : forall b, subsequence [] b
| subsequence_take : forall x a b, subsequence a b -> subsequence (x :: a) (x :: b)
| subsequence_skip : forall x a b, subsequence a b -> subsequence a (x :: b).

Lemma subsequence_refl {A} (l : list A) : subsequence l l.
Proof. induction l; constructor; assumption. Qed.

Lemma subsequence_trans {A} (a b c : list A) :
  subsequence a b -> subsequence b c -> subsequence a c.
Proof.
  intros Hab Hbc. revert a Hab. induction Hbc as [c|x b c Hbc IH|x b c Hbc IH];
    intros a Hab.
  - inversion Hab. constructor.
  - inversion Hab; subst.
    + constructor.
    + constructor. apply IH. assumption.
    + apply subsequence_skip. apply IH. assumption.
  - apply subsequence_skip. apply IH. assumption.
Qed.

Lemma subsequence_tail {A} (x : A) a b : subsequence (x :: a) b -> subsequence a b.
Proof.
  intros H. apply (subsequence_trans a (x :: a) b); [|exact H].
  apply subsequence_skip, subsequence_refl.
Qed.

Lemma subsequence_forallb {A} (f : A -> bool) a b :
  subsequence a b -> forallb f b = true -> forallb f a = true.
Proof.
  induction 1 as [b|x a b H IH|x a b H IH]; cbn [forallb]; intros Hb.
  - reflexivity.
  - apply andb_true_iff in Hb. destruct Hb as [Hx Hb]. rewrite Hx, (IH Hb). reflexivity.
  - apply andb_true_iff in Hb. apply IH, Hb.
Qed.

Lemma subsequence_In {A} (x : A) a b : subsequence a b -> In x a -> In x b.
Proof.
  induction 1 as [b|y a b H IH|y a b H IH]; cbn [In].
  - intros [].
  - intros [E|Hx]; [left; exact E|right; apply IH, Hx].
  - intros Hx. right. apply IH, Hx.
Qed.

(** [Task.__eq__] is equality of the two fields. *)
Lemma Task_eq_eq x y : Task_eq x y = true -> x = y.
Proof.
  intros H. pose proof (Task_eq_time x y H) as Ht.
  unfold Task_eq in H. apply andb_true_iff in H. destruct H as [_ H].
  destruct (list_eq_dec N.eq_dec (description x) (description y)) as [Hd|];
    [|discriminate].
  destruct x, y. cbn in *. subst. reflexivity.
Qed.

(** What a scan has done between [st] and [st']: it notified [fired] in
    full, showed [extra] after that, and touched nothing else of the
    manager. *)
Definition scanned (st st' : State) (fired : list Task)
    (extra : list console_event) : Prop :=
  tasks st' = tasks st /\ last_modified st' = last_modified st
  /\ _monitoring st' = _monitoring st /\ stdout st' = stdout st
  /\ logger st'
     = logger st ++ map (fun t => mk_log INFO (NotificationSent t)) fired
  /\ console st' = console st ++ reminders fired ++ extra.

(** The standard output [out] raises [e] at some write of the bell or of
    the reminder of a task of [l]. *)
Definition refused (out : Stdout) (l : list Task) (e : exn) : Prop :=
  exists k t,
    In t l /\ (out k Bell = Some e \/ out k (Reminder t) = Some e).

Lemma scanned_step st st1 st2 f1 f2 extra :
  scanned st st1 f1 [] -> scanned st1 st2 f2 extra ->
  scanned st st2 (f1 ++ f2) extra.
Proof.
  intros (Ht1 & Hw1 & Hm1 & Ho1 & Hl1 & Hc1) (Ht2 & Hw2 & Hm2 & Ho2 & Hl2 & Hc2).
  unfold scanned, reminders in *.
  rewrite Ht2, Hw2, Hm2, Ho2, Hl2, Hc2, Hl1, Hc1, map_app, flat_map_app.
  rewrite app_nil_r, <- !app_assoc. repeat split; assumption.
Qed.

Lemma refused_stdout out out' l e :
  out' = out -> refused out' l e -> refused out l e.
Proof. intros ->. exact (fun H => H). Qed.

Lemma refused_tail out x l e : refused out l e -> refused out (x :: l) e.
Proof. intros (k & t & Ht & H). exists k, t. split; [right; exact Ht|exact H]. Qed.

(** One notification: it is shown and logged, or the bell or the
    reminder is refused and the call ends there. *)
Lemma notification_run task st :
  match (_send_notification task ;; log INFO (NotificationSent task)) st with
  | (Ok _, st') => scanned st st' [task] []
  | (Raise e, st') =>
    refused (stdout st) [task] e
    /\ exists extra, (extra = [] \/ extra = [Bell]) /\ scanned st st' [] extra
  end.
Proof.
  unfold _send_notification, bind, print.
  destruct (stdout st (stdout_writes st) Bell) as [e|] eqn:Eb.
  - split.
    + exists (stdout_writes st), task. split; [left; reflexivity|left; exact Eb].
    + exists []. split; [left; reflexivity|].
      unfold scanned, reminders. cbn. rewrite !app_nil_r. repeat split.
  - cbn [stdout stdout_writes].
    destruct (stdout st (S (stdout_writes st)) (Reminder task)) as [e|] eqn:Er.
    + split.
      * exists (S (stdout_writes st)), task.
        split; [left; reflexivity|right; exact Er].
      * exists [Bell]. split; [right; reflexivity|].
        unfold scanned, reminders. cbn. rewrite !app_nil_r. repeat split.
    + unfold log, scanned, reminders. cbn. rewrite <- !app_assoc. repeat split.
Qed.

(** The first loop of [check_and_notify] on any clock and any standard
    output. *)
Lemma notify_due_run snapshot acc st :
  exists fired,
    subsequence fired snapshot
    /\ match notify_due snapshot acc st with
       | (Ok l, st') => l = acc ++ fired /\ scanned st st' fired []
       | (Raise e, st') =>
         refused (stdout st) snapshot e
         /\ exists extra,
              (extra = [] \/ extra = [Bell]) /\ scanned st st' fired extra
       end.
Proof.
  revert acc st. induction snapshot as [|x l IH]; intros acc st.
  - exists []. split; [constructor|]. cbn. rewrite app_nil_r.
    unfold scanned, reminders. cbn. rewrite !app_nil_r. repeat split.
  - cbn [notify_due]. unfold bind at 1.
    unfold should_notify, bind at 1, datetime_now, ret.
    set (st1 := mk_State _ _ _ _ _ _ (S (clock_reads st)) _ _).
    assert (H1 : scanned st st1 [] []).
    { unfold scanned, reminders, st1. cbn. rewrite !app_nil_r. repeat split. }
    destruct (time_ge (clock st (clock_reads st)) (time x)).
    + rewrite <- (bind_assoc (_send_notification x)
                    (fun _ => log INFO (NotificationSent x))
                    (fun _ => notify_due l (acc ++ [x]))).
      unfold bind at 1.
      pose proof (notification_run x st1) as Hx.
      destruct ((_send_notification x;; log INFO (NotificationSent x)) st1)
        as [[[]|e] st2].
      * destruct (IH (acc ++ [x]) st2) as (fired & Hsub & Hrest).
        exists (x :: fired). split; [constructor; exact Hsub|].
        pose proof (scanned_step _ _ _ _ _ _ H1 Hx) as H2. cbn [app] in H2.
        destruct (notify_due l (acc ++ [x]) st2) as [[l'|e] st'].
        -- destruct Hrest as [-> Hs]. split.
           ++ rewrite <- app_assoc. reflexivity.
           ++ exact (scanned_step _ _ _ _ _ _ H2 Hs).
        -- destruct Hrest as (Hr & extra & He & Hs). split.
           ++ apply refused_tail.
              apply (refused_stdout _ (stdout st2)); [|exact Hr].
              destruct H2 as (_ & _ & _ & Ho & _). exact Ho.
           ++ exists extra. split; [exact He|].
              exact (scanned_step _ _ _ _ _ _ H2 Hs).
      * exists []. split; [constructor|].
        destruct Hx as ((k & t & [<-|[]] & Hk) & extra & He & Hs). split.
        -- exists k, x. split; [left; reflexivity|exact Hk].
        -- exists extra. split; [exact He|].
           exact (scanned_step _ _ _ _ _ _ H1 Hs).
    + destruct (IH acc st1) as (fired & Hsub & Hrest).
      exists fired. split; [apply subsequence_skip; exact Hsub|].
      destruct (notify_due l acc st1) as [[l'|e] st'].
      * destruct Hrest as [-> Hs]. split; [reflexivity|].
        exact (scanned_step _ _ _ _ _ _ H1 Hs).
      * destruct Hrest as (Hr & extra & He & Hs). split.
        -- apply refused_tail. exact Hr.
        -- exists extra. split; [exact He|].
           exact (scanned_step _ _ _ _ _ _ H1 Hs).
Qed.

(** Removing the first of a subsequence leaves the rest a subsequence. *)
Lemma list_remove_subsequence x fired live :
  subsequence (x :: fired) live ->
  exists live',
    list_remove x live = Some live'
    /\ subsequence fired live' /\ subsequence live' live
    /\ Permutation live (x :: live').
Proof.
  induction live as [|y live IH]; intros H; [inversion H|].
  cbn [list_remove]. destruct (Task_eq y x) eqn:E.
  - apply Task_eq_eq in E. subst y. exists live. repeat split.
    + inversion H; subst; [assumption|]. apply (subsequence_tail x). assumption.
    + apply subsequence_skip, subsequence_refl.
    + apply Permutation_refl.
  - inversion H; subst.
    + rewrite Task_eq_refl in E. discriminate.
    + destruct (IH H2) as (live' & Hr & Hf & Hl & Hp). rewrite Hr.
      exists (y :: live'). repeat split.
      * apply subsequence_skip. exact Hf.
      * apply subsequence_take. exact Hl.
      * apply (perm_trans (perm_skip y Hp)). apply perm_swap.
Qed.

(** The second loop never raises: [list.remove] finds every task that the
    first loop took from the list. *)
Lemma remove_notified_subsequence fired st :
  subsequence fired (tasks st) ->
  exists rest,
    remove_notified fired st = (Ok tt, with_tasks rest st)
    /\ subsequence rest (tasks st)
    /\ Permutation (tasks st) (fired ++ rest).
Proof.
  revert st. induction fired as [|x fired IH]; intros st H.
  - exists (tasks st). cbn. unfold ret, with_tasks. repeat split.
    + destruct st; reflexivity.
    + apply subsequence_refl.
    + apply Permutation_refl.
  - destruct (list_remove_subsequence x fired (tasks st) H)
      as (live' & Hr & Hf & Hl & Hp).
    cbn [remove_notified]. unfold bind at 1, get. rewrite Hr.
    unfold bind, set_tasks.
    destruct (IH (with_tasks live' st) Hf) as (rest & Hrun & Hsub & Hperm).
    exists rest. repeat split.
    + exact Hrun.
    + exact (subsequence_trans _ _ _ Hsub Hl).
    + cbn [app]. apply (perm_trans Hp). apply perm_skip. exact Hperm.
Qed.

Lemma check_and_notify_run (st : State) :
  let st' := snd (check_and_notify st) in
  exists fired,
    subsequence fired (tasks st)
    /\ last_modified st' = last_modified st
    /\ _monitoring st' = _monitoring st
    /\ stdout st' = stdout st
    /\ logger st'
       = logger st ++ map (fun t => mk_log INFO (NotificationSent t)) fired
    /\ match fst (check_and_notify st) with
       | Ok _ =>
         console st' = console st ++ reminders fired
         /\ Permutation (tasks st) (fired ++ tasks st')
         /\ subsequence (tasks st') (tasks st)
       | Raise e =>
         refused (stdout st) (tasks st) e
         /\ tasks st' = tasks st
         /\ exists extra,
              (extra = [] \/ extra = [Bell])
              /\ console st' = console st ++ reminders fired ++ extra
       end.
Proof.
  cbv zeta. unfold check_and_notify, bind at 1, get. unfold bind.
  destruct (notify_due_run (tasks st) [] st) as (fired & Hsub & Hscan).
  exists fired. split; [exact Hsub|].
  destruct (notify_due (tasks st) [] st) as [[l|e] st1].
  - destruct Hscan as [-> (Ht & Hw & Hm & Ho & Hl & Hc)]. cbn [app].
    rewrite <- Ht in Hsub.
    destruct (remove_notified_subsequence fired st1 Hsub)
      as (rest & Hrun & Hrest & Hperm).
    rewrite Hrun. cbn [fst snd with_tasks tasks last_modified _monitoring
      stdout logger console].
    rewrite app_nil_r in Hc. rewrite <- Ht.
    repeat split; assumption.
  - destruct Hscan as (Hr & extra & He & (Ht & Hw & Hm & Ho & Hl & Hc)).
    cbn [fst snd]. repeat split; try assumption.
    exists extra. split; assumption.
Qed.

(** X3: one pass of [check_and_notify], for any readings of the clock and
    any behaviour of the standard output.  Some of the tasks, [fired], in
    list order, got their bell, their reminder and their log record.
    Either the pass returns: then [fired] are gone from the list, which
    keeps the other tasks in their order.  Or the pass raises: then it is
    what the standard output raised at the bell or the reminder of a
    task of the list ([list.remove] never fails), the console shows at
    most one bell after the reminders of [fired], and the list is as it
    was, the tasks of [fired] included. *)
Theorem check_and_notify_any_clock (st : State) :
  let st' := snd (check_and_notify st) in
  exists fired,
    subsequence fired (tasks st)
    /\ last_modified st' = last_modified st
    /\ _monitoring st' = _monitoring st
    /\ stdout st' = stdout st
    /\ logger st'
       = logger st ++ map (fun t => mk_log INFO (NotificationSent t)) fired
    /\ match fst (check_and_notify st) with
       | Ok _ =>
         console st' = console st ++ reminders fired
         /\ Permutation (tasks st) (fired ++ tasks st')
         /\ subsequence (tasks st') (tasks st)
       | Raise e =>
         refused (stdout st) (tasks st) e
         /\ tasks st' = tasks st
         /\ exists extra,
              (extra = [] \/ extra = [Bell])
              /\ console st' = console st ++ reminders fired ++ extra
       end.
Proof. exact (check_and_notify_run st). Qed.

(** ** What a load does to the manager *)

Lemma split_lines_spaces s :
  forallb is_space s = true ->
  forallb (forallb is_space) (split_lines s) = true.
Proof.
  induction s as [|c s IH]; [reflexivity|]. cbn [forallb split_lines]. intros H.
  apply andb_true_iff in H. destruct H as [Hc H]. specialize (IH H).
  destruct (c =? LF); [exact IH|].
  destruct (split_lines s) as [|l ls]; cbn [forallb] in *.
  - rewrite Hc. reflexivity.
  - apply andb_true_iff in IH. destruct IH as [Hl Hls]. rewrite Hc, Hl, Hls.
    reflexivity.
Qed.

Section LoadOutcome.
Context {U : UnicodeDB}.

(** The tasks of a text: what [parse_tasks_from_text] returns for it. *)
Definition tasks_of_text (text : str) : list Task :=
  flat_map (fun raw => fst (line_result 1 raw)) (split_lines text).

Lemma tasks_of_blank_text text :
  is_empty (py_strip text) = true -> tasks_of_text text = [].
Proof.
  rewrite is_empty_py_strip. intros H. apply split_lines_spaces in H.
  unfold tasks_of_text. induction (split_lines text) as [|l ls IH]; [reflexivity|].
  cbn [forallb] in H. apply andb_true_iff in H. destruct H as [Hl Hls].
  cbn [flat_map]. rewrite (IH Hls), app_nil_r, line_result_tasks.
  rewrite is_empty_py_strip, Hl. reflexivity.
Qed.

(** The state after a load that read [content] with time stamp [m]. *)
Definition reloaded (m : Z) (content : str) (st : State) : State :=
  add_records
    (if is_empty (py_strip content) then [mk_log WARNING FileEmpty]
     else lines_records (enumerate 1 (split_lines content))
          ++ [mk_log INFO (Loaded (length (tasks_of_text content)))])
    (with_tasks (tasks_of_text content) (with_watermark m st)).

Lemma load_tasks_read fs st m content :
  fs_exists fs = true -> fs_mtime fs = Ok m -> (last_modified st < m)%Z ->
  fs_read_text fs = Ok content ->
  load_tasks fs st = (Ok true, reloaded m content st).
Proof.
  intros Hex Hm Hlt Hrd. unfold load_tasks, try_except, bind, lift, get.
  rewrite Hex, Hm. cbn [negb]. apply Z.leb_gt in Hlt. rewrite Hlt.
  cbn [set_last_modified]. rewrite Hrd. unfold reloaded.
  destruct (is_empty (py_strip content)) eqn:E.
  - rewrite (tasks_of_blank_text content E). reflexivity.
  - rewrite parse_tasks_from_text_spec, lines_tasks_enumerate.
    fold (tasks_of_text content). unfold add_records, with_tasks, with_watermark.
    cbn. rewrite <- app_assoc. reflexivity.
Qed.

(** Every way [load_tasks] can end. *)
Lemma load_tasks_cases fs st :
  let r := load_tasks fs st in
  (r = (Ok true, st))
  \/ (exists m content,
        fs_mtime fs = Ok m /\ (last_modified st < m)%Z
        /\ fs_read_text fs = Ok content
        /\ r = (Ok true, reloaded m content st))
  \/ (exists rs m,
        (last_modified st <= m)%Z
        /\ snd r = add_records rs (with_watermark m st)
        /\ match fst r with
           | Ok b => b = false
           | Raise e => is_Exception e = false
           end).
Proof.
  cbv zeta. destruct (fs_exists fs) eqn:Hex.
  2:{ right; right. exists [mk_log ERROR FileMissing], (last_modified st).
      unfold load_tasks, try_except, bind. rewrite Hex. cbn.
      repeat split; try lia; try (destruct st; reflexivity). }
  destruct (fs_mtime fs) as [m|e] eqn:Hm.
  2:{ right; right. unfold load_tasks, try_except, bind, lift. rewrite Hex, Hm.
      cbn [negb]. destruct (is_Exception e) eqn:He.
      - exists [mk_log ERROR (LoadFailed e)], (last_modified st). cbn.
        repeat split; try lia; try (destruct st; reflexivity).
      - exists [], (last_modified st). cbn. rewrite add_records_nil.
        repeat split; try lia; try exact He; try (destruct st; reflexivity). }
  destruct (Z.leb_spec m (last_modified st)) as [Hle|Hlt].
  { left. apply (load_tasks_unchanged fs st m Hex Hm Hle). }
  destruct (fs_read_text fs) as [content|e] eqn:Hrd.
  { right; left. exists m, content. repeat split; try assumption.
    apply load_tasks_read; assumption. }
  right; right. destruct (is_Exception e) eqn:He.
  - exists [mk_log ERROR (LoadFailed e)], m.
    rewrite (load_tasks_read_error fs st m e Hex Hm Hlt Hrd He). cbn [fst snd].
    repeat split; lia.
  - exists [], m. unfold load_tasks, try_except, bind, lift, get.
    rewrite Hex, Hm. cbn [negb]. apply Z.leb_gt in Hlt. rewrite Hlt.
    cbn [set_last_modified]. rewrite Hrd, He. cbn [fst snd].
    rewrite add_records_nil. repeat split; try lia; exact He.
Qed.

End LoadOutcome.

(** X4: a load that reads the file (the file is there, newer than the
    watermark, and readable) returns [True], moves the watermark to the
    file's time stamp and replaces the task list by the parse of the
    content: nothing of the previous list survives, a blank file gives the
    empty list, and every task of the new list is well formed. *)
Theorem load_tasks_replaces_task_list (U : UnicodeDB) (fs : FileSystem)
    (st : State) (m : Z) (content : str)
    (Hexists : fs_exists fs = true) (Hmtime : fs_mtime fs = Ok m)
    (Hnewer : (last_modified st < m)%Z)
    (Hread : fs_read_text fs = Ok content) :
  let st' := snd (load_tasks fs st) in
  fst (load_tasks fs st) = Ok true
  /\ (forall st0, fst (parse_tasks_from_text content st0) = Ok (tasks st'))
  /\ (is_empty (py_strip content) = true -> tasks st' = [])
  /\ forallb well_formed (tasks st') = true
  /\ last_modified st' = m
  /\ _monitoring st' = _monitoring st /\ console st' = console st.
Proof.
  cbv zeta. rewrite (load_tasks_read fs st m content Hexists Hmtime Hnewer Hread).
  cbn [fst snd]. unfold reloaded. cbn [add_records with_tasks with_watermark tasks
    last_modified _monitoring console].
  repeat split.
  - intros st0. apply parse_tasks_from_text_tasks.
  - apply tasks_of_blank_text.
  - unfold tasks_of_text. rewrite <- (lines_tasks_enumerate 1).
    apply lines_tasks_well_formed.
Qed.

Lemma load_tasks_replaces_task_list_witness :
  let fs := mk_fs true (Ok 100%Z) (Ok three_tasks_file) in
  let st := state_at (mk_time 8 0 0 0) [lunch] in
  let st' := snd (@load_tasks sample_db fs st) in
  fst (@load_tasks sample_db fs st) = Ok true
  /\ tasks st' = sample_tasks /\ last_modified st' = 100%Z.
Proof.
  cbv zeta.
  pose proof (load_tasks_replaces_task_list sample_db
                (mk_fs true (Ok 100%Z) (Ok three_tasks_file))
                (state_at (mk_time 8 0 0 0) [lunch]) 100%Z three_tasks_file
                eq_refl eq_refl ltac:(cbn; lia) eq_refl)
    as (H1 & H2 & _ & _ & H3 & _).
  split; [exact H1|]. split; [|exact H3].
  specialize (H2 (state_at (mk_time 8 0 0 0) [])).
  assert (E : fst (@parse_tasks_from_text sample_db three_tasks_file
                     (state_at (mk_time 8 0 0 0) [])) = Ok sample_tasks)
    by (vm_compute; reflexivity).
  rewrite E in H2. inversion H2. reflexivity.
Defined.

(** X5: [load_tasks] never lets an [Exception] out (only a
    [BaseException] such as [KeyboardInterrupt] passes through), and
    unless it returns [True] it leaves the task list as it was.  In every
    case the watermark does not go back, and the monitoring flag and the
    console are untouched. *)
Theorem load_tasks_failure_keeps_tasks (U : UnicodeDB) (fs : FileSystem)
    (st : State) :
  let st' := snd (load_tasks fs st) in
  match fst (load_tasks fs st) with
  | Ok true => True
  | Ok false => tasks st' = tasks st
  | Raise e => is_Exception e = false /\ tasks st' = tasks st
  end
  /\ (last_modified st <= last_modified st')%Z
  /\ _monitoring st' = _monitoring st /\ console st' = console st.
Proof.
  cbv zeta.
  destruct (load_tasks_cases fs st) as [H|[(m & content & _ & Hlt & _ & H)
                                         |(rs & m & Hle & Hs & Hr)]].
  - rewrite H. cbn. repeat split. lia.
  - rewrite H. cbn. repeat split. lia.
  - rewrite Hs. cbn [add_records with_watermark tasks last_modified
      _monitoring console].
    destruct (fst (load_tasks fs st)) as [[|]|e]; repeat split;
      try discriminate; try assumption.
Qed.

(** ** What the monitor loop keeps *)

(** The task list holds well-formed tasks only and the watermark is at
    least [w]. *)
Definition sound_above (w : Z) (st : State) : Prop :=
  forallb well_formed (tasks st) = true /\ (w <= last_modified st)%Z.

Section MonitorInvariant.
Context {U : UnicodeDB}.
Variable w : Z.

Lemma sound_set_monitoring b st :
  sound_above w st -> sound_above w (snd (set_monitoring b st)).
Proof. exact (fun H => H). Qed.

Lemma sound_log l m st : sound_above w st -> sound_above w (snd (log l m st)).
Proof. exact (fun H => H). Qed.

Lemma sound_load_tasks fs st :
  sound_above w st -> sound_above w (snd (load_tasks fs st)).
Proof.
  intros [Ht Hw].
  destruct (load_tasks_cases fs st) as [H|[(m & content & _ & Hlt & _ & H)
                                         |(rs & m & Hle & Hs & _)]].
  - rewrite H. split; assumption.
  - rewrite H. unfold sound_above, reloaded. cbn. split; [|lia].
    unfold tasks_of_text. rewrite <- (lines_tasks_enumerate 1).
    apply lines_tasks_well_formed.
  - rewrite Hs. split; [exact Ht|cbn; lia].
Qed.

Lemma sound_check_and_notify st :
  sound_above w st -> sound_above w (snd (check_and_notify st)).
Proof.
  intros [Ht Hw]. pose proof (check_and_notify_run st) as H. cbv zeta in H.
  destruct H as (fired & _ & Hlm & _ & _ & _ & H).
  split; [|rewrite Hlm; exact Hw].
  destruct (fst (check_and_notify st)) as [[]|e].
  - destruct H as (_ & _ & Hsub).
    exact (subsequence_forallb well_formed _ _ Hsub Ht).
  - destruct H as (_ & Heq & _). rewrite Heq. exact Ht.
Qed.

Lemma sound_asyncio_sleep fault stop st :
  sound_above w st -> sound_above w (snd (asyncio_sleep fault stop st)).
Proof.
  intros H. unfold asyncio_sleep, bind. destruct stop; destruct fault; exact H.
Qed.

Lemma sound_bind {A B} (m : M A) (k : A -> M B) st :
  sound_above w (snd (m st)) ->
  (forall a st1, sound_above w st1 -> sound_above w (snd (k a st1))) ->
  sound_above w (snd (bind m k st)).
Proof.
  intros Hm Hk. unfold bind. destruct (m st) as [[a|e] st1]; cbn [snd] in *.
  - apply Hk, Hm.
  - exact Hm.
Qed.

Lemma sound_tick_try t st :
  sound_above w st -> sound_above w (snd (tick_try t st)).
Proof.
  intros H. unfold tick_try.
  apply sound_bind; [apply sound_load_tasks, H|].
  intros _ st1 H1.
  apply sound_bind; [apply sound_check_and_notify, H1|].
  intros _ st2 H2. apply sound_asyncio_sleep, H2.
Qed.

Lemma sound_monitor_loop script st :
  sound_above w st -> sound_above w (snd (monitor_loop script st)).
Proof.
  revert st. induction script as [|t script IH]; intros st H; cbn [monitor_loop].
  - destruct (_monitoring st); exact H.
  - destruct (_monitoring st); cbn [negb]; [|exact H].
    pose proof (sound_tick_try t st H) as Ht.
    destruct (tick_try t st) as [[[]|e] st1]; cbn [snd] in Ht.
    + apply IH, Ht.
    + destruct (is_CancelledError e); [exact Ht|].
      destruct (is_Exception e); [|exact Ht].
      assert (Hb : sound_above w
                (snd ((log ERROR (MonitorTickError e);;
                       asyncio_sleep (backoff_fault t) (stop_requested t)) st1))).
      { apply sound_bind; [apply sound_log, Ht|].
        intros _ st2 H2. apply sound_asyncio_sleep, H2. }
      destruct ((log ERROR (MonitorTickError e);;
                 asyncio_sleep (backoff_fault t) (stop_requested t)) st1)
        as [[[]|e'] st2]; cbn [snd] in Hb; [apply IH, Hb|exact Hb].
Qed.

Lemma sound_monitor_tasks script st :
  sound_above w st -> sound_above w (snd (monitor_tasks script st)).
Proof.
  intros H. unfold monitor_tasks, monitoring_context. cbv zeta.
  pose proof (sound_monitor_loop script
                (snd ((set_monitoring true;; log INFO MonitorStarted) st)) H) as Hl.
  destruct (monitor_loop script _) as [[|e|] st1]; cbn [snd] in *.
  - exact Hl.
  - destruct (is_Exception e); exact Hl.
  - exact Hl.
Qed.

End MonitorInvariant.

(** X6: however long [monitor_tasks] runs and whatever happens during the
    ticks (reloads, notifications, failures, cancellation), the task list
    only ever holds well-formed tasks if it did at the start, and the
    watermark never goes back. *)
Theorem monitor_tasks_keeps_tasks_well_formed (U : UnicodeDB)
    (script : list Tick) (st : State)
    (Hstart : forallb well_formed (tasks st) = true) :
  let st' := snd (monitor_tasks script st) in
  forallb well_formed (tasks st') = true
  /\ (last_modified st <= last_modified st')%Z.
Proof.
  cbv zeta. apply (sound_monitor_tasks (last_modified st)).
  split; [exact Hstart|lia].
Qed.

Definition loading_tick : Tick :=
  mk_Tick (mk_fs true (Ok 100%Z) (Ok three_tasks_file)) None None false.

Lemma monitor_tasks_keeps_tasks_well_formed_witness :
  let st := state_at (mk_time 10 0 0 0) [nine_oclock] in
  let st' := snd (@monitor_tasks sample_db [loading_tick; cancelled_tick] st) in
  tasks st' = [lunch; client_meeting]
  /\ forallb well_formed (tasks st') = true
  /\ (last_modified st <= last_modified st')%Z.
Proof.
  cbv zeta. split; [vm_compute; reflexivity|].
  exact (monitor_tasks_keeps_tasks_well_formed sample_db
           [loading_tick; cancelled_tick]
           (state_at (mk_time 10 0 0 0) [nine_oclock]) eq_refl).
Defined.

(** ** Reading back the written form of a task *)

(** [t.strftime('%H:%M')] for a [datetime.time] (hour below 24, minute
    below 60): two digits each. *)
Definition strftime_HM (t : pytime) : str := clock_HHMM (hour t) (minute t).

(** [Task.__str__] *)
Definition Task_str (self : Task) : str :=
  strftime_HM (time self) ++ u8 " - " ++ description self.

Lemma single_spaced_single_line d : single_spaced d = true -> single_line d = true.
Proof.
  unfold single_line. induction d as [|c d IH]; [reflexivity|].
  cbn [single_spaced forallb]. intros H. apply andb_true_iff in H.
  destruct H as [Hc H]. rewrite (IH H), andb_true_r.
  destruct (c =? LF) eqn:E; [|reflexivity]. apply N.eqb_eq in E. subst c.
  cbn in Hc. discriminate.
Qed.

Lemma collapse_spaces_fixed in_run d :
  single_spaced d = true -> (in_run = true -> starts_with_space d = false) ->
  collapse_spaces in_run d = d.
Proof.
  revert in_run. induction d as [|c d IH]; intros in_run H Hrun; [reflexivity|].
  cbn [single_spaced] in H. apply andb_true_iff in H. destruct H as [Hc H].
  cbn [collapse_spaces]. destruct (is_space c) eqn:Ec.
  - cbn [negb orb] in Hc. apply andb_true_iff in Hc. destruct Hc as [Hsp Hnext].
    apply N.eqb_eq in Hsp. subst c.
    destruct in_run; [cbn in Hrun; specialize (Hrun eq_refl); discriminate|].
    f_equal. apply IH; [exact H|]. intros _.
    destruct (starts_with_space d); [discriminate|reflexivity].
  - f_equal. apply IH; [exact H|discriminate].
Qed.

Section StripFixed.
Variable p : char -> bool.

Lemma lstrip_leading w d :
  forallb p w = true -> lstrip p (w ++ d) = lstrip p d.
Proof.
  unfold lstrip. induction w as [|c w IH]; [reflexivity|]. cbn [forallb app dropwhile].
  intros H. apply andb_true_iff in H. destruct H as [Hc H]. rewrite Hc. exact (IH H).
Qed.

Lemma strip_fixed d :
  match d with c :: _ => p c = false | [] => True end ->
  match rev d with c :: _ => p c = false | [] => True end ->
  rstrip p (lstrip p d) = d.
Proof.
  intros Hs He. unfold rstrip, lstrip.
  rewrite (dropwhile_id p d Hs), (dropwhile_id p (rev d) He). apply rev_involutive.
Qed.

End StripFixed.

Lemma rev_head_app (a d : str) c r :
  rev d = c :: r -> exists r', rev (a ++ d) = c :: r'.
Proof. intros H. rewrite rev_app_distr, H. cbn [app]. eauto. Qed.

Section WrittenForm.
Context {U : UnicodeDB}.

Lemma digit_not_space c : is_digit c = true -> is_space c = false.
Proof.
  intros H. destruct (is_space c) eqn:E; [|reflexivity].
  rewrite (space_not_digit c E) in H. discriminate.
Qed.

(** Where nothing matches, [re.sub] changes nothing. *)
Lemma sub_time_no_match prev s :
  re_search time_pattern prev s = None -> re_sub_del time_pattern prev s 0 = s.
Proof.
  revert prev. induction s as [|c s IH]; intros prev; [reflexivity|].
  rewrite search_time_cons, sub_time_cons.
  destruct (time_match prev (c :: s)); [discriminate|].
  destruct (re_search time_pattern (Some c) s) as [[[pre t] post]|] eqn:E;
    [discriminate|].
  intros _. rewrite (IH _ E). reflexivity.
Qed.

Lemma time_match_not_digit prev c s :
  is_digit c = false -> time_match prev (c :: s) = None.
Proof.
  intros H. destruct (time_match prev (c :: s)) as [n|] eqn:E; [|reflexivity].
  apply time_match_starts_with_digit in E. congruence.
Qed.

Lemma hyphen_not_digit : is_digit HYPHEN = false.
Proof. unfold is_digit, HYPHEN. rewrite ascii_to_decimal by lia. reflexivity. Qed.

Lemma hash_not_digit : is_digit HASH = false.
Proof. unfold is_digit, HASH. rewrite ascii_to_decimal by lia. reflexivity. Qed.

(** The line [HH:MM - d], for a tidy description [d] that holds no time:
    it is its own strip, its first time is [HH:MM] at the very start, and
    deleting the times leaves [" - d"]. *)
Lemma written_line h m d :
  (h < 24)%nat -> (m < 60)%nat -> tidy d = true ->
  re_search time_pattern None d = None ->
  let line := clock_HHMM h m ++ [SPACE; HYPHEN; SPACE] ++ d in
  py_strip line = line
  /\ re_search time_pattern None line
     = Some ([], clock_HHMM h m, [SPACE; HYPHEN; SPACE] ++ d)
  /\ re_sub_del time_pattern None line 0 = [SPACE; HYPHEN; SPACE] ++ d
  /\ is_empty line || startswith HASH line = false.
Proof.
  intros Hh Hm Htidy Hnone.
  unfold tidy in Htidy.
  apply andb_true_iff in Htidy. destruct Htidy as [Htidy Hss].
  apply andb_true_iff in Htidy. destruct Htidy as [Htidy Hend].
  apply andb_true_iff in Htidy. destruct Htidy as [Hne Hstart].
  apply negb_true_iff in Hne, Hstart, Hend.
  pose proof (clock_HHMM_accepted h m Hh Hm) as Hacc.
  apply parse_time_token in Hacc. destruct Hacc as [Htok Hval].
  remember (clock_HHMM h m) as tok eqn:Etok.
  assert (Hshape : exists a b c e, tok = [a; b; COLON; c; e])
    by (subst tok; unfold clock_HHMM, two_digits; cbn [app]; eauto).
  destruct Hshape as (a & b & c & e & ->).
  assert (Ha : is_digit a = true).
  { apply (time_match_starts_with_digit None a [b; COLON; c; e] 5).
    unfold time_match. cbn [word_before]. rewrite Htok. reflexivity. }
  cbv zeta.
  set (line := [a; b; COLON; c; e] ++ [SPACE; HYPHEN; SPACE] ++ d).
  assert (Hsearch : re_search time_pattern None line
                    = Some ([], [a; b; COLON; c; e], [SPACE; HYPHEN; SPACE] ++ d)).
  { unfold line. cbn [app]. rewrite search_time_cons.
    unfold time_match. cbn [word_before word_after]. rewrite Htok.
    rewrite (space_not_word SPACE eq_refl). reflexivity. }
  split; [|split; [exact Hsearch|split]].
  - apply py_strip_fixed.
    + cbn. apply digit_not_space, Ha.
    + unfold ends_with_space in *. destruct (rev d) as [|x r] eqn:Er.
      * destruct d; [discriminate|]. apply (f_equal (@length _)) in Er.
        rewrite length_rev in Er. discriminate.
      * destruct (rev_head_app ([a; b; COLON; c; e] ++ [SPACE; HYPHEN; SPACE])
                    d x r Er) as [r' Hr'].
        unfold line. rewrite app_assoc, Hr'. exact Hend.
  - rewrite (sub_time_after_search _ _ _ _ _ Hsearch). cbn [app last].
    rewrite sub_time_cons, (time_match_space _ SPACE _ eq_refl).
    rewrite sub_time_cons, (time_match_not_digit _ HYPHEN _ hyphen_not_digit).
    rewrite sub_time_cons, (time_match_space _ SPACE _ eq_refl).
    rewrite (sub_time_prev (Some SPACE) None d 0)
      by (cbn; apply (space_not_word SPACE eq_refl)).
    rewrite (sub_time_no_match None d Hnone). reflexivity.
  - unfold line. cbn [app is_empty startswith orb].
    destruct (a =? HASH) eqn:E; [|reflexivity].
    apply N.eqb_eq in E. subst a. rewrite hash_not_digit in Ha. discriminate.
Qed.

(** A character that is neither a space nor a hyphen survives
    [strip(" -")]. *)
Lemma not_space_or_hyphen x :
  starts_with_space [x] = false -> startswith HYPHEN [x] = false ->
  space_or_hyphen x = false.
Proof.
  cbn [startswith starts_with_space]. intros Hs Hh.
  unfold space_or_hyphen. cbn [existsb]. rewrite Hh, orb_false_r.
  destruct (x =? SPACE) eqn:Ex; [|reflexivity].
  apply N.eqb_eq in Ex. subst x. discriminate.
Qed.

(** The line [HH:MM - d], for a tidy description [d] that holds no time
    and neither starts nor ends with a hyphen. *)
Lemma line_result_written h m d n :
  (h < 24)%nat -> (m < 60)%nat -> tidy d = true ->
  re_search time_pattern None d = None ->
  startswith HYPHEN d = false -> startswith HYPHEN (rev d) = false ->
  fst (line_result n (clock_HHMM h m ++ [SPACE; HYPHEN; SPACE] ++ d))
    = [mk_Task (mk_time h m 0 0) d].
Proof.
  intros Hh Hm Htidy Hnone Hhy1 Hhy2.
  destruct (written_line h m d Hh Hm Htidy Hnone)
    as (Hstrip & Hsearch & Hsub & Hskip).
  pose proof (clock_HHMM_accepted h m Hh Hm) as Hacc.
  apply parse_time_token in Hacc. destruct Hacc as [_ Hval].
  unfold tidy in Htidy.
  apply andb_true_iff in Htidy. destruct Htidy as [Htidy Hss].
  apply andb_true_iff in Htidy. destruct Htidy as [Htidy Hend].
  apply andb_true_iff in Htidy. destruct Htidy as [Hne Hstart].
  apply negb_true_iff in Hne, Hstart, Hend.
  set (line := clock_HHMM h m ++ [SPACE; HYPHEN; SPACE] ++ d) in *.
  assert (Hdesc : description_of line = d).
  { unfold description_of. rewrite Hsub. unfold py_strip_chars.
    rewrite lstrip_leading by reflexivity.
    rewrite strip_fixed.
    - rewrite collapse_spaces_fixed by (auto; discriminate).
      apply py_strip_fixed; assumption.
    - destruct d as [|x r]; [exact I|]. cbn [startswith starts_with_space] in *.
      cbn [existsb]. rewrite Hhy1, orb_false_r.
      destruct (x =? SPACE) eqn:Ex; [|reflexivity].
      apply N.eqb_eq in Ex. subst x. discriminate.
    - unfold ends_with_space in Hend.
      destruct (rev d) as [|x r]; [exact I|]. cbn [startswith starts_with_space] in *.
      cbn [existsb]. rewrite Hhy2, orb_false_r.
      destruct (x =? SPACE) eqn:Ex; [|reflexivity].
      apply N.eqb_eq in Ex. subst x. discriminate. }
  rewrite line_result_tasks. rewrite Hstrip, Hsearch, Hdesc, Hne, Hskip.
  rewrite <- Hval. rewrite py_strip_fixed by assumption. reflexivity.
Qed.

(** The validator takes the line [HH:MM - d] when [d] starts with
    something other than a space or a hyphen. *)
Lemma validate_written h m d :
  (h < 24)%nat -> (m < 60)%nat -> tidy d = true ->
  re_search time_pattern None d = None ->
  startswith HYPHEN d = false ->
  validate_task_input (clock_HHMM h m ++ [SPACE; HYPHEN; SPACE] ++ d)
    = Ok true.
Proof.
  intros Hh Hm Htidy Hnone Hhy1.
  destruct (written_line h m d Hh Hm Htidy Hnone)
    as (_ & Hsearch & Hsub & _).
  rewrite validate_task_input_spec, Hsearch, Hsub.
  unfold tidy in Htidy.
  apply andb_true_iff in Htidy. destruct Htidy as [Htidy _].
  apply andb_true_iff in Htidy. destruct Htidy as [Htidy _].
  apply andb_true_iff in Htidy. destruct Htidy as [Hne Hstart].
  apply negb_true_iff in Hne, Hstart.
  destruct d as [|x r]; [discriminate|].
  cbn [app forallb]. rewrite (not_space_or_hyphen x); auto.
Qed.

End WrittenForm.

Lemma single_line_app a b :
  single_line (a ++ b) = single_line a && single_line b.
Proof. apply forallb_app. Qed.

Lemma clock_HHMM_single_line h m : single_line (clock_HHMM h m) = true.
Proof.
  unfold single_line, clock_HHMM, two_digits, COLON, LF. cbn [app forallb].
  repeat match goal with
  | |- context [?x =? 10] =>
    replace (x =? 10) with false by (symmetry; apply N.eqb_neq; lia)
  end.
  reflexivity.
Qed.

(** X7: the written form of a task reads back as the task.  For a
    well-formed task whose description holds no time and neither starts
    nor ends with a hyphen, [str(task)], that is ["HH:MM - description"],
    passes [validate_task_input], and parsing it gives exactly that
    task. *)
Theorem parse_written_task (U : UnicodeDB) (t : Task) (st : State)
    (Hwf : well_formed t = true)
    (Hnone : re_search time_pattern None (description t) = None)
    (Hfirst : startswith HYPHEN (description t) = false)
    (Hlast : startswith HYPHEN (rev (description t)) = false) :
  validate_task_input (Task_str t) = Ok true
  /\ fst (parse_tasks_from_text (Task_str t) st) = Ok [t].
Proof.
  destruct t as [[h m s u] d]. unfold well_formed in Hwf.
  cbn [time description hour minute second microsecond] in *.
  repeat (apply andb_true_iff in Hwf; destruct Hwf as [Hwf ?H]).
  apply Nat.ltb_lt in Hwf, H2. apply Nat.eqb_eq in H0, H1. subst s u.
  unfold Task_str, strftime_HM. cbn [time description hour minute].
  change (u8 " - ") with [SPACE; HYPHEN; SPACE].
  split; [apply validate_written; auto|].
  rewrite parse_single_line.
  - rewrite (line_result_written h m d 1); auto.
  - rewrite !single_line_app, clock_HHMM_single_line.
    unfold tidy in H. apply andb_true_iff in H. destruct H as [_ H].
    rewrite (single_spaced_single_line d H). reflexivity.
Qed.

Lemma parse_written_task_witness :
  Task_str lunch = u8 "12:30 - Обед"
  /\ @validate_task_input sample_db (Task_str lunch) = Ok true
  /\ fst (@parse_tasks_from_text sample_db (Task_str lunch)
            (state_at (mk_time 8 0 0 0) [])) = Ok [lunch].
Proof.
  split; [reflexivity|].
  exact (parse_written_task sample_db lunch (state_at (mk_time 8 0 0 0) [])
           eq_refl eq_refl eq_refl eq_refl).
Defined.

(** ** Writing the tasks file and loading it again *)
















Section WriteThenLoad.
Context {U : UnicodeDB}.





End WriteThenLoad.







(** ** Notifications over a run of the monitor *)

(** From [st] to [st']: some tasks were notified and removed, nothing was
    loaded, and the standard output is the same. *)
Definition only_dispatched (st st' : State) : Prop :=
  exists fired,
    console st' = console st ++ reminders fired
    /\ Permutation (tasks st) (fired ++ tasks st')
    /\ subsequence (tasks st') (tasks st)
    /\ last_modified st' = last_modified st
    /\ stdout st' = stdout st.

Lemma only_dispatched_refl st : only_dispatched st st.
Proof.
  exists []. cbn [reminders flat_map app]. rewrite app_nil_r.
  split; [reflexivity|]. split; [apply Permutation_refl|].
  split; [apply subsequence_refl|]. split; reflexivity.
Qed.

Lemma only_dispatched_trans a b c :
  only_dispatched a b -> only_dispatched b c -> only_dispatched a c.
Proof.
  intros (f1 & Hc1 & Hp1 & Hs1 & Hw1 & Ho1) (f2 & Hc2 & Hp2 & Hs2 & Hw2 & Ho2).
  exists (f1 ++ f2). split; [|split; [|split; [|split]]].
  - rewrite Hc2, Hc1. unfold reminders. rewrite flat_map_app, app_assoc. reflexivity.
  - apply (perm_trans Hp1). rewrite <- app_assoc.
    apply Permutation_app_head. exact Hp2.
  - exact (subsequence_trans _ _ _ Hs2 Hs1).
  - congruence.
  - congruence.
Qed.

(** A step that touches neither tasks, console, watermark nor standard
    output. *)
Lemma only_dispatched_same st st' :
  tasks st' = tasks st -> console st' = console st ->
  last_modified st' = last_modified st -> stdout st' = stdout st ->
  only_dispatched st st'.
Proof.
  intros Ht Hc Hw Ho. exists []. cbn [reminders flat_map app].
  rewrite app_nil_r, Ht.
  split; [exact Hc|]. split; [apply Permutation_refl|].
  split; [apply subsequence_refl|]. split; [exact Hw|exact Ho].
Qed.

(** What the console takes for the tasks at the start it takes for the
    tasks that are left. *)
Lemma console_takes_dispatched st0 st :
  only_dispatched st0 st -> console_takes st0 (tasks st0) ->
  console_takes st (tasks st).
Proof.
  intros (f & _ & _ & Hsub & _ & Ho) H k t Ht. rewrite Ho.
  apply H. exact (subsequence_In t _ _ Hsub Ht).
Qed.

Lemma only_dispatched_check st :
  console_takes st (tasks st) ->
  only_dispatched st (snd (check_and_notify st)).
Proof.
  intros Hout. pose proof (check_and_notify_run st) as H. cbv zeta in H.
  destruct H as (fired & _ & Hw & _ & Ho & _ & H).
  destruct (fst (check_and_notify st)) as [[]|e].
  - destruct H as (Hc & Hperm & Hsub). exists fired.
    split; [exact Hc|]. split; [exact Hperm|]. split; [exact Hsub|].
    split; [exact Hw|exact Ho].
  - destruct H as ((k & t & Ht & Hk) & _). destruct (Hout k t Ht) as [Hb Hr].
    destruct Hk as [Hk|Hk]; congruence.
Qed.

Section OncePerCycle.
Context {U : UnicodeDB}.

(** The file of tick [t] is there and not newer than the watermark [w]. *)
Definition file_unchanged (w : Z) (t : Tick) : Prop :=
  fs_exists (tick_fs t) = true
  /\ exists m, fs_mtime (tick_fs t) = Ok m /\ (m <= w)%Z.

Lemma only_dispatched_bind {A B} (m : M A) (k : A -> M B) st0 st :
  only_dispatched st0 (snd (m st)) ->
  (forall a st1, only_dispatched st0 st1 -> only_dispatched st0 (snd (k a st1))) ->
  only_dispatched st0 (snd (bind m k st)).
Proof.
  intros Hm Hk. unfold bind. destruct (m st) as [[a|e] st1]; cbn [snd] in *.
  - apply Hk, Hm.
  - exact Hm.
Qed.

Lemma only_dispatched_sleep st0 fault stop st :
  only_dispatched st0 st ->
  only_dispatched st0 (snd (asyncio_sleep fault stop st)).
Proof.
  intros H. apply (only_dispatched_trans _ _ _ H).
  unfold asyncio_sleep, bind. destruct stop; destruct fault;
    apply only_dispatched_same; reflexivity.
Qed.

Lemma only_dispatched_tick t st :
  file_unchanged (last_modified st) t -> console_takes st (tasks st) ->
  only_dispatched st (snd (tick_try t st)).
Proof.
  intros (Hex & m & Hm & Hle) Hout. unfold tick_try.
  apply only_dispatched_bind.
  { rewrite (load_tasks_unchanged _ st m Hex Hm Hle). apply only_dispatched_refl. }
  intros _ st1 H1. apply only_dispatched_bind.
  { apply (only_dispatched_trans _ _ _ H1).
    apply only_dispatched_check.
    exact (console_takes_dispatched st st1 H1 Hout). }
  intros _ st2 H2. apply only_dispatched_sleep, H2.
Qed.

Lemma only_dispatched_loop script st0 st :
  Forall (file_unchanged (last_modified st0)) script ->
  console_takes st0 (tasks st0) ->
  only_dispatched st0 st ->
  only_dispatched st0 (snd (monitor_loop script st)).
Proof.
  intros Hscript Hout. revert st.
  induction Hscript as [|t script Ht Hscript IH]; intros st H; cbn [monitor_loop].
  - destruct (_monitoring st); exact H.
  - destruct (_monitoring st); cbn [negb]; [|exact H].
    assert (Hw : last_modified st = last_modified st0)
      by (destruct H as (f & _ & _ & _ & Hw & _); exact Hw).
    rewrite <- Hw in Ht.
    pose proof (only_dispatched_trans _ _ _ H
                  (only_dispatched_tick t st Ht
                     (console_takes_dispatched st0 st H Hout))) as H1.
    destruct (tick_try t st) as [[[]|e] st1]; cbn [snd] in H1.
    + apply IH, H1.
    + destruct (is_CancelledError e).
      { cbn [snd]. apply (only_dispatched_trans _ _ _ H1).
        apply only_dispatched_same; reflexivity. }
      destruct (is_Exception e); [|exact H1].
      assert (Hb : only_dispatched st0
                (snd ((log ERROR (MonitorTickError e);;
                       asyncio_sleep (backoff_fault t) (stop_requested t)) st1))).
      { unfold bind at 1. cbn [log].
        apply only_dispatched_sleep.
        apply (only_dispatched_trans _ _ _ H1).
        apply only_dispatched_same; reflexivity. }
      destruct ((log ERROR (MonitorTickError e);;
                 asyncio_sleep (backoff_fault t) (stop_requested t)) st1)
        as [[[]|e'] st2]; cbn [snd] in Hb; [apply IH, Hb|exact Hb].
Qed.

Lemma only_dispatched_monitor_tasks script st :
  Forall (file_unchanged (last_modified st)) script ->
  console_takes st (tasks st) ->
  only_dispatched st (snd (monitor_tasks script st)).
Proof.
  intros Hscript Hout. unfold monitor_tasks, monitoring_context. cbv zeta.
  set (st1 := snd ((set_monitoring true;; log INFO MonitorStarted) st)).
  assert (H1 : only_dispatched st st1) by (apply only_dispatched_same; reflexivity).
  pose proof (only_dispatched_loop script st st1 Hscript Hout H1) as Hl.
  destruct (monitor_loop script st1) as [[|e|] st2]; cbn [snd] in *.
  - apply (only_dispatched_trans _ _ _ Hl). apply only_dispatched_same; reflexivity.
  - destruct (is_Exception e);
      apply (only_dispatched_trans _ _ _ Hl); apply only_dispatched_same; reflexivity.
  - exact Hl.
Qed.

End OncePerCycle.

(** X10: as long as the file does not change (each tick finds it there
    and not newer than the watermark) and the standard output takes the
    bell and the reminder of every task of the list, a run of
    [monitor_tasks] notifies every entry of the task list at most once:
    the tasks it notified, together with those still pending at the end,
    are the entries it started with; the console gained one bell and one
    reminder per notified task; the pending tasks kept their order.  This
    holds whatever the sleeps raise and however the run ends.  (Where the
    standard output refuses a reminder the pass stops before any removal,
    and the next tick notifies again.) *)
Theorem monitor_tasks_notifies_once_per_load (U : UnicodeDB)
    (script : list Tick) (st : State)
    (Hfile : Forall (file_unchanged (last_modified st)) script)
    (Hconsole : console_takes st (tasks st)) :
  let st' := snd (monitor_tasks script st) in
  exists fired,
    console st' = console st ++ reminders fired
    /\ Permutation (tasks st) (fired ++ tasks st')
    /\ subsequence (tasks st') (tasks st)
    /\ last_modified st' = last_modified st.
Proof.
  cbv zeta.
  destruct (only_dispatched_monitor_tasks script st Hfile Hconsole)
    as (fired & Hc & Hp & Hs & Hw & _).
  exists fired. repeat split; assumption.
Qed.

Definition unchanged_tick : Tick :=
  mk_Tick (mk_fs true (Ok 100%Z) (Ok three_tasks_file)) None None false.
Definition unchanged_cancelled_tick : Tick :=
  mk_Tick (mk_fs true (Ok 100%Z) (Ok three_tasks_file))
    (Some CancelledError) None false.

Lemma monitor_tasks_notifies_once_per_load_witness :
  let st := with_watermark 100 (state_at (mk_time 13 0 0 0) sample_tasks) in
  let st' := snd (@monitor_tasks sample_db
                    [unchanged_tick; unchanged_cancelled_tick] st) in
  (console st' = reminders [nine_oclock; lunch] /\ tasks st' = [client_meeting])
  /\ exists fired,
       console st' = console st ++ reminders fired
       /\ Permutation (tasks st) (fired ++ tasks st')
       /\ subsequence (tasks st') (tasks st)
       /\ last_modified st' = last_modified st.
Proof.
  cbv zeta. split; [split; vm_compute; reflexivity|].
  apply (monitor_tasks_notifies_once_per_load sample_db).
  - assert (H : forall t, tick_fs t = mk_fs true (Ok 100%Z) (Ok three_tasks_file) ->
                          file_unchanged 100 t).
    { intros t E. unfold file_unchanged. rewrite E. split; [reflexivity|].
      exists 100%Z. split; [reflexivity|lia]. }
    apply Forall_cons; [apply H; reflexivity|].
    apply Forall_cons; [apply H; reflexivity|]. apply Forall_nil.
  - intros k t _. split; reflexivity.
Defined.

(** ** One tick on a changed file *)

Lemma tick_try_changed_file {U : UnicodeDB} t st m content now :
  sleep_fault t = None ->
  fs_exists (tick_fs t) = true -> fs_mtime (tick_fs t) = Ok m ->
  fs_read_text (tick_fs t) = Ok content ->
  (last_modified st < m)%Z -> (forall i, clock st i = now) ->
  console_takes st (tasks_of_text content) ->
  let st' := snd (tick_try t st) in
  fst (tick_try t st) = Ok tt
  /\ tasks st' = filter (fun t => negb (due now t)) (tasks_of_text content)
  /\ console st' = console st ++ reminders (filter (due now) (tasks_of_text content))
  /\ last_modified st' = m.
Proof.
  intros Hs Hex Hm Hrd Hlt Hclock Hout. cbv zeta.
  assert (E : tick_try t st
              = asyncio_sleep None (stop_requested t)
                  (with_tasks
                     (filter (fun t => negb (due now t)) (tasks_of_text content))
                     (notified (filter (due now) (tasks_of_text content))
                        (length (tasks_of_text content))
                        (reloaded m content st)))).
  { unfold tick_try. rewrite Hs. unfold bind at 1.
    rewrite (load_tasks_read (tick_fs t) st m content Hex Hm Hlt Hrd).
    unfold bind at 1.
    rewrite (check_and_notify_const now (reloaded m content st)).
    - reflexivity.
    - intros i. apply Hclock.
    - intros k x Hx. apply filter_In in Hx. apply (Hout k x), Hx. }
  rewrite E. unfold asyncio_sleep, bind.
  destruct (stop_requested t); cbn; auto.
Qed.

(** X11: one undisturbed tick of the monitor on a file that changed, with
    the clock at [now], a standard output that takes the bell and the
    reminder of every task of the file, and a sleep that returns: the
    file is parsed; reminders are printed for exactly its tasks with
    [now >= time], in file order; the pending list becomes its other
    tasks, in file order; the watermark is the file's time stamp.  What
    was pending before plays no part. *)
Theorem tick_on_changed_file (U : UnicodeDB) (t : Tick) (st : State)
    (m : Z) (content : str) (now : pytime)
    (Hsleep : sleep_fault t = None)
    (Hexists : fs_exists (tick_fs t) = true)
    (Hmtime : fs_mtime (tick_fs t) = Ok m)
    (Hread : fs_read_text (tick_fs t) = Ok content)
    (Hnewer : (last_modified st < m)%Z)
    (Hclock : forall i, clock st i = now)
    (Hconsole : forall parsed,
        fst (parse_tasks_from_text content st) = Ok parsed ->
        console_takes st parsed) :
  let st' := snd (tick_try t st) in
  exists parsed,
    fst (parse_tasks_from_text content st) = Ok parsed
    /\ fst (tick_try t st) = Ok tt
    /\ tasks st' = filter (fun t => negb (time_ge now (time t))) parsed
    /\ console st'
       = console st ++ reminders (filter (fun t => time_ge now (time t)) parsed)
    /\ last_modified st' = m.
Proof.
  cbv zeta. exists (tasks_of_text content).
  split; [apply parse_tasks_from_text_tasks|].
  exact (tick_try_changed_file t st m content now Hsleep
           Hexists Hmtime Hread Hnewer Hclock
           (Hconsole _ (parse_tasks_from_text_tasks content st))).
Qed.

Lemma tick_on_changed_file_witness :
  let st := state_at (mk_time 13 0 0 0) [client_meeting] in
  let st' := snd (@tick_try sample_db loading_tick st) in
  tasks st' = [client_meeting]
  /\ console st' = reminders [nine_oclock; lunch]
  /\ last_modified st' = 100%Z.
Proof.
  cbv zeta.
  destruct (tick_on_changed_file sample_db loading_tick
              (state_at (mk_time 13 0 0 0) [client_meeting]) 100%Z
              three_tasks_file (mk_time 13 0 0 0)
              eq_refl eq_refl eq_refl eq_refl
              ltac:(cbn; lia) (fun _ => eq_refl)
              (fun _ _ _ _ _ => conj eq_refl eq_refl))
    as (parsed & Hp & _ & Ht & Hc & Hw).
  assert (E : Ok parsed = Ok sample_tasks)
    by (rewrite <- Hp; vm_compute; reflexivity).
  inversion E. subst parsed.
  split; [exact Ht|]. split; [exact Hc|exact Hw].
Defined.

(** ** What the validator decides *)

Lemma forallb_false_ex {A} (f : A -> bool) (l : list A) :
  forallb f l = false <-> exists x, In x l /\ f x = false.
Proof.
  induction l as [|a l IH]; cbn [forallb In].
  - split; [discriminate|intros (x & [] & _)].
  - rewrite andb_false_iff, IH. split.
    + intros [H|(x & Hx & Hf)]; [exists a; auto|exists x; auto].
    + intros (x & [->|Hx] & Hf); [auto|right; eauto].
Qed.

Lemma space_or_hyphen_false c :
  space_or_hyphen c = false <-> c <> SPACE /\ c <> HYPHEN.
Proof.
  unfold space_or_hyphen. cbn [existsb]. rewrite orb_false_r, orb_false_iff.
  rewrite !N.eqb_neq. reflexivity.
Qed.

(** X12: [validate_task_input] answers for every string, and its
    [except ValueError] branch is never taken: the answer is [True]
    exactly when the string holds a time and, once every time is deleted
    from it, some character other than a space and a hyphen is left. *)
Theorem validate_task_input_decides (U : UnicodeDB) (s : str) :
  exists b, validate_task_input s = Ok b
  /\ (b = true <->
      (exists m, re_search time_pattern None s = Some m)
      /\ (exists c, In c (re_sub_del time_pattern None s 0)
                    /\ c <> SPACE /\ c <> HYPHEN)).
Proof.
  rewrite validate_task_input_spec. eexists. split; [reflexivity|].
  destruct (re_search time_pattern None s) as [m|].
  - rewrite negb_true_iff, forallb_false_ex. split.
    + intros (c & Hc & Hf). split; [eauto|].
      exists c. split; [exact Hc|]. apply space_or_hyphen_false, Hf.
    + intros (_ & c & Hc & Hf). exists c. split; [exact Hc|].
      apply space_or_hyphen_false, Hf.
  - split; [discriminate|intros ((m & Hm) & _); discriminate].
Qed.

(** ** Comment lines and blank lines *)

Section SkippedLines.
Context {U : UnicodeDB}.

(** The levels a line logs at do not depend on its number. *)
Lemma line_result_levels_any_number n m raw :
  map lvl (snd (line_result n raw)) = map lvl (snd (line_result m raw)).
Proof.
  unfold line_result.
  destruct (is_empty (py_strip raw) || startswith HASH (py_strip raw));
    [reflexivity|].
  destruct (re_search time_pattern None (py_strip raw)) as [[[pre t] post]|];
    [|reflexivity].
  destruct (is_empty (description_of (py_strip raw))); [reflexivity|].
  destruct (Task_init t (description_of (py_strip raw))); reflexivity.
Qed.

Lemma lines_records_levels n ls :
  map lvl (lines_records (enumerate n ls))
    = flat_map (fun raw => map lvl (snd (line_result 1 raw))) ls.
Proof.
  revert n. induction ls as [|raw ls IH]; intros n; [reflexivity|].
  unfold lines_records in *. cbn [enumerate flat_map fst snd].
  rewrite map_app, IH, (line_result_levels_any_number n 1). reflexivity.
Qed.

Lemma parse_tasks_from_text_levels text st :
  map lvl (logger (snd (parse_tasks_from_text text st)))
    = map lvl (logger st)
      ++ flat_map (fun raw => map lvl (snd (line_result 1 raw)))
           (split_lines text).
Proof.
  rewrite parse_tasks_from_text_spec. cbn [snd add_records logger].
  rewrite map_app, lines_records_levels. reflexivity.
Qed.

Lemma line_result_skipped n raw :
  is_empty (py_strip raw) || startswith HASH (py_strip raw) = true ->
  line_result n raw = ([], []).
Proof. intros H. unfold line_result. rewrite H. reflexivity. Qed.

End SkippedLines.

(** X13: a comment line or a blank line leaves no trace.  Putting a line
    that is empty once stripped, or whose stripped form starts with [#],
    between two parts of a text changes neither the tasks
    [parse_tasks_from_text] returns nor the levels of the records it
    logs, whatever else the line holds. *)
Theorem skipped_line_leaves_no_trace (U : UnicodeDB) (a c b : str) (st : State)
    (Hline : single_line c = true)
    (Hskip : is_empty (py_strip c) || startswith HASH (py_strip c) = true) :
  let with_line := parse_tasks_from_text (a ++ [LF] ++ c ++ [LF] ++ b) st in
  let without := parse_tasks_from_text (a ++ [LF] ++ b) st in
  fst with_line = fst without
  /\ map lvl (logger (snd with_line)) = map lvl (logger (snd without)).
Proof.
  cbv zeta. rewrite !parse_tasks_from_text_tasks, !parse_tasks_from_text_levels.
  cbn [app]. rewrite !split_lines_app, (split_lines_single c Hline).
  rewrite !flat_map_app. cbn [flat_map].
  rewrite (line_result_skipped 1 c Hskip). cbn [fst snd map app].
  split; reflexivity.
Qed.

Lemma skipped_line_leaves_no_trace_witness :
  let st := state_at (mk_time 8 0 0 0) [] in
  let with_line :=
    @parse_tasks_from_text sample_db
      (u8 "09:00 - Stand-up" ++ [LF] ++ u8 "  # 10:00 - Review" ++ [LF]
       ++ u8 "12:30 lunch") st in
  let without :=
    @parse_tasks_from_text sample_db
      (u8 "09:00 - Stand-up" ++ [LF] ++ u8 "12:30 lunch") st in
  fst with_line = fst without
  /\ map lvl (logger (snd with_line)) = map lvl (logger (snd without)).
Proof.
  exact (skipped_line_leaves_no_trace sample_db (u8 "09:00 - Stand-up")
           (u8 "  # 10:00 - Review") (u8 "12:30 lunch")
           (state_at (mk_time 8 0 0 0) []) eq_refl eq_refl).
Defined.
